(** * skribblr-backend: a shallow embedding of the game core

    The development follows the Go sources of the repository:
    - [internal/game/guess.go]   guess handling and scoring,
    - [internal/canvas.go]       pixel messages and coordinate normalisation,
    - the drawing system          ([HandlePixelDrawEnhanced], [ClearCanvas]),
    - the round management        ([HandleWordSelection], [NextRound], ...),
    - the room management         ([getOrCreateRoom], [AddPlayer]),
    - the utilities               ([GetMaskedWord], [UpdatePlayerOrder]),
    - the timers                  ([StartPhaseTimer], [BroadcastTimerUpdate]),
    - the lobby and the phases    ([HandlePlayerReady], [StartGame],
                                   [StartWordSelection], [StartDrawingPhase]),
    - the methods of [Room] and [internal/game/score.go].

    Conventions.  A Go [int] is a [Z]; a [time.Duration] is a [Z] number of
    nanoseconds; [float32] and [float64] values are IEEE-754 numbers of the
    standard library's [SpecFloat] (precision 24 and 53); a [*Player] is an
    address into a heap of [Player] records, so that aliasing between
    [room.Current] and the entries of [room.Players] is kept; a Go map is a
    [gmap]; a panic is the [None] of an [option] result.  A handler is a
    function from the state before the call to the state after it together
    with the list of effects it issued, in program order; [go f(...)] is the
    effect [Go] of a task, which is not run by the handler itself.  The
    room lock is not part of the state: every function embedded here
    releases it before it calls a function that takes it, so that a call
    runs as one sequential step.  ([StartRevealingPhase], [EndGame] and
    [ResetRoomToLobby], which call [CancelPhaseTimer] with the lock held,
    appear as the names of calls in the handlers; they are embedded, with
    the lock, in a section of their own.) *)

From Stdlib Require Import ZArith Ascii String List Bool SpecFloat Sorted.
From stdpp Require Import base option list gmap strings.

#[local] Open Scope string_scope.
#[local] Open Scope list_scope.
#[local] Open Scope Z_scope.

(** ** Floating point numbers of the Go run time *)

Module F32.
Definition prec : Z := 24.
Definition emax : Z := 128.

(** [float32(n)] for an integer [n]. *)
Definition of_int (n : Z) : spec_float := binary_normalize prec emax n 0 false.

Definition mul : spec_float -> spec_float -> spec_float := SFmul prec emax.

(** The [float32] closest to the decimal constant [num/den], as the Go
    compiler rounds an untyped constant assigned to a [float32]. *)
Definition const (num den : Z) : spec_float :=
  SFdiv prec emax (of_int num) (of_int den).
End F32.

Module F64.
Definition prec : Z := 53.
Definition emax : Z := 1024.

Definition of_int (n : Z) : spec_float := binary_normalize prec emax n 0 false.
Definition add : spec_float -> spec_float -> spec_float := SFadd prec emax.
Definition mul : spec_float -> spec_float -> spec_float := SFmul prec emax.
Definition div : spec_float -> spec_float -> spec_float := SFdiv prec emax.
Definition ltb : spec_float -> spec_float -> bool := SFltb.
Definition leb : spec_float -> spec_float -> bool := SFleb.

(** [math.Floor] followed by the conversion to [int], for finite values.
    For infinities and NaN the Go conversion is implementation specific;
    [min_int] is what amd64 produces. *)
Definition min_int : Z := - 2 ^ 63.
Definition floor_to_int (f : spec_float) : Z :=
  match f with
  | S754_zero _ => 0
  | S754_finite s m e =>
      let v := if s then Z.neg m else Z.pos m in
      if 0 <=? e then v * 2 ^ e else v / 2 ^ (- e)
  | _ => min_int
  end.
End F64.

(** [int(f)] on a [float32] or [float64]: truncation towards zero. *)
Definition float_to_int (f : spec_float) : Z :=
  match f with
  | S754_zero _ => 0
  | S754_finite s m e =>
      let v := if s then Z.neg m else Z.pos m in
      if 0 <=? e then v * 2 ^ e else Z.quot v (2 ^ (- e))
  | _ => F64.min_int
  end.

(** ** Scoring ([internal/game/guess.go]) *)

Inductive WordDifficulty := DifficultyEasy | DifficultyMedium | DifficultyHard.

(** [time.Duration]: nanoseconds. *)
Definition Duration := Z.
Definition Millisecond : Duration := 1000000.
Definition Second : Duration := 1000000000.
(** The largest [Duration], to which [time.Since] saturates. *)
Definition maxDuration : Duration := 2 ^ 63 - 1.

(** [Duration.Seconds]: [float64(d / Second) + float64(d % Second) / 1e9],
    with Go's truncating division and remainder. *)
Definition Seconds (d : Duration) : spec_float :=
  let sec := Z.quot d Second in
  let nsec := Z.rem d Second in
  F64.add (F64.of_int sec) (F64.div (F64.of_int nsec) (F64.of_int 1000000000)).

Definition Milliseconds (d : Duration) : Z := Z.quot d Millisecond.

Definition basePoints (wordDifficulty : WordDifficulty) : Z :=
  match wordDifficulty with
  | DifficultyEasy => 100
  | DifficultyMedium => 150
  | DifficultyHard => 200
  end.

(** The [switch] on the elapsed time.  A [float32] variable starts at zero
    and keeps that value when no case applies. *)
Definition speedMultiplier (t : spec_float) : spec_float :=
  if F64.leb (F64.of_int 0) t && F64.ltb t (F64.of_int 10) then F32.const 3 2
  else if F64.leb (F64.of_int 10) t && F64.ltb t (F64.of_int 30) then F32.const 5 4
  else if F64.leb (F64.of_int 30) t && F64.ltb t (F64.of_int 60) then F32.of_int 1
  else if F64.ltb (F64.of_int 60) t then F32.const 3 4
  else S754_zero false.

Definition posMultiplier (p : Z) : spec_float :=
  if p =? 1 then F32.of_int 1
  else if p =? 2 then F32.const 4 5
  else if p =? 3 then F32.const 3 5
  else F32.const 2 5.

Definition CalculateGuessPoints
    (timeTaken : Duration) (position : Z) (wordDifficulty : WordDifficulty) : Z :=
  let t := Seconds timeTaken in
  float_to_int
    (F32.mul (F32.mul (F32.of_int (basePoints wordDifficulty)) (speedMultiplier t))
             (posMultiplier position)).

(** The scoring rule as the specification words it: the floor of
    [base * speed * position], the speed bonus being 1.5, 1.25, 1 and 0.75
    below 10 s, below 30 s, below 60 s and from 60 s on. *)
Definition speed_quarters_spec (d : Duration) : Z :=
  if d <? 10 * Second then 6
  else if d <? 30 * Second then 5
  else if d <? 60 * Second then 4
  else 3.

Definition position_fifths_spec (p : Z) : Z :=
  if p =? 1 then 5 else if p =? 2 then 4 else if p =? 3 then 3 else 2.

Definition guessPoints_spec (d : Duration) (p : Z) (diff : WordDifficulty) : Z :=
  (basePoints diff * speed_quarters_spec d * position_fifths_spec p) / 20.

(** ** Strings of bytes *)

Definition byte_of (c : ascii) : N := N_of_ascii c.
Definition bytes_of (s : string) : list N := byte_of <$> list_ascii_of_string s.

(** [len(s)]: the number of bytes. *)
Definition len (s : string) : Z := Z.of_nat (String.length s).

(** [strings.Join(elems, sep)]. *)
Fixpoint Join (elems : list string) (sep : string) : string :=
  match elems with
  | [] => ""
  | [e] => e
  | e :: rest => String.append e (String.append sep (Join rest sep))
  end.

(** Width of the UTF-8 sequence at the head of [bs], as Go's decoder
    computes it: an invalid or truncated sequence has width 1. *)
Definition is_cont (b : N) : bool := ((128 <=? b) && (b <=? 191))%N.

Definition utf8_width (bs : list N) : nat :=
  match bs with
  | [] => 1
  | b0 :: rest =>
      if ((b0 <? 194) || (244 <? b0))%N then 1
      else
        let sz := (if (b0 <? 224)%N then 2 else if (b0 <? 240)%N then 3 else 4)%nat in
        let lo := (if (b0 =? 224)%N then 160 else if (b0 =? 240)%N then 144 else 128)%N in
        let hi := (if (b0 =? 237)%N then 159 else if (b0 =? 244)%N then 143 else 191)%N in
        match rest with
        | s1 :: rest1 =>
            if ((s1 <? lo) || (hi <? s1))%N then 1
            else if (sz =? 2)%nat then 2
            else match rest1 with
                 | s2 :: rest2 =>
                     if negb (is_cont s2) then 1
                     else if (sz =? 3)%nat then 3
                     else match rest2 with
                          | s3 :: _ => if is_cont s3 then 4 else 1
                          | [] => 1
                          end
                 | [] => 1
                 end
        | [] => 1
        end
  end%nat.

(** The indices visited by [for i := range s]: the byte offsets at which a
    rune starts. *)
Fixpoint range_from (i skip : nat) (bs : list N) : list nat :=
  match bs with
  | [] => []
  | _ :: rest =>
      match skip with
      | O => i :: range_from (S i) (utf8_width bs - 1) rest
      | S k => range_from (S i) k rest
      end
  end.

Definition range_string (s : string) : list nat := range_from 0 0 (bytes_of s).

(** ** Word masking (utilities) *)

(** [a[i] = v] on a slice: a run-time panic when [i] is not below [len(a)]. *)
Definition slice_set {A} (a : list A) (i : nat) (v : A) : option (list A) :=
  if decide (i < length a)%nat then Some (<[i := v]> a) else None.

(** [make([]T, 0, n)]: length zero, whatever the capacity. *)
Definition make_slice {A} (length0 : unit) (capacity : Z) : list A := [].

Definition mask_byte (b : option N) : string :=
  if decide (b = Some 32%N) then " " else "_".

Definition GetMaskedWord (word : string) : option string :=
  if decide (word = "") then Some ""
  else
    let masked0 : list string := make_slice () (len word) in
    masked ← foldl (fun acc i => a ← acc; slice_set a i (mask_byte (bytes_of word !! i)))
                   (Some masked0) (range_string word);
    Some (Join masked " ").

(** The masking the specification describes: one mark per byte of the
    word, a space for a space and an underscore otherwise, joined by
    spaces. *)
Definition maskWord_spec (w : string) : string :=
  Join ((fun b => mask_byte (Some b)) <$> bytes_of w) " ".

(** ** Canvas ([internal/canvas.go]) *)

Definition CanvasWidth : Z := 35.
Definition CanvasHeight : Z := 20.

Definition clamp_grid (g bound : Z) : Z :=
  if g <? 0 then 0 else if bound <=? g then bound - 1 else g.

(** [int(math.Floor(float64(x) * float64(size) / float64(client)))], read
    on the integers: the floor of the exact quotient.  The [float64]
    product is exact while [|x * size| < 2^53], and the rounded quotient of
    two such integers has the floor of the exact one, so the reading is
    exact on that range.  For [client = 0] the [float64] quotient is an
    infinity or a NaN, whose conversion to [int] is implementation
    specific; amd64 yields the least [int], which the clamp sends to 0,
    as it does the 0 that [Z.div] returns here.  A quotient of magnitude
    [2^63] or above is converted in the same implementation specific way,
    so that beyond the range above the source may differ from this
    reading. *)
Definition scale_floor (x size client : Z) : Z := (x * size) / client.

Definition NormalizeCoordinates (x y clientCanvasWidth clientCanvasHeight : Z) : Z * Z :=
  (clamp_grid (scale_floor x CanvasWidth clientCanvasWidth) CanvasWidth,
   clamp_grid (scale_floor y CanvasHeight clientCanvasHeight) CanvasHeight).

(** The same function computed with IEEE-754 binary64 operations, operation
    by operation as the source has them. *)
Definition scale_f64 (x size client : Z) : Z :=
  F64.floor_to_int
    (F64.div (F64.mul (F64.of_int x) (F64.of_int size)) (F64.of_int client)).

Definition NormalizeCoordinates_f64 (x y clientCanvasWidth clientCanvasHeight : Z) : Z * Z :=
  (clamp_grid (scale_f64 x CanvasWidth clientCanvasWidth) CanvasWidth,
   clamp_grid (scale_f64 y CanvasHeight clientCanvasHeight) CanvasHeight).

(** ** Data model ([internal/model.go], [internal/player.go]) *)

(** Addresses of [Player] and [Room] objects.  Objects are never freed, so
    an address that is not allocated stands for [nil]. *)
Abbreviation ptr := positive (only parsing).
Abbreviation rptr := positive (only parsing).

(** [time.Time]: nanoseconds since the zero [Time]. *)
Abbreviation Time := Z (only parsing).
Definition unixEpoch : Time := 62135596800 * Second.
Definition UnixMilli (t : Time) : Z := (t - unixEpoch) / 1000000.
(** [time.Since(t)], which saturates as [Time.Sub] does. *)
Definition Since (now t : Time) : Duration :=
  Z.max (- 2 ^ 63) (Z.min maxDuration (now - t)).

Definition WaitingPhaseDuration : Duration := 15 * Second.
Definition DrawingPhaseDuration : Duration := 120 * Second.
Definition RevealingPhaseDuration : Duration := 8 * Second.
Definition MaxPlayersPerRoom : Z := 8.
Definition MinPlayersToStart : Z := 2.
Definition MaxRounds : Z := 3.

Inductive GamePhase :=
  PhaseWaiting | PhaseDrawing | PhaseRevealing | PhaseEnded | PhaseLobby.

#[global] Instance GamePhase_eq_dec : EqDecision GamePhase.
Proof. solve_decision. Defined.

Module PlayerGuess.
Record t := mk {
  PlayerID : string;
  Username : string;
  GuessTime : Z;
  IsCorrect : bool
}.
End PlayerGuess.

Module GameResultData.
Record t := mk {
  PlayerID : string;
  Username : string;
  IsCorrect : bool;
  Score : Z;
  Position : Z;
  TimeToGuess : Z
}.
End GameResultData.

Module RoundStats.
Record t := mk {
  RoundNumber : Z;
  DrawerId : string;
  Word : string;
  CorrectGuesses : list PlayerGuess.t;
  TotalGuesses : Z;
  StartTime : Time;
  EndTime : Time
}.
End RoundStats.

Module GameTimer.
(** [Cancel] tells whether the cancel function of the timer context is
    set. *)
Record t := mk {
  StartTime : Time;
  Duration : Z;
  TimeRemaining : Z;
  IsActive : bool;
  Cancel : bool
}.
End GameTimer.

Inductive PixelMessageType :=
  | BatchPlace | PixelPlace | ErasePixel | BatchErase
  | OtherPixelType (s : string).

#[global] Instance PixelMessageType_eq_dec : EqDecision PixelMessageType.
Proof. solve_decision. Defined.

Module GridPosition.
Record t := mk { GridX : Z; GridY : Z }.
End GridPosition.

Module PixelMessage.
(** [X] and [Y] are [*int]: [None] is [nil]. *)
Record t := mk {
  Type_ : PixelMessageType;
  X : option Z;
  Y : option Z;
  Color : string;
  Timestamp : Z;
  Pixels : list GridPosition.t
}.
Definition with_XY (m : t) (x y : Z) : t :=
  mk (Type_ m) (Some x) (Some y) (Color m) (Timestamp m) (Pixels m).
Definition with_Pixels (m : t) (ps : list GridPosition.t) : t :=
  mk (Type_ m) (X m) (Y m) (Color m) (Timestamp m) ps.
Definition with_Timestamp (m : t) (ts : Z) : t :=
  mk (Type_ m) (X m) (Y m) (Color m) ts (Pixels m).
End PixelMessage.

Module Player.
Record t := mk {
  Id : string;
  Conn : option nat;
  Room : option rptr;
  Username : string;
  Score : Z;
  CanvasHeight : Z;
  CanvasWidth : Z;
  IsReady : bool;
  HasGuessed : bool;
  LastGuessTime : Time;
  IsConnected : bool;
  JoinedAt : Time;
  CanDraw : bool;
  TotalGuesses : Z;
  CorrectGuesses : Z;
  TimesDrawn : Z
}.
Definition with_Room (p : t) (v : option rptr) : t :=
  mk (Id p) (Conn p) v (Username p) (Score p) (CanvasHeight p) (CanvasWidth p)
     (IsReady p) (HasGuessed p) (LastGuessTime p) (IsConnected p) (JoinedAt p)
     (CanDraw p) (TotalGuesses p) (CorrectGuesses p) (TimesDrawn p).
Definition with_Score (p : t) (v : Z) : t :=
  mk (Id p) (Conn p) (Room p) (Username p) v (CanvasHeight p) (CanvasWidth p)
     (IsReady p) (HasGuessed p) (LastGuessTime p) (IsConnected p) (JoinedAt p)
     (CanDraw p) (TotalGuesses p) (CorrectGuesses p) (TimesDrawn p).
Definition with_IsReady (p : t) (v : bool) : t :=
  mk (Id p) (Conn p) (Room p) (Username p) (Score p) (CanvasHeight p) (CanvasWidth p)
     v (HasGuessed p) (LastGuessTime p) (IsConnected p) (JoinedAt p)
     (CanDraw p) (TotalGuesses p) (CorrectGuesses p) (TimesDrawn p).
Definition with_HasGuessed (p : t) (v : bool) : t :=
  mk (Id p) (Conn p) (Room p) (Username p) (Score p) (CanvasHeight p) (CanvasWidth p)
     (IsReady p) v (LastGuessTime p) (IsConnected p) (JoinedAt p)
     (CanDraw p) (TotalGuesses p) (CorrectGuesses p) (TimesDrawn p).
Definition with_LastGuessTime (p : t) (v : Time) : t :=
  mk (Id p) (Conn p) (Room p) (Username p) (Score p) (CanvasHeight p) (CanvasWidth p)
     (IsReady p) (HasGuessed p) v (IsConnected p) (JoinedAt p)
     (CanDraw p) (TotalGuesses p) (CorrectGuesses p) (TimesDrawn p).
Definition with_IsConnected (p : t) (v : bool) : t :=
  mk (Id p) (Conn p) (Room p) (Username p) (Score p) (CanvasHeight p) (CanvasWidth p)
     (IsReady p) (HasGuessed p) (LastGuessTime p) v (JoinedAt p)
     (CanDraw p) (TotalGuesses p) (CorrectGuesses p) (TimesDrawn p).
Definition with_CanDraw (p : t) (v : bool) : t :=
  mk (Id p) (Conn p) (Room p) (Username p) (Score p) (CanvasHeight p) (CanvasWidth p)
     (IsReady p) (HasGuessed p) (LastGuessTime p) (IsConnected p) (JoinedAt p)
     v (TotalGuesses p) (CorrectGuesses p) (TimesDrawn p).
Definition with_TotalGuesses (p : t) (v : Z) : t :=
  mk (Id p) (Conn p) (Room p) (Username p) (Score p) (CanvasHeight p) (CanvasWidth p)
     (IsReady p) (HasGuessed p) (LastGuessTime p) (IsConnected p) (JoinedAt p)
     (CanDraw p) v (CorrectGuesses p) (TimesDrawn p).
Definition with_CorrectGuesses (p : t) (v : Z) : t :=
  mk (Id p) (Conn p) (Room p) (Username p) (Score p) (CanvasHeight p) (CanvasWidth p)
     (IsReady p) (HasGuessed p) (LastGuessTime p) (IsConnected p) (JoinedAt p)
     (CanDraw p) (TotalGuesses p) v (TimesDrawn p).

(** [ToPublicPlayer]: a copy without the connection, the room and the
    fields the literal leaves at their zero value. *)
Definition ToPublicPlayer (p : t) : t :=
  mk (Id p) None None (Username p) (Score p) 0 0
     (IsReady p) (HasGuessed p) 0 (IsConnected p) (JoinedAt p)
     (CanDraw p) (TotalGuesses p) (CorrectGuesses p) (TimesDrawn p).
End Player.

Module Room.
Record t := mk {
  Id : string;
  Players : gmap string ptr;
  Phase : GamePhase;
  Current : option ptr;
  CurrentIndex : Z;
  Word : string;
  WordChoices : list string;
  RoundNumber : Z;
  MaxRounds : Z;
  RoundStats : list RoundStats.t;
  Timer : option GameTimer.t;
  PlayerOrder : list string;
  PlayersReady : gmap string bool;
  CorrectGuessers : list PlayerGuess.t;
  HasGameStarted : bool;
  CanvasState : list PixelMessage.t
}.
Definition with_Players (r : t) (v : gmap string ptr) : t :=
  mk (Id r) v (Phase r) (Current r) (CurrentIndex r) (Word r) (WordChoices r)
     (RoundNumber r) (MaxRounds r) (RoundStats r) (Timer r) (PlayerOrder r)
     (PlayersReady r) (CorrectGuessers r) (HasGameStarted r) (CanvasState r).
Definition with_Phase (r : t) (v : GamePhase) : t :=
  mk (Id r) (Players r) v (Current r) (CurrentIndex r) (Word r) (WordChoices r)
     (RoundNumber r) (MaxRounds r) (RoundStats r) (Timer r) (PlayerOrder r)
     (PlayersReady r) (CorrectGuessers r) (HasGameStarted r) (CanvasState r).
Definition with_Current (r : t) (v : option ptr) : t :=
  mk (Id r) (Players r) (Phase r) v (CurrentIndex r) (Word r) (WordChoices r)
     (RoundNumber r) (MaxRounds r) (RoundStats r) (Timer r) (PlayerOrder r)
     (PlayersReady r) (CorrectGuessers r) (HasGameStarted r) (CanvasState r).
Definition with_CurrentIndex (r : t) (v : Z) : t :=
  mk (Id r) (Players r) (Phase r) (Current r) v (Word r) (WordChoices r)
     (RoundNumber r) (MaxRounds r) (RoundStats r) (Timer r) (PlayerOrder r)
     (PlayersReady r) (CorrectGuessers r) (HasGameStarted r) (CanvasState r).
Definition with_Word (r : t) (v : string) : t :=
  mk (Id r) (Players r) (Phase r) (Current r) (CurrentIndex r) v (WordChoices r)
     (RoundNumber r) (MaxRounds r) (RoundStats r) (Timer r) (PlayerOrder r)
     (PlayersReady r) (CorrectGuessers r) (HasGameStarted r) (CanvasState r).
Definition with_WordChoices (r : t) (v : list string) : t :=
  mk (Id r) (Players r) (Phase r) (Current r) (CurrentIndex r) (Word r) v
     (RoundNumber r) (MaxRounds r) (RoundStats r) (Timer r) (PlayerOrder r)
     (PlayersReady r) (CorrectGuessers r) (HasGameStarted r) (CanvasState r).
Definition with_RoundNumber (r : t) (v : Z) : t :=
  mk (Id r) (Players r) (Phase r) (Current r) (CurrentIndex r) (Word r) (WordChoices r)
     v (MaxRounds r) (RoundStats r) (Timer r) (PlayerOrder r)
     (PlayersReady r) (CorrectGuessers r) (HasGameStarted r) (CanvasState r).
Definition with_Timer (r : t) (v : option GameTimer.t) : t :=
  mk (Id r) (Players r) (Phase r) (Current r) (CurrentIndex r) (Word r) (WordChoices r)
     (RoundNumber r) (MaxRounds r) (RoundStats r) v (PlayerOrder r)
     (PlayersReady r) (CorrectGuessers r) (HasGameStarted r) (CanvasState r).
Definition with_PlayerOrder (r : t) (v : list string) : t :=
  mk (Id r) (Players r) (Phase r) (Current r) (CurrentIndex r) (Word r) (WordChoices r)
     (RoundNumber r) (MaxRounds r) (RoundStats r) (Timer r) v
     (PlayersReady r) (CorrectGuessers r) (HasGameStarted r) (CanvasState r).
Definition with_CorrectGuessers (r : t) (v : list PlayerGuess.t) : t :=
  mk (Id r) (Players r) (Phase r) (Current r) (CurrentIndex r) (Word r) (WordChoices r)
     (RoundNumber r) (MaxRounds r) (RoundStats r) (Timer r) (PlayerOrder r)
     (PlayersReady r) v (HasGameStarted r) (CanvasState r).
Definition with_CanvasState (r : t) (v : list PixelMessage.t) : t :=
  mk (Id r) (Players r) (Phase r) (Current r) (CurrentIndex r) (Word r) (WordChoices r)
     (RoundNumber r) (MaxRounds r) (RoundStats r) (Timer r) (PlayerOrder r)
     (PlayersReady r) (CorrectGuessers r) (HasGameStarted r) v.
End Room.

Module GameStateData.
Record t := mk {
  Phase : GamePhase;
  RoundNumber : Z;
  MaxRounds : Z;
  CurrentDrawer : option ptr;
  TimeRemaining : Z;
  Players : list Player.t;
  CorrectGuessers : list PlayerGuess.t;
  Word : string
}.
End GameStateData.

(** ** Messages, effects and the state of the server *)

Inductive Payload :=
  | GuessMessageData (player_guess : PlayerGuess.t) (guessed_word : string)
  | GuessResultData (result : GameResultData.t)
  | TimerUpdateData (TimeRemaining : Z) (Phase : GamePhase) (IsActive : bool)
  | PixelData (pm : PixelMessage.t)
  | CanvasClearedData (room_id player_id : string)
      (canvas_state : list PixelMessage.t) (timestamp : Z)
  | PlayerJoinedData (player_data : Player.t)
  | WelcomeData (game_state : GameStateData.t) (canvas_state : list PixelMessage.t)
  | WaitingPhaseData (room_id drawer_id drawer_username : string)
      (time_remaining round_number : Z).

Record Message := mkMessage { MsgType : string; Data : Payload }.

(** The [onExpire] closures handed to [StartPhaseTimer]. *)
Inductive Callback :=
  | OnWaitingExpired          (* StartWordSelection(room) *)
  | OnSelectionExpired (currentDrawer : ptr)
  | OnDrawingExpired
  | OnRevealComplete
  | OnGameEndedExpired.

(** Calls whose body runs outside the handler that issues them: writes to
    connections, and the functions started as goroutines. *)
Inductive Call :=
  | SafeBroadcastToRoom (room : rptr) (msg : Message)
  | SafeBroadcastToRoomExcept (room : rptr) (msg : Message) (exclude : option ptr)
  | BroadcastExceptCurrent (room : rptr) (msg : Message)
  | SafeWriteJSON (player : ptr) (msg : Message)
  | LogGameEvent (room : rptr) (eventType : string)
  | CallStartWaitingPhase (room : rptr)
  | CallStartDrawingPhase (room : rptr)
  | CallStartRevealingPhase (room : rptr)
  | CallEndGame (room : rptr)
  | CallHandleWordSelection (player : ptr) (selectedWord : string)
  | TimerTask (room : rptr) (duration : Duration) (onExpire : Callback).

Inductive Effect :=
  | Do (c : Call)               (* a call made by the handler itself *)
  | Go (body : list Call)       (* go func() { ... }() *)
  | CancelContext (room : rptr) (* room.Timer.Cancel() *).

Record World := mkWorld {
  Rooms : gmap string rptr;        (* the registry [Rooms] *)
  room_store : gmap rptr Room.t;
  player_store : gmap ptr Player.t
}.

Definition set_room (w : World) (room : rptr) (rm : Room.t) : World :=
  mkWorld (Rooms w) (<[room := rm]> (room_store w)) (player_store w).
Definition set_player (w : World) (player : ptr) (p : Player.t) : World :=
  mkWorld (Rooms w) (room_store w) (<[player := p]> (player_store w)).
Definition set_players (w : World) (h : gmap ptr Player.t) : World :=
  mkWorld (Rooms w) (room_store w) h.

(** The result of a handler: the state it leaves and the effects it
    issued, or [None] when it panics. *)
Definition Result : Type := option (World * list Effect).

(** What the model takes from the Go run time: the two functions of the
    [strings] package that the guess handler calls, and the order in which
    [range] visits the entries of a map.  Go fixes no such order; the
    properties below are proved for every instance, that is for every
    order. *)
Class GoRuntime := {
  ToLower : string -> string;
  TrimSpace : string -> string;
  ToLower_empty : ToLower "" = "";
  TrimSpace_empty : TrimSpace "" = "";
  range_players : gmap string ptr -> list (string * ptr);
  range_players_perm : forall m, range_players m ≡ₚ map_to_list m
}.

(** The sum of two [int]s, with its wrap-around. *)
Definition int_add (a b : Z) : Z := (a + b + 2 ^ 63) mod 2 ^ 64 - 2 ^ 63.

(** [s[i]] on a slice: a panic out of range. *)
Definition index {A} (s : list A) (i : Z) : option A :=
  if (0 <=? i) && (i <? Z.of_nat (length s)) then s !! Z.to_nat i else None.

(** [room.Current], dereferenced; [None] for [nil]. *)
Definition current_player (w : World) (rm : Room.t) : option Player.t :=
  Room.Current rm ≫= fun c => player_store w !! c.

(** ** Timers *)

Definition CancelPhaseTimer (room : rptr) (w : World) : Result :=
  match room_store w !! room with
  | None => Some (w, [])
  | Some rm =>
      match Room.Timer rm with
      | None => Some (w, [])
      | Some tm =>
          if negb (GameTimer.IsActive tm) then Some (w, [])
          else
            let cancel := if GameTimer.Cancel tm then [CancelContext room] else [] in
            let tm' := GameTimer.mk (GameTimer.StartTime tm) (GameTimer.Duration tm)
                         0 false (GameTimer.Cancel tm) in
            let timerUpdate := mkMessage "timer_update"
                                 (TimerUpdateData 0 (Room.Phase rm) false) in
            Some (set_room w room (Room.with_Timer rm (Some tm')),
                  cancel ++ [Do (SafeBroadcastToRoom room timerUpdate)])
      end
  end.

Definition StartPhaseTimer (now : Time) (room : rptr) (duration : Duration)
    (onExpire : Callback) (w : World) : Result :=
  '(w1, e1) ← CancelPhaseTimer room w;
  rm ← room_store w1 !! room;
  let tm := GameTimer.mk now duration 0 true true in
  Some (set_room w1 room (Room.with_Timer rm (Some tm)),
        e1 ++ [Go [TimerTask room duration onExpire]]).

(** ** Round management *)

Section Rounds.
Context `{GoRuntime}.

(** [utils.UpdatePlayerOrder]. *)
Definition UpdatePlayerOrder (room : rptr) (w : World) : option World :=
  rm ← room_store w !! room;
  ps ← mapM (fun ka : string * ptr => player_store w !! ka.2)
            (range_players (Room.Players rm));
  let order := Player.Id <$> filter (fun p => Player.IsConnected p = true) ps in
  let idx := if Z.of_nat (length order) <=? Room.CurrentIndex rm
             then 0 else Room.CurrentIndex rm in
  let rm1 := Room.with_CurrentIndex (Room.with_PlayerOrder rm order) idx in
  match Room.Current rm1 with
  | None => Some (set_room w room rm1)
  | Some c =>
      cp ← player_store w !! c;
      if decide (Player.Id cp ∈ order) then Some (set_room w room rm1)
      else Some (set_room w room
                   (Room.with_CurrentIndex (Room.with_Current rm1 None) 0))
  end.

(** [NextRound]: the word is cleared and the rotation advanced; the phase
    is left to the [StartWaitingPhase] goroutine.  ([ValidateGameState]
    only writes to the log.) *)
Definition NextRound (room : rptr) (w : World) : Result :=
  match room_store w !! room with
  | None => Some (w, [])
  | Some _ =>
      w1 ← UpdatePlayerOrder room w;
      rm ← room_store w1 !! room;
      let n := Z.of_nat (length (Room.PlayerOrder rm)) in
      if n =? 0 then Some (w1, [Go [CallEndGame room]])
      else
        let idx := Z.rem (int_add (Room.CurrentIndex rm) 1) n in
        let rm1 := Room.with_Word (Room.with_CurrentIndex rm idx) "" in
        let wrapped := idx =? 0 in
        let rm2 := if wrapped
                   then Room.with_RoundNumber rm1 (int_add (Room.RoundNumber rm1) 1)
                   else rm1 in
        if wrapped && (Room.MaxRounds rm2 <? Room.RoundNumber rm2)
        then Some (set_room w1 room rm2, [Go [CallEndGame room]])
        else
          nextPlayerID ← index (Room.PlayerOrder rm2) idx;
          let rm3 := Room.with_Current rm2 (Room.Players rm2 !! nextPlayerID) in
          Some (set_room w1 room rm3, [Go [CallStartWaitingPhase room]])
  end.

(** The per-player reset of [StartWaitingPhase], applied through each
    pointer of the map. *)
Definition reset_round_state (addrs : list ptr) (h : gmap ptr Player.t)
    : option (gmap ptr Player.t) :=
  foldl (fun acc a =>
           h' ← acc; p ← h' !! a;
           Some (<[a := Player.with_LastGuessTime
                           (Player.with_CanDraw (Player.with_HasGuessed p false) false) 0]> h'))
        (Some h) addrs.

Definition StartWaitingPhase (now : Time) (room : rptr) (w : World) : Result :=
  rm ← room_store w !! room;
  let rm1 := Room.with_Phase rm PhaseWaiting in
  let rm2 := if Z.of_nat (length (Room.PlayerOrder rm1)) <=? Room.CurrentIndex rm1
             then Room.with_CurrentIndex rm1 0 else rm1 in
  if Z.of_nat (length (Room.PlayerOrder rm2)) =? 0 then Some (set_room w room rm2, [])
  else
    playerID ← index (Room.PlayerOrder rm2) (Room.CurrentIndex rm2);
    match Room.Players rm2 !! playerID ≫= fun a => (fun p => (a, p)) <$> player_store w !! a with
    | None => Some (set_room w room rm2, [])
    | Some (a, currentDrawer) =>
        let rm3 := Room.with_Current rm2 (Some a) in
        h ← reset_round_state ((range_players (Room.Players rm3)).*2) (player_store w);
        let rm4 := Room.with_CanvasState (Room.with_CorrectGuessers rm3 []) [] in
        let w1 := set_room (set_players w h) room rm4 in
        let waitingPhaseMessage :=
          mkMessage "waiting_phase"
            (WaitingPhaseData (Room.Id rm4) (Player.Id currentDrawer)
               (Player.Username currentDrawer) 10 (Room.RoundNumber rm4)) in
        '(w2, e2) ← StartPhaseTimer now room (15 * Second) OnWaitingExpired w1;
        Some (w2, Do (SafeBroadcastToRoom room waitingPhaseMessage) :: e2)
    end.

(** [HandleWordSelection]. *)
Definition HandleWordSelection (player : ptr) (selectedWord : string) (w : World)
    : Result :=
  p ← player_store w !! player;
  match Player.Room p with
  | None => Some (w, [])
  | Some room =>
      rm ← room_store w !! room;
      match current_player w rm with
      | None => Some (w, [])
      | Some c =>
          if decide (Player.Id p ≠ Player.Id c) then Some (w, [])
          else if decide (Room.Word rm ≠ "") then Some (w, [])
          else if decide (selectedWord ∉ Room.WordChoices rm) then Some (w, [])
          else
            let rm1 := Room.with_WordChoices (Room.with_Word rm selectedWord) [] in
            '(w2, e2) ← CancelPhaseTimer room (set_room w room rm1);
            Some (w2, e2 ++ [Go [CallStartDrawingPhase room]])
      end
  end.

(** The callback of the selection timer of [StartWordSelection]. *)
Definition selection_timer_callback (room : rptr) (currentDrawer : ptr) (w : World)
    : Result :=
  rm ← room_store w !! room;
  if decide (Room.Word rm ≠ "") then Some (w, [])
  else
    match Room.WordChoices rm with
    | [] => Some (w, [])
    | autoWord :: _ => Some (w, [Go [CallHandleWordSelection currentDrawer autoWord]])
    end.

End Rounds.

(** ** Guess handling ([internal/game/guess.go]) *)

Section Guess.
Context `{GoRuntime}.

Definition word_difficulty (word : string) : WordDifficulty :=
  if (3 <=? len word) && (len word <=? 5) then DifficultyEasy
  else if (5 <? len word) && (len word <=? 8) then DifficultyMedium
  else if 8 <? len word then DifficultyHard
  else DifficultyEasy.

(** Whether [p] is the current drawer: [room.Current != nil && p.Id == room.Current.Id]. *)
Definition is_current (w : World) (rm : Room.t) (p : Player.t) : bool :=
  match current_player w rm with
  | Some c => bool_decide (Player.Id p = Player.Id c)
  | None => false
  end.

(** The loop that decides whether every connected player other than the
    drawer has guessed; a [nil] entry is skipped. *)
Definition all_guessed (w : World) (rm : Room.t) : bool :=
  forallb (fun ka : string * ptr =>
             match player_store w !! ka.2 with
             | None => true
             | Some p =>
                 is_current w rm p
                 || negb (Player.IsConnected p && negb (Player.HasGuessed p))
             end)
          (range_players (Room.Players rm)).

(** The incorrect guess path. *)
Definition incorrect_guess (now : Time) (player : ptr) (p : Player.t) (room : rptr)
    (guess : string) (w : World) : Result :=
  let p1 := Player.with_TotalGuesses p (int_add (Player.TotalGuesses p) 1) in
  let playerGuess := PlayerGuess.mk (Player.Id p) (Player.Username p) (UnixMilli now) false in
  let guessMessage := mkMessage "guess_message" (GuessMessageData playerGuess guess) in
  Some (set_player w player p1, [Go [SafeBroadcastToRoom room guessMessage]]).

(** The correct guess path. *)
Definition correct_guess (now : Time) (player : ptr) (p : Player.t) (room : rptr)
    (rm : Room.t) (w : World) : Result :=
  let startTime := match Room.Timer rm with
                   | Some tm => GameTimer.StartTime tm
                   | None => 0
                   end in
  let timeTaken := Since now startTime in
  let timeTakenMs := Milliseconds timeTaken in
  let position := Z.of_nat (length (Room.CorrectGuessers rm)) + 1 in
  let diff := word_difficulty (Room.Word rm) in
  let points := CalculateGuessPoints timeTaken position diff in
  let playerGuess := PlayerGuess.mk (Player.Id p) (Player.Username p) timeTakenMs true in
  let rm1 := Room.with_CorrectGuessers rm (Room.CorrectGuessers rm ++ [playerGuess]) in
  let p1 := Player.with_HasGuessed
              (Player.with_CorrectGuesses
                 (Player.with_TotalGuesses
                    (Player.with_Score p (int_add (Player.Score p) points))
                    (int_add (Player.TotalGuesses p) 1))
                 (int_add (Player.CorrectGuesses p) 1))
              true in
  let w1 := set_room (set_player w player p1) room rm1 in
  let w2 := match Room.Current rm1 with
            | Some c =>
                match player_store w1 !! c with
                | Some cp => set_player w1 c (Player.with_Score cp (int_add (Player.Score cp) 50))
                | None => w1
                end
            | None => w1
            end in
  let resultData := GameResultData.mk (Player.Id p) (Player.Username p) true points
                      position timeTakenMs in
  let allGuessed := all_guessed w2 rm1 in
  let resultMessage := mkMessage "guess_result" (GuessResultData resultData) in
  let broadcast := [Go [SafeBroadcastToRoom room resultMessage]] in
  if allGuessed then
    '(w3, e3) ← CancelPhaseTimer room w2;
    '(w4, e4) ← NextRound room w3;
    Some (w4, broadcast ++ e3 ++ e4)
  else Some (w2, broadcast).

Definition HandleGuessEnhanced (now : Time) (player : ptr) (guess : string) (w : World)
    : Result :=
  match player_store w !! player with
  | None => Some (w, [])
  | Some p =>
      match Player.Room p with
      | None => Some (w, [])
      | Some room =>
          rm ← room_store w !! room;
          let cleanedGuess := ToLower (TrimSpace guess) in
          if is_current w rm p then Some (w, [])
          else if Player.HasGuessed p then Some (w, [])
          else
            let target := ToLower (TrimSpace (Room.Word rm)) in
            if decide (target = "" \/ target <> cleanedGuess)
            then incorrect_guess now player p room guess w
            else correct_guess now player p room rm w
      end
  end.

End Guess.

(** ** Drawing system *)

Definition pixel_type_string (t : PixelMessageType) : string :=
  match t with
  | BatchPlace => "batch_place"
  | PixelPlace => "pixel"
  | ErasePixel => "erase"
  | BatchErase => "batch_erase"
  | OtherPixelType s => s
  end.

Definition in_grid (x y : Z) : bool :=
  negb ((x <? 0) || (CanvasWidth <=? x) || (y <? 0) || (CanvasHeight <=? y)).

(** Step 6, validation: [None] when the message is discarded. *)
Definition validate_pixel (pm : PixelMessage.t) : option PixelMessage.t :=
  match PixelMessage.Type_ pm with
  | PixelPlace | ErasePixel =>
      match PixelMessage.X pm, PixelMessage.Y pm with
      | Some x, Some y => if in_grid x y then Some pm else None
      | _, _ => None
      end
  | BatchPlace | BatchErase =>
      let validPixels :=
        filter (fun p => in_grid (GridPosition.GridX p) (GridPosition.GridY p) = true)
               (PixelMessage.Pixels pm) in
      match validPixels with
      | [] => None
      | _ => Some (PixelMessage.with_Pixels pm validPixels)
      end
  | OtherPixelType _ => Some pm
  end.

(** Step 7, normalisation with the sender's canvas size; [None] is the
    panic of dereferencing a [nil] coordinate. *)
Definition normalize_pixel (p : Player.t) (pm : PixelMessage.t) : option PixelMessage.t :=
  match PixelMessage.Type_ pm with
  | PixelPlace | ErasePixel =>
      x ← PixelMessage.X pm; y ← PixelMessage.Y pm;
      let '(gridX, gridY) :=
        NormalizeCoordinates x y (Player.CanvasWidth p) (Player.CanvasHeight p) in
      Some (PixelMessage.with_XY pm gridX gridY)
  | BatchPlace | BatchErase =>
      Some (PixelMessage.with_Pixels pm
              ((fun g =>
                  let '(gridX, gridY) :=
                    NormalizeCoordinates (GridPosition.GridX g) (GridPosition.GridY g)
                      (Player.CanvasWidth p) (Player.CanvasHeight p) in
                  GridPosition.mk gridX gridY) <$> PixelMessage.Pixels pm))
  | OtherPixelType _ => Some pm
  end.

(** An entry of the canvas that an erase at [(x, y)] removes: a [pixel]
    entry with both coordinates set and equal to [(x, y)]. *)
Definition erased_at (x y : Z) (existing : PixelMessage.t) : bool :=
  bool_decide (PixelMessage.Type_ existing = PixelPlace)
  && match PixelMessage.X existing, PixelMessage.Y existing with
     | Some ex, Some ey => (ex =? x) && (ey =? y)
     | _, _ => false
     end.

(** The keys of [eraseMap] are the strings ["x_y"], one per position. *)
Definition erased_in (eraseMap : list GridPosition.t) (existing : PixelMessage.t) : bool :=
  existsb (fun g => erased_at (GridPosition.GridX g) (GridPosition.GridY g) existing) eraseMap.

(** Step 8, the change of [room.CanvasState]. *)
Definition apply_pixel (pm : PixelMessage.t) (canvas : list PixelMessage.t)
    : option (list PixelMessage.t) :=
  match PixelMessage.Type_ pm with
  | PixelPlace | BatchPlace => Some (canvas ++ [pm])
  | ErasePixel =>
      x ← PixelMessage.X pm; y ← PixelMessage.Y pm;
      Some (filter (fun existing => erased_at x y existing = false) canvas)
  | BatchErase =>
      Some (filter (fun existing => erased_in (PixelMessage.Pixels pm) existing = false) canvas)
  | OtherPixelType _ => Some canvas
  end.

(** The server time stamp, for a message that carries none. *)
Definition stamp_pixel (now : Time) (pm : PixelMessage.t) : PixelMessage.t :=
  if PixelMessage.Timestamp pm =? 0
  then PixelMessage.with_Timestamp pm (UnixMilli now) else pm.

(** [rawData] is the message as [json.Unmarshal] decodes it, [None] when
    the decoding fails. *)
Definition HandlePixelDrawEnhanced (now : Time) (player : ptr)
    (rawData : option PixelMessage.t) (w : World) : Result :=
  p ← player_store w !! player;
  match Player.Room p with
  | None => Some (w, [])
  | Some room =>
      rm ← room_store w !! room;
      if decide (Room.Phase rm <> PhaseDrawing) then Some (w, [])
      else if decide (Room.Current rm <> Some player) then Some (w, [])
      else if negb (Player.CanDraw p) then Some (w, [])
      else
        match rawData ≫= validate_pixel with
        | None => Some (w, [])
        | Some pm1 =>
            pm2 ← normalize_pixel p pm1;
            let pixelMessage := stamp_pixel now pm2 in
            canvas ← apply_pixel pixelMessage (Room.CanvasState rm);
            let pixelDrawMessage :=
              mkMessage (pixel_type_string (PixelMessage.Type_ pixelMessage))
                        (PixelData pixelMessage) in
            Some (set_room w room (Room.with_CanvasState rm canvas),
                  [Go [BroadcastExceptCurrent room pixelDrawMessage]])
        end
  end.

Definition ClearCanvas (now : Time) (room : rptr) (clearedBy : ptr) (w : World) : Result :=
  rm ← room_store w !! room;
  cb ← player_store w !! clearedBy;
  if decide (Room.Current rm <> Some clearedBy) then Some (w, [])
  else
    let rm1 := Room.with_CanvasState rm [] in
    let clearedCanvasMessage :=
      mkMessage "canvas_cleared"
        (CanvasClearedData (Room.Id rm1) (Player.Id cb) (Room.CanvasState rm1)
           (UnixMilli now)) in
    Some (set_room w room rm1,
          [Go [SafeBroadcastToRoomExcept room clearedCanvasMessage (Some clearedBy);
               LogGameEvent room "canvas_cleared"]]).

(** The dispatch of [handleMessages] for the two drawing messages. *)
Inductive DrawingMessage :=
  | pixel_draw (rawData : option PixelMessage.t)
  | clear_canvas.

Definition handle_drawing_message (now : Time) (player : ptr) (m : DrawingMessage)
    (w : World) : Result :=
  match m with
  | pixel_draw rawData => HandlePixelDrawEnhanced now player rawData w
  | clear_canvas =>
      p ← player_store w !! player;
      room ← Player.Room p;
      ClearCanvas now room player w
  end.

(** ** Room management *)

Section Rooms.
Context `{GoRuntime}.

Definition newRoom (roomId : string) : Room.t :=
  Room.mk roomId ∅ PhaseLobby None 0 "" [] 1 3 []
    (Some (GameTimer.mk 0 0 0 false false)) [] ∅ [] false [].

Definition getOrCreateRoom (roomId : string) (w : World) : World * rptr :=
  match Rooms w !! roomId with
  | Some room => (w, room)
  | None =>
      let room := fresh (dom (room_store w)) in
      (mkWorld (<[roomId := room]> (Rooms w))
               (<[room := newRoom roomId]> (room_store w))
               (player_store w),
       room)
  end.

(** The players a broadcast reaches: the connected entries of
    [room.Players], but for the one with the identifier of [exclude]. *)
Definition broadcast_recipients (w : World) (rm : Room.t) (exclude : option ptr)
    : list ptr :=
  let excluded (p : Player.t) :=
    match exclude ≫= fun e => player_store w !! e with
    | Some e => bool_decide (Player.Id p = Player.Id e)
    | None => false
    end in
  omap (fun ka : string * ptr =>
          match player_store w !! ka.2 with
          | Some p => if Player.IsConnected p && negb (excluded p) then Some ka.2 else None
          | None => None
          end)
       (range_players (Room.Players rm)).

(** [AddPlayer]; [write_result] is what [SafeWriteJSON] on the connection of
    the joining player returns, [None] for no error.  The third component of
    the result is the error returned. *)
Definition AddPlayer (roomId : string) (player : ptr) (write_result : option string)
    (w : World) : option (World * list Effect * option string) :=
  let '(w1, room) := getOrCreateRoom roomId w in
  rm ← room_store w1 !! room;
  p ← player_store w1 !! player;
  let p1 := Player.with_IsReady
              (Player.with_IsConnected (Player.with_Room p (Some room)) true) false in
  let rm1 := Room.with_Players rm (<[Player.Id p := player]> (Room.Players rm)) in
  let w2 := set_player (set_room w1 room rm1) player p1 in
  let welcomeMsg := mkMessage "player_joined" (PlayerJoinedData (Player.ToPublicPlayer p1)) in
  players ← mapM (fun ka : string * ptr => Player.ToPublicPlayer <$> player_store w2 !! ka.2)
                 (range_players (Room.Players rm1));
  tm ← Room.Timer rm1;
  masked ← GetMaskedWord (Room.Word rm1);
  let missingStateData :=
    mkMessage "welcome_msg"
      (WelcomeData
         (GameStateData.mk (Room.Phase rm1) (Room.RoundNumber rm1) (Room.MaxRounds rm1)
            (Room.Current rm1) (GameTimer.TimeRemaining tm) players
            (Room.CorrectGuessers rm1) masked)
         (Room.CanvasState rm1)) in
  let effects := [Do (SafeBroadcastToRoomExcept room welcomeMsg (Some player));
                  Do (SafeWriteJSON player missingStateData)] in
  match write_result with
  | Some err => Some (w2, effects, Some err)
  | None =>
      if MaxPlayersPerRoom <? Z.of_nat (size (Room.Players rm1))
      then Some (w2, effects,
                 Some "max players reached for this room, please join another room")
      else Some (w2, effects, None)
  end.

End Rooms.

(** ** An instance of the run time on ASCII text *)

Definition lower_byte (c : ascii) : ascii :=
  let n := N_of_ascii c in
  if ((65 <=? n) && (n <=? 90))%N then ascii_of_N (n + 32) else c.

Fixpoint ascii_ToLower (s : string) : string :=
  match s with
  | EmptyString => EmptyString
  | String c rest => String (lower_byte c) (ascii_ToLower rest)
  end.

Definition is_space (c : ascii) : bool :=
  let n := N_of_ascii c in
  ((9 <=? n) && (n <=? 13) || (n =? 32))%N.

Fixpoint trim_left (s : string) : string :=
  match s with
  | EmptyString => EmptyString
  | String c rest => if is_space c then trim_left rest else s
  end.

Definition reverse_string (s : string) : string :=
  string_of_list_ascii (rev (list_ascii_of_string s)).

Definition ascii_TrimSpace (s : string) : string :=
  reverse_string (trim_left (reverse_string (trim_left s))).

#[local] Instance ascii_runtime : GoRuntime :=
  Build_GoRuntime ascii_ToLower ascii_TrimSpace eq_refl eq_refl
    map_to_list (fun m => reflexivity (map_to_list m)).

(** Agreement of the code with the scoring rule at one elapsed time, for
    the ranks 1 to 6 and the three difficulties. *)
Definition agrees_with_spec (d : Duration) : bool :=
  forallb (fun p =>
    forallb (fun diff => CalculateGuessPoints d p diff =? guessPoints_spec d p diff)
            [DifficultyEasy; DifficultyMedium; DifficultyHard])
    [1; 2; 3; 4; 5; 6].

(** ** Example states *)

Module Examples.

Definition mkP (id : string) (room : option rptr) (canDraw hasGuessed : bool) : Player.t :=
  Player.mk id (Some 1%nat) room id 0 600 800 true hasGuessed 0 true 0 canDraw 0 0 0.

(** The start of the timer of the examples, and a clock reading five
    seconds later. *)
Definition t_start : Time := unixEpoch + 1700000000 * Second.
Definition t_now : Time := t_start + 5 * Second.

Definition running_timer (d : Duration) : GameTimer.t :=
  GameTimer.mk t_start d 0 true true.

Definition a_pixel (x y : Z) : PixelMessage.t :=
  PixelMessage.mk PixelPlace (Some x) (Some y) "#ff0000" 1 [].

(** Room ["R1"] at address 1 with the drawer ["d1"] at address 1 and the
    guesser ["g1"] at address 2. *)
Definition two_players : gmap string ptr := <["d1" := 1%positive]> (<["g1" := 2%positive]> ∅).

Definition room_of (phase : GamePhase) (word : string) (choices : list string)
    (canvas : list PixelMessage.t) (d : Duration) : Room.t :=
  Room.mk "R1" two_players phase (Some 1%positive) 0 word choices 1 3 []
    (Some (running_timer d)) ["d1"; "g1"] ∅ [] true canvas.

Definition world_of (rm : Room.t) (drawerCanDraw : bool) : World :=
  mkWorld (<["R1" := 1%positive]> ∅) (<[1%positive := rm]> ∅)
    (<[1%positive := mkP "d1" (Some 1%positive) drawerCanDraw false]>
       (<[2%positive := mkP "g1" (Some 1%positive) false false]> ∅)).

(** Drawing phase, the word is ["cat"], nobody has guessed yet. *)
Definition w_drawing : World :=
  world_of (room_of PhaseDrawing "cat" [] [a_pixel 3 4] DrawingPhaseDuration) true.

(** Waiting phase with the three choices on offer and no word yet. *)
Definition w_selecting : World :=
  world_of (room_of PhaseWaiting "" ["cat"; "giraffe"; "watermelon"] [] (15 * Second)) false.

(** Revealing phase: the drawing is over, the drawer may no longer draw. *)
Definition w_revealing : World :=
  world_of (room_of PhaseRevealing "cat" [] [a_pixel 3 4] RevealingPhaseDuration) false.

(** A lobby with eight players ["p1"] ... ["p8"] at the addresses 1 ... 8, and
    a ninth player, not yet in any room, at address 9. *)
Definition lobby_ids : list (string * ptr) :=
  [("p1", 1); ("p2", 2); ("p3", 3); ("p4", 4);
   ("p5", 5); ("p6", 6); ("p7", 7); ("p8", 8)]%positive.

Definition full_lobby : Room.t :=
  Room.mk "R1" (list_to_map lobby_ids) PhaseLobby None 0 "" [] 1 3 []
    (Some (GameTimer.mk 0 0 0 false false)) [] ∅ [] false [].

Definition w_full : World :=
  mkWorld (<["R1" := 1%positive]> ∅) (<[1%positive := full_lobby]> ∅)
    (<[9%positive := mkP "p9" None false false]>
       (list_to_map ((fun ka : string * ptr => (ka.2, mkP ka.1 (Some 1%positive) false false))
                       <$> lobby_ids))).

End Examples.

(** ** Vocabulary of the properties *)

(** The effects of [CancelPhaseTimer]. *)
Definition timer_effect (room : rptr) (e : Effect) : Prop :=
  e = CancelContext room
  \/ exists remaining phase active,
       e = Do (SafeBroadcastToRoom room
                 (mkMessage "timer_update" (TimerUpdateData remaining phase active))).

(** The phases of a round in which the specification wants a word. *)
Definition in_round (phase : GamePhase) : Prop :=
  phase = PhaseDrawing \/ phase = PhaseRevealing.

Definition word_phase_invariant (rm : Room.t) : Prop :=
  Room.Word rm <> "" <-> in_round (Room.Phase rm).

(** The room as [UpdatePlayerOrder] leaves it. *)
Definition reordered (rm : Room.t) (order : list string) (cur : option ptr) (idx : Z)
    : Room.t :=
  Room.with_CurrentIndex (Room.with_Current (Room.with_PlayerOrder rm order) cur) idx.

(** The drawer at work: the three checks of [HandlePixelDrawEnhanced]
    pass for [player]. *)
Definition drawing (w : World) (player : ptr) (p : Player.t) (room : rptr) (rm : Room.t)
    : Prop :=
  player_store w !! player = Some p /\ Player.Room p = Some room
  /\ room_store w !! room = Some rm
  /\ Room.Phase rm = PhaseDrawing /\ Room.Current rm = Some player
  /\ Player.CanDraw p = true.

(** [NormalizeCoordinates] on a position of a batch. *)
Definition normalize_position (p : Player.t) (g : GridPosition.t) : GridPosition.t :=
  let '(gridX, gridY) :=
    NormalizeCoordinates (GridPosition.GridX g) (GridPosition.GridY g)
      (Player.CanvasWidth p) (Player.CanvasHeight p) in
  GridPosition.mk gridX gridY.

Definition position_in_grid (g : GridPosition.t) : Prop :=
  in_grid (GridPosition.GridX g) (GridPosition.GridY g) = true.

(** What the canvas of a room holds: [pixel] entries with both coordinates
    on the grid and [batch_place] entries with at least one position, all
    of them on the grid. *)
Definition stored_entry (e : PixelMessage.t) : Prop :=
  match PixelMessage.Type_ e with
  | PixelPlace =>
      exists x y, PixelMessage.X e = Some x /\ PixelMessage.Y e = Some y
                  /\ in_grid x y = true
  | BatchPlace =>
      PixelMessage.Pixels e <> [] /\ Forall position_in_grid (PixelMessage.Pixels e)
  | _ => False
  end.

Definition canvas_invariant (w : World) : Prop :=
  forall room rm, room_store w !! room = Some rm ->
                  Forall stored_entry (Room.CanvasState rm).

(** An [erase] message for one position, and the positions of a batch
    erased one message at a time. *)
Definition erase_message (g : GridPosition.t) : PixelMessage.t :=
  PixelMessage.mk ErasePixel (Some (GridPosition.GridX g)) (Some (GridPosition.GridY g))
    "" 0 [].

Definition erase_each (now : Time) (player : ptr) (positions : list GridPosition.t)
    (w : World) : option World :=
  foldl (fun acc g =>
           w0 ← acc;
           fst <$> HandlePixelDrawEnhanced now player (Some (erase_message g)) w0)
        (Some w) positions.

(** The messages that the validation of [HandlePixelDrawEnhanced]
    discards: undecodable data, a [pixel] or [erase] without both
    coordinates or with a coordinate off the grid, a batch without any
    position on the grid. *)
Definition rejected (rawData : option PixelMessage.t) : Prop :=
  match rawData with
  | None => True
  | Some pm =>
      match PixelMessage.Type_ pm with
      | PixelPlace | ErasePixel =>
          match PixelMessage.X pm, PixelMessage.Y pm with
          | Some x, Some y => in_grid x y = false
          | _, _ => True
          end
      | BatchPlace | BatchErase =>
          Forall (fun g => ~ position_in_grid g) (PixelMessage.Pixels pm)
      | OtherPixelType _ => False
      end
  end.

(** ** The timer tick and the consistency check *)

(** The difference of two [int64]s, with its wrap-around. *)
Definition int_sub (a b : Z) : Z := (a - b + 2 ^ 63) mod 2 ^ 64 - 2 ^ 63.

(** [BroadcastTimerUpdate], called by the timer goroutine at every tick. *)
Definition BroadcastTimerUpdate (now : Time) (room : rptr) (w : World) : Result :=
  match room_store w !! room with
  | None => Some (w, [])
  | Some rm =>
      match Room.Timer rm with
      | None => Some (w, [])
      | Some tm =>
          if negb (GameTimer.IsActive tm) then Some (w, [])
          else
            let remaining :=
              Z.max (int_sub (GameTimer.Duration tm) (Since now (GameTimer.StartTime tm))) 0 in
            let tm' := GameTimer.mk (GameTimer.StartTime tm) (GameTimer.Duration tm)
                         remaining (GameTimer.IsActive tm) (GameTimer.Cancel tm) in
            let timerUpdateData :=
              TimerUpdateData (Milliseconds remaining) (Room.Phase rm)
                (GameTimer.IsActive tm') in
            Some (set_room w room (Room.with_Timer rm (Some tm')),
                  [Do (SafeBroadcastToRoom room (mkMessage "timer_update" timerUpdateData))])
      end
  end.

(** [utils.ValidateGameState]; [None] for a [nil] room.  Every value of
    [GamePhase] is one of the five phases that the switch accepts. *)
Definition ValidateGameState (now : Time) (room : rptr) (w : World) : option bool :=
  rm ← room_store w !! room;
  if (Room.CurrentIndex rm <? 0)
     || (Z.of_nat (length (Room.PlayerOrder rm)) <=? Room.CurrentIndex rm)
  then Some false
  else
    let timer_ok :=
      match Room.Timer rm with
      | Some tm =>
          let remaining :=
            int_sub (GameTimer.Duration tm) (Since now (GameTimer.StartTime tm)) in
          negb ((remaining <? 0) && GameTimer.IsActive tm)
      | None => true
      end in
    match current_player w rm with
    | Some cp =>
        if negb (bool_decide (is_Some (Room.Players rm !! Player.Id cp))) then Some false
        else
          id ← index (Room.PlayerOrder rm) (Room.CurrentIndex rm);
          if negb (bool_decide (id = Player.Id cp)) then Some false
          else Some timer_ok
    | None => Some timer_ok
    end.

(** Every pointer of [room.Players] points to a player, and every player
    is entered under its own identifier, as [AddPlayer] enters it. *)
Definition players_allocated (w : World) (rm : Room.t) : Prop :=
  forall k a, Room.Players rm !! k = Some a -> is_Some (player_store w !! a).

Definition keyed_by_id (w : World) (rm : Room.t) : Prop :=
  forall k a p, Room.Players rm !! k = Some a -> player_store w !! a = Some p ->
                Player.Id p = k.

(** The timer of a room does not run. *)
Definition timer_stopped (rm : Room.t) : Prop :=
  forall tm, Room.Timer rm = Some tm -> GameTimer.IsActive tm = false.

(** What [StartWaitingPhase] does to each player of the room. *)
Definition reset_for_round (p : Player.t) : Player.t :=
  Player.with_LastGuessTime (Player.with_CanDraw (Player.with_HasGuessed p false) false) 0.

Module MoreExamples.
Import Examples.

(** The drawing room of the examples once its timer has been cancelled. *)
Definition stopped_timer (d : Duration) : GameTimer.t :=
  GameTimer.mk t_start d 0 false true.

Definition room_after_guess : Room.t :=
  Room.with_Timer (room_of PhaseDrawing "cat" [] [a_pixel 3 4] DrawingPhaseDuration)
    (Some (stopped_timer DrawingPhaseDuration)).

Definition w_after_guess : World := world_of room_after_guess true.

End MoreExamples.

(** ** Finding a room to join *)

Section JoinableRoom.
Context `{GoRuntime}.

(** The loop of [GetJoinableRoom] over the registry, in the order of
    [range]; [None] is the panic on a [nil] room. *)
Fixpoint joinable_loop (w : World) (rooms : list (string * rptr)) : option string :=
  match rooms with
  | [] => Some ""
  | (_, room) :: rest =>
      rm ← room_store w !! room;
      if MaxPlayersPerRoom <=? Z.of_nat (size (Room.Players rm)) then joinable_loop w rest
      else if decide (Room.Phase rm = PhaseLobby) then Some (Room.Id rm)
      else joinable_loop w rest
  end.

Definition GetJoinableRoom (w : World) : option string :=
  joinable_loop w (range_players (Rooms w)).

End JoinableRoom.

(** A room that takes new players, and a registry without [nil] entries. *)
Definition joinable (rm : Room.t) : Prop :=
  Z.of_nat (size (Room.Players rm)) < MaxPlayersPerRoom /\ Room.Phase rm = PhaseLobby.

Definition registry_allocated (w : World) : Prop :=
  forall k room, Rooms w !! k = Some room -> is_Some (room_store w !! room).

(** The player as [AddPlayer] enters it into a room. *)
Definition joined (p : Player.t) (room : rptr) : Player.t :=
  Player.with_IsReady (Player.with_IsConnected (Player.with_Room p (Some room)) true) false.

(** ** Methods of [Room] ([internal/model.go]) *)

Section RoomMethods.
Context `{GoRuntime}.

Definition GetPlayerByIndex (rm : Room.t) (i : Z) : option ptr :=
  if (i <? 0) || (Z.of_nat (length (Room.PlayerOrder rm)) <=? i) then None
  else index (Room.PlayerOrder rm) i ≫= fun playerID => Room.Players rm !! playerID.

Definition GetNextDrawerIndex (rm : Room.t) : Z :=
  if Z.of_nat (length (Room.PlayerOrder rm)) =? 0 then -1
  else Z.rem (int_add (Room.CurrentIndex rm) 1) (Z.of_nat (length (Room.PlayerOrder rm))).

(** The loops over [r.Players] dereference every pointer they visit:
    [None] is the panic on a [nil] entry. *)
Definition GetPlayerCount (w : World) (rm : Room.t) : option Z :=
  foldl (fun acc ka =>
           count ← acc; p ← player_store w !! ka.2;
           Some (if Player.IsConnected p then int_add count 1 else count))
        (Some 0) (range_players (Room.Players rm)).

Definition CanStartGame (w : World) (rm : Room.t) : option bool :=
  count ← GetPlayerCount w rm; Some (MinPlayersToStart <=? count).

Fixpoint all_ready_loop (w : World) (players : list (string * ptr)) : option bool :=
  match players with
  | [] => Some true
  | (_, a) :: rest =>
      p ← player_store w !! a;
      if Player.IsConnected p && negb (Player.IsReady p) then Some false
      else all_ready_loop w rest
  end.

Definition AreAllPlayersReady (w : World) (rm : Room.t) : option bool :=
  all_ready_loop w (range_players (Room.Players rm)).

Definition ResetPlayerGuessState (room : rptr) (w : World) : option World :=
  rm ← room_store w !! room;
  h ← foldl (fun acc ka =>
               h ← acc; p ← h !! ka.2;
               Some (<[ka.2 := Player.with_HasGuessed p false]> h))
            (Some (player_store w)) (range_players (Room.Players rm));
  Some (set_room (set_players w h) room (Room.with_CorrectGuessers rm [])).

(** [player != r.Current] compares the pointers. *)
Fixpoint everyone_guessed_loop (w : World) (rm : Room.t) (players : list (string * ptr))
    : option bool :=
  match players with
  | [] => Some true
  | (_, a) :: rest =>
      p ← player_store w !! a;
      if Player.IsConnected p && negb (bool_decide (Room.Current rm = Some a))
         && negb (Player.HasGuessed p)
      then Some false
      else everyone_guessed_loop w rm rest
  end.

Definition HasEveryoneGuessed (w : World) (rm : Room.t) : option bool :=
  everyone_guessed_loop w rm (range_players (Room.Players rm)).

End RoomMethods.

(** The drawer is a player of the room, entered under its identifier. *)
Definition current_in_room (w : World) (rm : Room.t) : Prop :=
  forall c, Room.Current rm = Some c ->
            exists cp, player_store w !! c = Some cp
                       /\ Room.Players rm !! Player.Id cp = Some c.

(** ** The lobby, the word selection and the start of the drawing phase *)

(** The data of the messages these functions send (their texts for the
    reader, built with [fmt.Sprintf], are left out). *)
Inductive Notice :=
  | LobbyUpdateData (player_id username : string) (is_ready : bool)
      (ready_count total_players : Z)
  | GameStartedData (room_id : string) (players_count : Z)
      (players : list (string * string * Z))
  | WordSelectionData (room_id : string) (choices : list string) (time_limit : Z)
  | WaitingForWordData (current_drawer : string) (time_remaining : Z)
  | MaskedWordData (room_id masked_word : string)
  | DrawerPhaseData (room_id current_word drawer_id drawer_username : string)
      (phase : GamePhase) (time_remaining : Z)
  | DrawingPermissionData (room_id player_id : string).

Inductive Target :=
  | ToPlayer (player : ptr)                         (* player.SafeWriteJSON *)
  | ToRoom (room : rptr)                            (* SafeBroadcastToRoom *)
  | ToRoomExcept (room : rptr) (exclude : ptr)      (* SafeBroadcastToRoomExcept *).

Inductive Action :=
  | Eff (e : Effect)          (* an effect of a function of the sections above *)
  | Write (target : Target) (type : string) (data : Notice)
  | GoWrite (target : Target) (type : string) (data : Notice)   (* the same in a goroutine *)
  | GoStartGame (room : rptr).

Inductive StartGameError :=
  | NotEnoughPlayers (have need : Z)
  | NotAllPlayersReady (room_id : string).

Definition with_PlayersReady (r : Room.t) (v : gmap string bool) : Room.t :=
  Room.mk (Room.Id r) (Room.Players r) (Room.Phase r) (Room.Current r) (Room.CurrentIndex r)
    (Room.Word r) (Room.WordChoices r) (Room.RoundNumber r) (Room.MaxRounds r)
    (Room.RoundStats r) (Room.Timer r) (Room.PlayerOrder r) v (Room.CorrectGuessers r)
    (Room.HasGameStarted r) (Room.CanvasState r).

(** The first assignments of [StartGame]. *)
Definition with_new_game (r : Room.t) : Room.t :=
  Room.mk (Room.Id r) (Room.Players r) (Room.Phase r) (Room.Current r) 0
    (Room.Word r) (Room.WordChoices r) 1 (Room.MaxRounds r)
    [] (Room.Timer r) (Room.PlayerOrder r) (Room.PlayersReady r) (Room.CorrectGuessers r)
    true (Room.CanvasState r).

(** [room.Current] when it is not [nil], with the player it points to. *)
Definition current_drawer (w : World) (rm : Room.t) : option (ptr * Player.t) :=
  Room.Current rm ≫= fun c => (fun cp => (c, cp)) <$> player_store w !! c.

Section Lobby.
Context `{GoRuntime}.

(** The order in which [range] visits [room.PlayersReady]. *)
Variable range_ready : gmap string bool -> list (string * bool).

Definition HandlePlayerReady (player : ptr) (ready : bool) (w : World)
    : option (World * list Action) :=
  p ← player_store w !! player;
  room ← Player.Room p;
  rm ← room_store w !! room;
  if decide (Room.Phase rm <> PhaseLobby) then Some (w, [])
  else
    let p1 := Player.with_IsReady p ready in
    let rm1 := with_PlayersReady rm (<[Player.Id p := ready]> (Room.PlayersReady rm)) in
    let w1 := set_room (set_player w player p1) room rm1 in
    let lobbyUpdate :=
      LobbyUpdateData (Player.Id p) (Player.Username p) ready
        (Z.of_nat (size (Room.PlayersReady rm1))) (Z.of_nat (size (Room.Players rm1))) in
    allReady ← AreAllPlayersReady w1 rm1;
    let enoughPlayers := MinPlayersToStart <=? Z.of_nat (size (Room.Players rm1)) in
    Some (w1,
          GoWrite (ToRoom room) "lobby_update" lobbyUpdate
          :: (if allReady && enoughPlayers then [GoStartGame room] else [])).

(** The rotation that [StartGame] builds from [room.PlayersReady]. *)
Definition ready_order (w : World) (rm : Room.t) : list string :=
  omap (fun kr : string * bool =>
          match Room.Players rm !! kr.1 ≫= fun a => player_store w !! a with
          | Some player => if Player.IsConnected player && kr.2 then Some kr.1 else None
          | None => None
          end)
       (range_ready (Room.PlayersReady rm)).

Definition StartGame (now : Time) (room : rptr) (w : World)
    : option (World * list Action * option StartGameError) :=
  rm ← room_store w !! room;
  if Z.of_nat (size (Room.Players rm)) <? MinPlayersToStart
  then Some (w, [], Some (NotEnoughPlayers (Z.of_nat (size (Room.Players rm)))
                            MinPlayersToStart))
  else
    allReady ← AreAllPlayersReady w rm;
    if negb allReady then Some (w, [], Some (NotAllPlayersReady (Room.Id rm)))
    else
      w1 ← ResetPlayerGuessState room (set_room w room (with_new_game rm));
      rm1 ← room_store w1 !! room;
      let rm2 := Room.with_PlayerOrder rm1 (ready_order w1 rm1) in
      playersSnapshot ←
        mapM (fun ka : string * ptr =>
                (fun p => (Player.Id p, Player.Username p, Player.Score p))
                  <$> player_store w1 !! ka.2)
             (range_players (Room.Players rm2));
      let gameStarted :=
        GameStartedData (Room.Id rm2) (Z.of_nat (length (Room.PlayerOrder rm2)))
          playersSnapshot in
      '(w2, e2) ← StartWaitingPhase now room (set_room w1 room rm2);
      Some (w2, (Eff <$> e2) ++ [Write (ToRoom room) "game_started" gameStarted], None).

End Lobby.

Section Phases.
Context `{GoRuntime}.

(** [StartWordSelection]; [words] is what [GenerateWordChoices] returns and
    [write_result] what the write of [word_selection] to the drawer
    returns, [None] for no error. *)
Definition StartWordSelection (now : Time) (room : rptr) (words : list string)
    (write_result : option string) (w : World) : option (World * list Action) :=
  rm ← room_store w !! room;
  match current_drawer w rm with
  | None => Some (w, [])
  | Some (c, currentDrawer) =>
      let w1 := set_room w room (Room.with_WordChoices rm words) in
      let wordSelection :=
        Write (ToPlayer c) "word_selection" (WordSelectionData (Room.Id rm) words 15) in
      match write_result with
      | Some _ =>
          first ← index words 0;
          Some (w1, [wordSelection; Eff (Go [CallHandleWordSelection c first])])
      | None =>
          '(w2, e2) ← StartPhaseTimer now room (15 * Second) (OnSelectionExpired c) w1;
          Some (w2,
                [wordSelection;
                 GoWrite (ToRoomExcept room c) "waiting_for_word"
                   (WaitingForWordData (Player.Username currentDrawer) 15)]
                ++ (Eff <$> e2))
      end
  end.

(** The loop of [StartDrawingPhase] that clears [HasGuessed]; a [nil]
    entry is skipped. *)
Definition clear_guessed (addrs : list ptr) (h : gmap ptr Player.t) : gmap ptr Player.t :=
  foldl (fun h a =>
           match h !! a with
           | Some p => <[a := Player.with_HasGuessed p false]> h
           | None => h
           end)
        h addrs.

(** [StartDrawingPhase]; an error of the write of the private
    [drawing_phase] message to the drawer is only logged. *)
Definition StartDrawingPhase (now : Time) (room : rptr) (w : World)
    : option (World * list Action) :=
  match room_store w !! room with
  | None => Some (w, [])
  | Some rm =>
      match current_drawer w rm with
      | None => Some (w, [])
      | Some (c, drawer0) =>
          if decide (Room.Word rm = "") then Some (w, [])
          else
            let rm1 := Room.with_CorrectGuessers (Room.with_Phase rm PhaseDrawing) [] in
            let h1 := <[c := Player.with_CanDraw drawer0 true]> (player_store w) in
            let h2 := clear_guessed ((range_players (Room.Players rm1)).*2) h1 in
            let timeLimit := 120 in
            masked ← GetMaskedWord (Room.Word rm1);
            let w1 := set_room (set_players w h2) room rm1 in
            '(w2, e2) ← StartPhaseTimer now room DrawingPhaseDuration OnDrawingExpired w1;
            drawer ← player_store w2 !! c;
            Some (w2,
                  (Eff <$> e2)
                  ++ [GoWrite (ToRoomExcept room c) "drawing_phase"
                        (MaskedWordData (Room.Id rm1) masked);
                      Write (ToPlayer c) "drawing_phase"
                        (DrawerPhaseData (Room.Id rm1) (Room.Word rm1) (Player.Id drawer)
                           (Player.Username drawer) PhaseDrawing timeLimit)])
      end
  end.

(** [UpdateDrawingPermissions]: the first loop dereferences every entry of
    [room.Players]. *)
Definition UpdateDrawingPermissions (room : rptr) (w : World)
    : option (World * list Action) :=
  rm ← room_store w !! room;
  h ← foldl (fun acc a =>
               h ← acc; p ← h !! a; Some (<[a := Player.with_CanDraw p false]> h))
            (Some (player_store w)) ((range_players (Room.Players rm)).*2);
  let granted :=
    if decide (Room.Phase rm = PhaseDrawing)
    then Room.Current rm ≫= fun c => (fun cp => (c, cp)) <$> h !! c
    else None in
  let h' := match granted with
            | Some (c, cp) => <[c := Player.with_CanDraw cp true]> h
            | None => h
            end in
  let currentDrawerId := match granted with
                         | Some (_, cp) => Player.Id cp
                         | None => ""
                         end in
  Some (set_players w h',
        [GoWrite (ToRoom room) "drawing_permission_updated"
           (DrawingPermissionData (Room.Id rm) currentDrawerId)]).

End Phases.

(** A loop that writes a field of every player it visits, through the
    pointers of the room. *)
Definition update_all (f : Player.t -> Player.t) (addrs : list ptr) (h : gmap ptr Player.t)
    : option (gmap ptr Player.t) :=
  foldl (fun acc a => h' ← acc; p ← h' !! a; Some (<[a := f p]> h')) (Some h) addrs.

(** Every connected player of the room is ready. *)
Definition all_ready (w : World) (rm : Room.t) : Prop :=
  forall k a p, Room.Players rm !! k = Some a -> player_store w !! a = Some p ->
                Player.IsConnected p = true -> Player.IsReady p = true.

Module LobbyExamples.
Import Examples.

(** The two players of the examples in the lobby, both ready. *)
Definition ready_lobby : Room.t :=
  with_PlayersReady
    (Room.mk "R1" two_players PhaseLobby None 0 "" [] 1 3 []
       (Some (GameTimer.mk 0 0 0 false false)) [] ∅ [] false [])
    (<["d1" := true]> (<["g1" := true]> ∅)).

Definition w_ready : World := world_of ready_lobby false.

End LobbyExamples.

(** ** The final results ([internal/game/score.go]) *)

Module FinalResults.
Record t := mk {
  Leaderboard : list GameResultData.t;
  MVP : option GameResultData.t;
  FastestGuess : option GameResultData.t;
  MostAccurate : option GameResultData.t;
  RoundsPlayed : Z;
  TotalPlayers : Z
}.
End FinalResults.

Definition MaxInt64 : Z := 2 ^ 63 - 1.

(** The comparison handed to [slices.SortFunc]: [b.Score - a.Score]. *)
Definition by_score_descending (a b : GameResultData.t) : Z :=
  int_sub (GameResultData.Score b) (GameResultData.Score a).

Definition with_Position (e : GameResultData.t) (position : Z) : GameResultData.t :=
  GameResultData.mk (GameResultData.PlayerID e) (GameResultData.Username e)
    (GameResultData.IsCorrect e) (GameResultData.Score e) position
    (GameResultData.TimeToGuess e).

(** [playerData[idx].Position = idx + 1], for every index of the slice. *)
Definition assign_positions (playerData : list GameResultData.t) : list GameResultData.t :=
  imap (fun idx e => with_Position e (Z.of_nat idx + 1)) playerData.

(** The body of the inner loop of step 4. *)
Definition faster (best : GameResultData.t) (guessTime : PlayerGuess.t) : GameResultData.t :=
  if PlayerGuess.GuessTime guessTime <? GameResultData.TimeToGuess best
  then GameResultData.mk (PlayerGuess.PlayerID guessTime) (PlayerGuess.Username guessTime)
         (GameResultData.IsCorrect best) (GameResultData.Score best)
         (GameResultData.Position best) (PlayerGuess.GuessTime guessTime)
  else best.

Definition fastest_guess (stats : list RoundStats.t) : option GameResultData.t :=
  let best :=
    foldl (fun best stat => foldl faster best (RoundStats.CorrectGuesses stat))
          (GameResultData.mk "" "" false 0 0 MaxInt64) stats in
  if GameResultData.TimeToGuess best =? MaxInt64 then None else Some best.

Section Results.
Context `{GoRuntime}.

(** [slices.SortFunc]: an unstable sort, whose result is fixed by the
    comparison only up to the order of equal elements. *)
Variable SortFunc : (GameResultData.t -> GameResultData.t -> Z)
                    -> list GameResultData.t -> list GameResultData.t.

(** [CalculateFinalResults]; the guesses of a round are the field
    [CorrectGuesses] of [RoundStats] in [internal/model.go]. *)
Definition CalculateFinalResults (room : rptr) (w : World) : option FinalResults.t :=
  rm ← room_store w !! room;
  playerData ←
    mapM (fun ka : string * ptr =>
            (fun player =>
               GameResultData.mk (Player.Id player) (Player.Username player) false
                 (Player.Score player) 0 0)
              <$> player_store w !! ka.2)
         (range_players (Room.Players rm));
  let leaderboard := assign_positions (SortFunc by_score_descending playerData) in
  Some (FinalResults.mk leaderboard (head leaderboard) (fastest_guess (Room.RoundStats rm))
          None (Room.RoundNumber rm) (Z.of_nat (size (Room.Players rm)))).

End Results.

(** What [slices.SortFunc] asks of the comparison on the elements it
    sorts: [cmp a b <= 0], "[a] is not after [b]", is total and
    transitive. *)
Definition sortable {A} (cmp : A -> A -> Z) (l : list A) : Prop :=
  (forall a b, a ∈ l -> b ∈ l -> cmp a b <= 0 \/ cmp b a <= 0)
  /\ (forall a b c, a ∈ l -> b ∈ l -> c ∈ l -> cmp a b <= 0 -> cmp b c <= 0 -> cmp a c <= 0).

(** The guesses recorded in the round statistics, in the order of the two
    loops. *)
Definition recorded_guesses (rm : Room.t) : list PlayerGuess.t :=
  concat (RoundStats.CorrectGuesses <$> Room.RoundStats rm).

(** A sort by insertion, to run the examples. *)
Fixpoint insert_by {A} (cmp : A -> A -> Z) (x : A) (l : list A) : list A :=
  match l with
  | [] => [x]
  | y :: l' => if cmp x y <=? 0 then x :: y :: l' else y :: insert_by cmp x l'
  end.

Definition insertion_sort {A} (cmp : A -> A -> Z) (l : list A) : list A :=
  foldr (insert_by cmp) [] l.

Module ResultExamples.
Import Examples.

(** The room of the examples at the end of its second round: one guess of
    ["g1"] after five seconds is on record, ["g1"] has 150 points and the
    drawer 50. *)
Definition scored_room : Room.t :=
  Room.mk "R1" two_players PhaseEnded (Some 1%positive) 0 "" [] 2 3
    [RoundStats.mk 1 "d1" "cat" [PlayerGuess.mk "g1" "g1" 5000 true] 1 t_start t_now]
    (Some (GameTimer.mk t_start DrawingPhaseDuration 0 false true)) ["d1"; "g1"] ∅ [] true [].

Definition w_scored : World :=
  mkWorld (<["R1" := 1%positive]> ∅) (<[1%positive := scored_room]> ∅)
    (<[1%positive := Player.with_Score (mkP "d1" (Some 1%positive) false false) 50]>
       (<[2%positive := Player.with_Score (mkP "g1" (Some 1%positive) false true) 150]> ∅)).

End ResultExamples.

(** ** The functions that call [CancelPhaseTimer] with the lock held

    [StartRevealingPhase], [EndGame] and [ResetRoomToLobby] take the lock of
    the room and call [CancelPhaseTimer], which takes it as well, before
    they release it.  They are embedded with the set of the room locks that
    are held: [room.Mu.Lock()] on a lock in the set does not return.  The
    functions they call once the lock is released run as one step each, as
    above. *)

Inductive Outcome (A : Type) :=
  | Returns (a : A)
  | Panics
  | Blocks (w : World) (held : gset rptr)  (* waiting for a lock, in this state *).
Arguments Returns {A} a.
Arguments Panics {A}.
Arguments Blocks {A} w held.

Module RoundEndData.
Record t := mk {
  Word : string;
  DrawerID : string;
  DrawerUsername : string;
  CorrectGuessers : list PlayerGuess.t;
  NextDrawer : option Player.t;
  FinalScores : list Player.t;
  RoundNumber : Z;
  IsGameEnded : bool
}.
End RoundEndData.

Inductive ClosingNotice :=
  | RoundEnd (data : RoundEndData.t)
  | GameEnded (results : FinalResults.t)
  | LobbyReset (room_id : string) (timestamp : Z) (players : gmap string ptr)
      (phase : GamePhase) (current_drawer : option ptr) (round_number max_rounds : Z)
      (correct_guessers : list PlayerGuess.t).

Inductive ClosingAction :=
  | TimerEffect (e : Effect)
  | Announce (room : rptr) (type : string) (data : ClosingNotice)  (* SafeBroadcastToRoom *).

Definition with_RoundStats (r : Room.t) (v : list RoundStats.t) : Room.t :=
  Room.mk (Room.Id r) (Room.Players r) (Room.Phase r) (Room.Current r) (Room.CurrentIndex r)
    (Room.Word r) (Room.WordChoices r) (Room.RoundNumber r) (Room.MaxRounds r)
    v (Room.Timer r) (Room.PlayerOrder r) (Room.PlayersReady r) (Room.CorrectGuessers r)
    (Room.HasGameStarted r) (Room.CanvasState r).

(** The assignments of [ResetRoomToLobby] to the fields of the room. *)
Definition with_lobby (r : Room.t) : Room.t :=
  Room.mk (Room.Id r) (Room.Players r) PhaseLobby None 0 "" [] 1 (Room.MaxRounds r)
    [] (Room.Timer r) [] ∅ [] false [].

(** [CancelPhaseTimer] with its lock: taken after the test for a [nil]
    room and released before the broadcast. *)
Definition CancelPhaseTimer_locking (room : rptr) (held : gset rptr) (w : World)
    : Outcome (World * list Effect) :=
  match room_store w !! room with
  | None => Returns (w, [])
  | Some _ =>
      if decide (room ∈ held) then Blocks w held
      else match CancelPhaseTimer room w with
           | Some r => Returns r
           | None => Panics
           end
  end.

Section Closing.
Context `{GoRuntime}.

Variable SortFunc : (GameResultData.t -> GameResultData.t -> Z)
                    -> list GameResultData.t -> list GameResultData.t.

Definition EndGame (now : Time) (room : rptr) (held : gset rptr) (w : World)
    : Outcome (World * list ClosingAction) :=
  match room_store w !! room with
  | None => Returns (w, [])
  | Some rm =>
      if decide (room ∈ held) then Blocks w held
      else
        let w1 := set_room w room (Room.with_Phase rm PhaseEnded) in
        match CancelPhaseTimer_locking room ({[room]} ∪ held) w1 with
        | Blocks w' held' => Blocks w' held'
        | Panics => Panics
        | Returns (w2, e2) =>
            match CalculateFinalResults SortFunc room w2 with
            | None => Panics
            | Some resultData =>
                match StartPhaseTimer now room (30 * Second) OnGameEndedExpired w2 with
                | None => Panics
                | Some (w3, e3) =>
                    Returns (w3,
                             (TimerEffect <$> e2)
                             ++ [Announce room "game_ended" (GameEnded resultData)]
                             ++ (TimerEffect <$> e3))
                end
            end
        end
  end.

Definition ResetRoomToLobby (now : Time) (room : rptr) (held : gset rptr) (w : World)
    : Outcome (World * list ClosingAction) :=
  match room_store w !! room with
  | None => Panics
  | Some _ =>
      if decide (room ∈ held) then Blocks w held
      else
        match CancelPhaseTimer_locking room ({[room]} ∪ held) w with
        | Blocks w' held' => Blocks w' held'
        | Panics => Panics
        | Returns (w1, e1) =>
            match room_store w1 !! room with
            | None => Panics
            | Some rm1 =>
                let rm2 := with_lobby rm1 in
                match update_all (fun p => Player.with_Score
                                             (reset_for_round (Player.with_IsReady p false)) 0)
                        ((range_players (Room.Players rm2)).*2) (player_store w1) with
                | None => Panics
                | Some h =>
                    Returns (set_room (set_players w1 h) room rm2,
                             (TimerEffect <$> e1)
                             ++ [Announce room "lobby_reset"
                                   (LobbyReset (Room.Id rm2) (UnixMilli now)
                                      (Room.Players rm2) (Room.Phase rm2) (Room.Current rm2)
                                      (Room.RoundNumber rm2) (Room.MaxRounds rm2)
                                      (Room.CorrectGuessers rm2))])
                end
            end
        end
  end.

(** The loop of [StartRevealingPhase] that clears [CanDraw]; a [nil] entry
    is skipped. *)
Definition clear_can_draw (addrs : list ptr) (h : gmap ptr Player.t) : gmap ptr Player.t :=
  foldl (fun h a =>
           match h !! a with
           | Some p => <[a := Player.with_CanDraw p false]> h
           | None => h
           end)
        h addrs.

Definition StartRevealingPhase (now : Time) (room : rptr) (held : gset rptr) (w : World)
    : Outcome (World * list ClosingAction) :=
  match room_store w !! room with
  | None => Returns (w, [])
  | Some rm =>
      if decide (room ∈ held) then Blocks w held
      else
        let w1 := set_room w room (Room.with_Phase rm PhaseRevealing) in
        match CancelPhaseTimer_locking room ({[room]} ∪ held) w1 with
        | Blocks w' held' => Blocks w' held'
        | Panics => Panics
        | Returns (w2, e2) =>
            match room_store w2 !! room with
            | None => Panics
            | Some rm2 =>
                let addrs := (range_players (Room.Players rm2)).*2 in
                let h := clear_can_draw addrs (player_store w2) in
                let drawer := Room.Current rm2 ≫= fun c => h !! c in
                let rs :=
                  RoundStats.mk (Room.RoundNumber rm2)
                    (from_option Player.Id "" drawer) (Room.Word rm2)
                    (Room.CorrectGuessers rm2)
                    (Z.of_nat (length (Room.CorrectGuessers rm2)))
                    (from_option GameTimer.StartTime 0 (Room.Timer rm2)) now in
                let rm3 := with_RoundStats rm2 (Room.RoundStats rm2 ++ [rs]) in
                let n := Z.of_nat (length (Room.PlayerOrder rm3)) in
                let nextPlayerPublic :=
                  if 0 <? n
                  then Some (index (Room.PlayerOrder rm3)
                               (Z.rem (int_add (Room.CurrentIndex rm3) 1) n))
                  else None in
                match nextPlayerPublic with
                | Some None => Panics
                | _ =>
                    let next :=
                      nextPlayerPublic ≫= fun nextID =>
                        nextID ≫= fun id =>
                          Room.Players rm3 !! id ≫= fun a =>
                            Player.ToPublicPlayer <$> h !! a in
                    let finalScores :=
                      omap (fun a => Player.ToPublicPlayer <$> h !! a) addrs in
                    let isGameEndedNow := Room.MaxRounds rm3 <=? Room.RoundNumber rm3 in
                    let roundEndData :=
                      RoundEndData.mk (Room.Word rm3) (from_option Player.Id "" drawer)
                        (from_option Player.Username "" drawer) (Room.CorrectGuessers rm3)
                        next finalScores 0 isGameEndedNow in
                    match StartPhaseTimer now room (8 * Second) OnRevealComplete
                            (set_room (set_players w2 h) room rm3) with
                    | None => Panics
                    | Some (w3, e3) =>
                        Returns (w3,
                                 (TimerEffect <$> e2)
                                 ++ [Announce room "round_end" (RoundEnd roundEndData)]
                                 ++ (TimerEffect <$> e3))
                    end
                end
            end
        end
  end.

End Closing.

(** ** Text of the ASCII range *)

(** Text without a byte of 128 or above.  On such text [strings.ToLower]
    and [strings.TrimSpace] of the Go library work byte by byte, as
    [ascii_ToLower] and [ascii_TrimSpace] do. *)
Definition ascii_only (s : string) : Prop :=
  Forall (fun c => (N_of_ascii c < 128)%N) (list_ascii_of_string s).

(** Text made of white space only, and text that neither starts nor ends
    with white space. *)
Definition all_space (s : string) : Prop :=
  Forall (fun c => is_space c = true) (list_ascii_of_string s).

Definition trimmed (s : string) : Prop :=
  forall c, head (list_ascii_of_string s) = Some c
            \/ last (list_ascii_of_string s) = Some c -> is_space c = false.

(** Two bytes that are equal or differ by the case of a letter
    (['A'] ... ['Z'] are 65 ... 90, the small letters are 32 above), and
    two texts that are so byte by byte. *)
Definition is_upper (c : ascii) : bool :=
  ((65 <=? N_of_ascii c) && (N_of_ascii c <=? 90))%N.

Definition same_letter (c d : ascii) : Prop :=
  c = d
  \/ (is_upper c = true /\ N_of_ascii d = (N_of_ascii c + 32)%N)
  \/ (is_upper d = true /\ N_of_ascii c = (N_of_ascii d + 32)%N).

Definition equal_fold (a b : string) : Prop :=
  Forall2 same_letter (list_ascii_of_string a) (list_ascii_of_string b).

(** The drawing room of the examples for a drawer whose client canvas has
    the size of the grid, 35 by 20, so that [NormalizeCoordinates] leaves
    the coordinates of the grid as they are; the canvas holds a pixel at
    (3, 4). *)
Module EraseExamples.
Import Examples.

Definition grid_drawer : Player.t :=
  Player.mk "d1" (Some 1%nat) (Some 1%positive) "d1" 0 20 35 true false 0 true 0 true 0 0 0.

Definition w_painted : World :=
  mkWorld (<["R1" := 1%positive]> ∅)
    (<[1%positive := room_of PhaseDrawing "cat" [] [a_pixel 3 4] DrawingPhaseDuration]> ∅)
    (<[1%positive := grid_drawer]>
       (<[2%positive := mkP "g1" (Some 1%positive) false false]> ∅)).

End EraseExamples.

(** * Properties *)

(** ** Scoring *)

Example const_08 : F32.const 4 5 = S754_finite false 13421773 (-24).
Proof. reflexivity. Qed.

Example points_first_fast_easy :
  CalculateGuessPoints (9999 * Millisecond) 1 DifficultyEasy = 150.
Proof. vm_compute. reflexivity. Qed.

Example points_just_after_60s :
  CalculateGuessPoints (60 * Second + 1) 4 DifficultyHard = 60.
Proof. vm_compute. reflexivity. Qed.

(** At exactly 60 s no case of the speed [switch] applies, whatever the
    rank and the difficulty: the multiplier stays 0 and so does the score. *)
Lemma CalculateGuessPoints_at_60s (p : Z) (diff : WordDifficulty) :
  CalculateGuessPoints (60 * Second) p diff = 0.
Proof.
  unfold CalculateGuessPoints, posMultiplier.
  destruct diff; destruct (p =? 1); try (vm_compute; reflexivity);
    destruct (p =? 2); try (vm_compute; reflexivity);
    destruct (p =? 3); vm_compute; reflexivity.
Qed.

(** Away from that instant the code and the rule of the specification
    agree: checked every half second up to 150 s, for the ranks 1 to
    6 and the three difficulties. *)
Lemma CalculateGuessPoints_agrees_off_60s :
  forallb (fun k : nat =>
             let d := Z.of_nat k * (500 * Millisecond) in
             (d =? 60 * Second) || agrees_with_spec d)
          (seq 0 301) = true.
Proof. vm_compute. reflexivity. Qed.

(** The same agreement one nanosecond before, at and one nanosecond after
    the bounds of 10 s and 30 s, one nanosecond on each side of 60 s, and at
    the ends of the range of [time.Since]. *)
Lemma CalculateGuessPoints_agrees_at_bounds :
  forallb agrees_with_spec
    [0; 1; 10 * Second - 1; 10 * Second; 10 * Second + 1;
     30 * Second - 1; 30 * Second; 30 * Second + 1;
     60 * Second - 1; 60 * Second + 1; 3600 * Second; maxDuration] = true.
Proof. vm_compute. reflexivity. Qed.

(** C2 (code defect).  The claim gives 0.75 as the speed multiplier of every
    elapsed time from 60 s on, and 60 points for (60.0 s, rank 4, hard).
    The code has the cases [t < 60] and [t > 60] only: at exactly 60 s it
    returns 0, where the rule of the specification gives 60.  The other
    example of the claim, (9.999 s, rank 1, easy) = 150, holds. *)
Theorem C2_guess_points_at_60s :
  CalculateGuessPoints (60 * Second) 4 DifficultyHard = 0
  /\ guessPoints_spec (60 * Second) 4 DifficultyHard = 60
  /\ CalculateGuessPoints (9999 * Millisecond) 1 DifficultyEasy = 150
  /\ guessPoints_spec (9999 * Millisecond) 1 DifficultyEasy = 150.
Proof. repeat split; vm_compute; reflexivity. Qed.

(** ** Word masking *)

Example mask_empty : GetMaskedWord "" = Some "".
Proof. reflexivity. Qed.

Example mask_spec_two_words : maskWord_spec "ice cream" = "_ _ _   _ _ _ _ _".
Proof. reflexivity. Qed.

Example range_two_byte_rune :
  range_string (String (ascii_of_nat 195) (String (ascii_of_nat 169) "a")) = [0; 2]%nat.
Proof. reflexivity. Qed.

Lemma foldl_panicked {A B} (f : option A -> B -> option A) (l : list B) :
  (forall b, f None b = None) -> foldl f None l = None.
Proof. intros Hf. induction l as [|b l IH]; simpl; [reflexivity|]. rewrite Hf. exact IH. Qed.

Lemma range_from_start (i : nat) (b : N) (bs : list N) :
  range_from i 0 (b :: bs) = i :: range_from (S i) (utf8_width (b :: bs) - 1) bs.
Proof. reflexivity. Qed.

(** The first assignment [masked[0] = ...] is to a slice of length zero:
    every non-empty word makes [GetMaskedWord] panic. *)
Lemma GetMaskedWord_panics (word : string) : word <> "" -> GetMaskedWord word = None.
Proof.
  intros Hne. unfold GetMaskedWord. destruct (decide (word = "")) as [->|_]; [done|].
  destruct word as [|c rest]; [done|].
  unfold range_string.
  change (bytes_of (String c rest)) with (byte_of c :: bytes_of rest).
  rewrite range_from_start.
  match goal with
  | |- context [foldl ?f ?a (?i :: ?l)] => change (foldl f a (i :: l)) with (foldl f (f a i) l)
  end.
  cbn beta. unfold make_slice. cbn [mbind option_bind].
  match goal with
  | |- context [slice_set [] 0 ?v] =>
      change (slice_set [] 0 v) with (@None (list string))
  end.
  rewrite foldl_panicked; [reflexivity|]. intros b. reflexivity.
Qed.

(** C5 (code defect).  The claim has every word masked to underscores
    joined by spaces, a three-letter word to ["_ _ _"].  The code allocates
    the mask with length 0 and assigns to its elements: it panics on the
    first byte of every non-empty word, here on ["cat"]. *)
Theorem C5_masked_word_panics :
  GetMaskedWord "cat" = None /\ maskWord_spec "cat" = "_ _ _".
Proof. split; reflexivity. Qed.

(** ** Coordinate normalisation *)

Example normalize_f64_small : NormalizeCoordinates_f64 9 9 10 10 = (31, 18).
Proof. vm_compute. reflexivity. Qed.

(** The integer reading and the binary64 computation give the same grid
    position on a range of inputs that covers negative coordinates, a zero
    client size and sizes on both sides of the grid size. *)
Lemma NormalizeCoordinates_f64_agrees :
  forallb (fun c : nat =>
    forallb (fun k : nat =>
               let x := Z.of_nat k - 20 in
               let c := Z.of_nat c in
               bool_decide (NormalizeCoordinates_f64 x x c c = NormalizeCoordinates x x c c))
            (seq 0 150))
    (seq 0 72) = true.
Proof. vm_compute. reflexivity. Qed.

(** C7 (corrected).  The corner [(cW-1, cH-1)] is sent to [(34, 19)] exactly
    when the client canvas is at least as large as the grid, [35 <= cW] and
    [20 <= cH]: the code scales by [floor(x * 35 / cW)], which for a smaller
    canvas stays below 34.  The origin is sent to the origin and a negative
    coordinate to 0, for every [cW >= 1] and [cH >= 1]. *)
Theorem C7_normalize_corners (cW cH : Z) :
  1 <= cW -> 1 <= cH ->
  NormalizeCoordinates 0 0 cW cH = (0, 0)
  /\ (forall x y, x < 0 -> (NormalizeCoordinates x y cW cH).1 = 0)
  /\ (forall x y, y < 0 -> (NormalizeCoordinates x y cW cH).2 = 0)
  /\ ((NormalizeCoordinates (cW - 1) (cH - 1) cW cH).1 = 34 <-> 35 <= cW)
  /\ ((NormalizeCoordinates (cW - 1) (cH - 1) cW cH).2 = 19 <-> 20 <= cH).
Proof.
  intros HW HH.
  assert (Hneg : forall x size c bound, 1 <= c -> 0 < size -> x < 0 ->
            clamp_grid (scale_floor x size c) bound = 0).
  { intros x size c bound Hc Hs Hx. unfold clamp_grid, scale_floor.
    assert (x * size / c < 0) by (apply Z.div_lt_upper_bound; nia).
    destruct (Z.ltb_spec (x * size / c) 0); lia. }
  assert (Hcorner : forall size c, 1 <= c -> 1 <= size ->
            (clamp_grid (scale_floor (c - 1) size c) size = size - 1 <-> size <= c)).
  { intros size c Hc Hs. unfold clamp_grid, scale_floor.
    pose proof (Z.div_mod ((c - 1) * size) c ltac:(lia)) as Hdm.
    pose proof (Z.mod_pos_bound ((c - 1) * size) c ltac:(lia)) as Hmb.
    set (q := (c - 1) * size / c) in *.
    set (r := ((c - 1) * size) mod c) in *.
    assert (0 <= q) by nia. assert (q < size) by nia.
    destruct (Z.ltb_spec q 0); [lia|]. destruct (Z.leb_spec size q); [lia|].
    split; intros; nia. }
  repeat split.
  - intros x y Hx. simpl. apply Hneg; unfold CanvasWidth; lia.
  - intros x y Hy. simpl. apply Hneg; unfold CanvasHeight; lia.
  - simpl. intros Hq. apply (Hcorner CanvasWidth cW HW) in Hq; unfold CanvasWidth in *; lia.
  - simpl. intros Hq. apply (Hcorner CanvasWidth cW HW); unfold CanvasWidth in *; lia.
  - simpl. intros Hq. apply (Hcorner CanvasHeight cH HH) in Hq; unfold CanvasHeight in *; lia.
  - simpl. intros Hq. apply (Hcorner CanvasHeight cH HH); unfold CanvasHeight in *; lia.
Qed.

(** The theorem at a client canvas of 800 by 600. *)
Lemma C7_normalize_corners_witness :
  1 <= 800 /\ 1 <= 600
  /\ NormalizeCoordinates 0 0 800 600 = (0, 0)
  /\ (forall x y, x < 0 -> (NormalizeCoordinates x y 800 600).1 = 0)
  /\ (forall x y, y < 0 -> (NormalizeCoordinates x y 800 600).2 = 0)
  /\ ((NormalizeCoordinates (800 - 1) (600 - 1) 800 600).1 = 34 <-> 35 <= 800)
  /\ ((NormalizeCoordinates (800 - 1) (600 - 1) 800 600).2 = 19 <-> 20 <= 600).
Proof.
  split; [lia|]. split; [lia|]. apply (C7_normalize_corners 800 600); lia.
Defined.

(** On a client canvas of 10 by 10 the corner (9, 9) is sent to (31, 18). *)
Lemma C7_counterexample :
  1 <= 10 /\ 1 <= 10
  /\ NormalizeCoordinates (10 - 1) (10 - 1) 10 10 = (31, 18)
  /\ NormalizeCoordinates (10 - 1) (10 - 1) 10 10 <> (34, 19).
Proof. repeat split; try lia. intros Heq. vm_compute in Heq. discriminate Heq. Qed.

(** ** Word selection *)

Lemma World_eta (w : World) : mkWorld (Rooms w) (room_store w) (player_store w) = w.
Proof. destruct w; reflexivity. Qed.

Lemma Room_with_Timer_id (rm : Room.t) : Room.with_Timer rm (Room.Timer rm) = rm.
Proof. destruct rm; reflexivity. Qed.

Lemma set_room_id (w : World) (room : rptr) (rm : Room.t) :
  room_store w !! room = Some rm -> set_room w room rm = w.
Proof. intros Hrm. unfold set_room. rewrite insert_id by done. apply World_eta. Qed.

Lemma CancelPhaseTimer_returns (room : rptr) (w : World) (rm : Room.t) :
  room_store w !! room = Some rm ->
  exists tm e,
    CancelPhaseTimer room w = Some (set_room w room (Room.with_Timer rm tm), e)
    /\ Forall (timer_effect room) e.
Proof.
  intros Hrm. unfold CancelPhaseTimer. rewrite Hrm.
  destruct (Room.Timer rm) as [tm|] eqn:Htm.
  - destruct (GameTimer.IsActive tm) eqn:Hact; simpl.
    + do 2 eexists. split; [reflexivity|].
      apply Forall_app_2.
      * destruct (GameTimer.Cancel tm); [|apply Forall_nil_2].
        apply Forall_cons_2; [by left|apply Forall_nil_2].
      * apply Forall_cons_2; [right; eauto|apply Forall_nil_2].
    + exists (Some tm), []. rewrite <- Htm, Room_with_Timer_id, set_room_id by done.
      split; [reflexivity|constructor].
  - exists None, []. rewrite <- Htm, Room_with_Timer_id, set_room_id by done.
    split; [reflexivity|constructor].
Qed.

Lemma HandleWordSelection_word_chosen (w : World) (sender : ptr) (q : Player.t)
    (room : rptr) (rm : Room.t) (selectedWord : string) :
  player_store w !! sender = Some q -> Player.Room q = Some room ->
  room_store w !! room = Some rm -> Room.Word rm <> "" ->
  HandleWordSelection sender selectedWord w = Some (w, []).
Proof.
  intros Hq Hroom Hrm Hword. unfold HandleWordSelection.
  rewrite Hq. simpl. rewrite Hroom, Hrm. simpl.
  destruct (current_player w rm); [|reflexivity].
  destruct (decide (Player.Id q <> Player.Id t)); [reflexivity|].
  destruct (decide (Room.Word rm <> "")); [reflexivity|contradiction].
Qed.

Lemma HandleWordSelection_no_choices (w : World) (sender : ptr) (q : Player.t)
    (room : rptr) (rm : Room.t) (selectedWord : string) :
  player_store w !! sender = Some q -> Player.Room q = Some room ->
  room_store w !! room = Some rm -> Room.WordChoices rm = [] ->
  HandleWordSelection sender selectedWord w = Some (w, []).
Proof.
  intros Hq Hroom Hrm Hch. unfold HandleWordSelection.
  rewrite Hq. simpl. rewrite Hroom, Hrm. simpl.
  destruct (current_player w rm); [|reflexivity].
  destruct (decide (Player.Id q <> Player.Id t)); [reflexivity|].
  destruct (decide (Room.Word rm <> "")); [reflexivity|].
  rewrite Hch. destruct (decide (selectedWord ∉ [])) as [|Hin]; [reflexivity|].
  exfalso. apply Hin. apply not_elem_of_nil.
Qed.

Lemma selection_timer_callback_idle (w : World) (room currentDrawer : rptr) (rm : Room.t) :
  room_store w !! room = Some rm -> Room.Word rm <> "" \/ Room.WordChoices rm = [] ->
  selection_timer_callback room currentDrawer w = Some (w, []).
Proof.
  intros Hrm Hor. unfold selection_timer_callback. rewrite Hrm. simpl.
  destruct (decide (Room.Word rm <> "")); [reflexivity|].
  destruct Hor as [? | ->]; [contradiction|reflexivity].
Qed.

Lemma HandleWordSelection_valid (w : World) (player : ptr) (p c : Player.t)
    (room : rptr) (rm : Room.t) (selectedWord : string) :
  player_store w !! player = Some p -> Player.Room p = Some room ->
  room_store w !! room = Some rm ->
  current_player w rm = Some c -> Player.Id p = Player.Id c ->
  Room.Word rm = "" -> selectedWord ∈ Room.WordChoices rm ->
  exists tm e,
    HandleWordSelection player selectedWord w =
      Some (set_room w room
              (Room.with_Timer
                 (Room.with_WordChoices (Room.with_Word rm selectedWord) []) tm),
            e ++ [Go [CallStartDrawingPhase room]])
    /\ Forall (timer_effect room) e.
Proof.
  intros Hp Hroom Hrm Hcur Hid Hword Hin. unfold HandleWordSelection.
  rewrite Hp. simpl. rewrite Hroom, Hrm. simpl. rewrite Hcur.
  destruct (decide (Player.Id p <> Player.Id c)); [contradiction|].
  destruct (decide (Room.Word rm <> "")); [contradiction|].
  destruct (decide (selectedWord ∉ Room.WordChoices rm)); [contradiction|].
  set (rm1 := Room.with_WordChoices (Room.with_Word rm selectedWord) []).
  destruct (CancelPhaseTimer_returns room (set_room w room rm1) rm1) as (tm & e & Hc & He).
  { apply lookup_insert_eq. }
  exists tm, e. rewrite Hc. simpl. split; [|exact He].
  unfold set_room. simpl. rewrite insert_insert_eq. reflexivity.
Qed.

(** C4 (confirmed).  A valid selection, from the current drawer, of a word
    among the choices, while no word is set, stores the word and empties
    the choices.  After it every selection from a player of the room, and
    the callback of the selection timer, leave the whole state unchanged
    and issue no effect; so a second selection ends in the state of the
    first.  More generally, while the word of a room is not empty, a
    selection sent in that room and its timer callback change nothing. *)
Theorem C4_word_selection_idempotent (w : World) (player : ptr) (p c : Player.t)
    (room : rptr) (rm : Room.t) (selectedWord : string) :
  player_store w !! player = Some p -> Player.Room p = Some room ->
  room_store w !! room = Some rm ->
  current_player w rm = Some c -> Player.Id p = Player.Id c ->
  Room.Word rm = "" -> selectedWord ∈ Room.WordChoices rm ->
  exists w1 e1 rm1,
    HandleWordSelection player selectedWord w = Some (w1, e1)
    /\ room_store w1 !! room = Some rm1
    /\ Room.Word rm1 = selectedWord /\ Room.WordChoices rm1 = []
    /\ (forall sender q again,
          player_store w1 !! sender = Some q -> Player.Room q = Some room ->
          HandleWordSelection sender again w1 = Some (w1, []))
    /\ (forall currentDrawer, selection_timer_callback room currentDrawer w1 = Some (w1, []))
    /\ (forall again w2 e2,
          HandleWordSelection player again w1 = Some (w2, e2) -> w2 = w1 /\ e2 = [])
    /\ (forall w' sender q room' rm' again currentDrawer,
          player_store w' !! sender = Some q -> Player.Room q = Some room' ->
          room_store w' !! room' = Some rm' -> Room.Word rm' <> "" ->
          HandleWordSelection sender again w' = Some (w', [])
          /\ selection_timer_callback room' currentDrawer w' = Some (w', [])).
Proof.
  intros Hp Hroom Hrm Hcur Hid Hword Hin.
  destruct (HandleWordSelection_valid w player p c room rm selectedWord)
    as (tm & e & Hsel & _); try done.
  set (rm1 := Room.with_Timer
                (Room.with_WordChoices (Room.with_Word rm selectedWord) []) tm) in *.
  set (w1 := set_room w room rm1) in *.
  assert (Hrm1 : room_store w1 !! room = Some rm1) by apply lookup_insert_eq.
  assert (Hidle : forall sender q again,
            player_store w1 !! sender = Some q -> Player.Room q = Some room ->
            HandleWordSelection sender again w1 = Some (w1, [])).
  { intros sender q again Hq Hqroom.
    by apply (HandleWordSelection_no_choices w1 sender q room rm1). }
  exists w1, (e ++ [Go [CallStartDrawingPhase room]]), rm1.
  split; [exact Hsel|]. split; [exact Hrm1|]. split; [reflexivity|]. split; [reflexivity|].
  split; [exact Hidle|]. split.
  { intros d. apply (selection_timer_callback_idle w1 room d rm1 Hrm1). by right. }
  split.
  { intros again w2 e2 Hagain. rewrite (Hidle player p again) in Hagain; [|done..].
    by inversion Hagain. }
  intros w' sender q room' rm' again d Hq Hqroom Hrm' Hne. split.
  - by apply (HandleWordSelection_word_chosen w' sender q room' rm').
  - apply (selection_timer_callback_idle w' room' d rm' Hrm'). by left.
Qed.

Import Examples.

(** The theorem on the waiting room of the examples: the drawer selects
    ["cat"], then selects again. *)
Lemma C4_word_selection_idempotent_witness :
  exists w1 e1 rm1,
    HandleWordSelection 1%positive "cat" w_selecting = Some (w1, e1)
    /\ room_store w1 !! 1%positive = Some rm1
    /\ Room.Word rm1 = "cat" /\ Room.WordChoices rm1 = []
    /\ HandleWordSelection 1%positive "giraffe" w1 = Some (w1, [])
    /\ selection_timer_callback 1%positive 1%positive w1 = Some (w1, []).
Proof.
  destruct (C4_word_selection_idempotent w_selecting 1%positive
              (mkP "d1" (Some 1%positive) false false)
              (mkP "d1" (Some 1%positive) false false) 1%positive
              (room_of PhaseWaiting "" ["cat"; "giraffe"; "watermelon"] [] (15 * Second))
              "cat")
    as (w1 & e1 & rm1 & Hsel & Hrm1 & Hword & Hch & Hidle & Hcb & _);
    [reflexivity | reflexivity | reflexivity | reflexivity | reflexivity | reflexivity
    | apply list_elem_of_here |].
  exists w1, e1, rm1. repeat split; try assumption.
  - apply (Hidle 1%positive (mkP "d1" (Some 1%positive) false false)); [|reflexivity].
    replace (player_store w1) with (player_store w_selecting); [reflexivity|].
    revert Hsel. vm_compute. intros Hsel. injection Hsel as <- _. reflexivity.
  - apply Hcb.
Defined.

(** ** The word and the phase *)

Lemma HandleWordSelection_keeps_phase (w : World) (player : ptr) (p : Player.t)
    (room : rptr) (rm : Room.t) (selectedWord : string) :
  player_store w !! player = Some p -> Player.Room p = Some room ->
  room_store w !! room = Some rm ->
  exists rm1 e1,
    HandleWordSelection player selectedWord w = Some (set_room w room rm1, e1)
    /\ Room.Phase rm1 = Room.Phase rm
    /\ (Room.Word rm1 = Room.Word rm
        \/ Room.Word rm = "" /\ Room.Word rm1 = selectedWord
           /\ exists e, e1 = e ++ [Go [CallStartDrawingPhase room]]).
Proof.
  intros Hp Hroom Hrm.
  assert (Hidle : Some (w, @nil Effect) = Some (set_room w room rm, [])).
  { by rewrite set_room_id. }
  unfold HandleWordSelection. rewrite Hp. simpl. rewrite Hroom, Hrm. simpl.
  destruct (current_player w rm) as [c|]; [|exists rm, []; auto].
  destruct (decide (Player.Id p <> Player.Id c)); [exists rm, []; auto|].
  destruct (decide (Room.Word rm <> "")) as [|Hword]; [exists rm, []; auto|].
  destruct (decide (selectedWord ∉ Room.WordChoices rm)); [exists rm, []; auto|].
  apply dec_stable in Hword.
  set (rm1 := Room.with_WordChoices (Room.with_Word rm selectedWord) []).
  destruct (CancelPhaseTimer_returns room (set_room w room rm1) rm1) as (tm & e & Hc & He).
  { apply lookup_insert_eq. }
  rewrite Hc. simpl. exists (Room.with_Timer rm1 tm), (e ++ [Go [CallStartDrawingPhase room]]).
  split; [|split; [reflexivity|right; eauto]].
  unfold set_room. simpl. rewrite insert_insert_eq. reflexivity.
Qed.
Lemma set_room_set_room (w : World) (room : rptr) (a b : Room.t) :
  set_room (set_room w room a) room b = set_room w room b.
Proof. unfold set_room. simpl. by rewrite insert_insert_eq. Qed.

Lemma int_add_small (a b : Z) :
  - 2 ^ 63 <= a + b < 2 ^ 63 -> int_add a b = a + b.
Proof. intros Hr. unfold int_add. rewrite Z.mod_small; lia. Qed.

Lemma index_is_Some {A} (s : list A) (i : Z) :
  0 <= i < Z.of_nat (length s) -> is_Some (index s i).
Proof.
  intros Hi. unfold index.
  destruct (Z.leb_spec 0 i); [|lia]. destruct (Z.ltb_spec i (Z.of_nat (length s))); [|lia].
  simpl. apply lookup_lt_is_Some_2. lia.
Qed.

Section RoundFacts.
Context `{GoRuntime}.

Lemma range_players_elem (m : gmap string ptr) (k : string) (a : ptr) :
  (k, a) ∈ range_players m <-> m !! k = Some a.
Proof. rewrite range_players_perm. apply elem_of_map_to_list. Qed.

Lemma range_players_length (m : gmap string ptr) :
  length (range_players m) = size m.
Proof. rewrite range_players_perm. apply length_map_to_list. Qed.

Lemma UpdatePlayerOrder_inv (room : rptr) (w w' : World) (rm : Room.t) :
  room_store w !! room = Some rm -> UpdatePlayerOrder room w = Some w' ->
  exists order cur idx,
    w' = set_room w room (reordered rm order cur idx)
    /\ (length order <= size (Room.Players rm))%nat
    /\ (idx = 0 \/ idx = Room.CurrentIndex rm /\ idx < Z.of_nat (length order)).
Proof.
  intros Hrm HU. unfold UpdatePlayerOrder in HU. rewrite Hrm in HU. simpl in HU.
  destruct (mapM _ _) as [ps|] eqn:Hps; [|discriminate]. simpl in HU.
  set (order := Player.Id <$> filter (fun p => Player.IsConnected p = true) ps) in *.
  assert (Hlen : (length order <= size (Room.Players rm))%nat).
  { unfold order. rewrite length_fmap. etrans; [apply length_filter|].
    apply length_mapM in Hps. rewrite <- Hps, range_players_length. done. }
  set (idx := if Z.of_nat (length order) <=? Room.CurrentIndex rm
              then 0 else Room.CurrentIndex rm) in *.
  assert (Hidx : idx = 0 \/ idx = Room.CurrentIndex rm /\ idx < Z.of_nat (length order)).
  { unfold idx. destruct (Z.leb_spec (Z.of_nat (length order)) (Room.CurrentIndex rm)); auto. }
  assert (Hsame : Room.with_CurrentIndex (Room.with_PlayerOrder rm order) idx
                  = reordered rm order (Room.Current rm) idx).
  { destruct rm; reflexivity. }
  destruct (Room.Current rm) as [c|] eqn:Hcur.
  - destruct (player_store w !! c) as [cp|]; [|discriminate]. simpl in HU.
    destruct (decide (Player.Id cp ∈ order)).
    + injection HU as <-. exists order, (Some c), idx. by rewrite Hsame.
    + injection HU as <-. exists order, None, 0. split; [reflexivity|auto].
  - injection HU as <-. exists order, None, idx. by rewrite Hsame.
Qed.

Lemma UpdatePlayerOrder_returns (room : rptr) (w : World) (rm : Room.t) :
  room_store w !! room = Some rm ->
  (forall k a, Room.Players rm !! k = Some a -> is_Some (player_store w !! a)) ->
  (forall c, Room.Current rm = Some c -> is_Some (player_store w !! c)) ->
  is_Some (UpdatePlayerOrder room w).
Proof.
  intros Hrm Hps Hcur. unfold UpdatePlayerOrder. rewrite Hrm. simpl.
  destruct (mapM_is_Some_2 (fun ka : string * ptr => player_store w !! ka.2)
              (range_players (Room.Players rm))) as [ps ->].
  { apply Forall_forall. intros [k a] Hin. apply range_players_elem in Hin.
    simpl. eauto. }
  simpl. destruct (Room.Current rm) as [c|] eqn:Hc; [|eauto].
  destruct (Hcur c eq_refl) as [cp ->]. simpl.
  destruct (decide _); eauto.
Qed.

(** What [NextRound] changes: never the phase, never the round statistics;
    the word is cleared unless the rotation is empty. *)
Lemma NextRound_inv (room : rptr) (w w' : World) (rm : Room.t) (e : list Effect) :
  room_store w !! room = Some rm -> NextRound room w = Some (w', e) ->
  exists rm',
    w' = set_room w room rm'
    /\ Room.Phase rm' = Room.Phase rm
    /\ Room.RoundStats rm' = Room.RoundStats rm
    /\ (Room.Word rm' = Room.Word rm /\ e = [Go [CallEndGame room]]
        \/ Room.Word rm' = ""
           /\ (e = [Go [CallEndGame room]] \/ e = [Go [CallStartWaitingPhase room]])).
Proof.
  intros Hrm HN. unfold NextRound in HN. rewrite Hrm in HN.
  destruct (UpdatePlayerOrder room w) as [w1|] eqn:HU; [|discriminate].
  destruct (UpdatePlayerOrder_inv room w w1 rm Hrm HU) as (order & cur & idx & -> & _ & _).
  simpl in HN. rewrite lookup_insert_eq in HN. simpl in HN.
  destruct (Z.of_nat (length order) =? 0).
  { injection HN as <- <-. eexists. split; [reflexivity|]. auto. }
  match type of HN with
  | (if ?c then _ else _) = _ => destruct c
  end.
  { injection HN as <- <-. rewrite set_room_set_room. eexists. split; [reflexivity|].
    split; [by destruct (_ =? 0)|]. split; [by destruct (_ =? 0)|].
    right. split; [by destruct (_ =? 0)|auto]. }
  destruct (index _ _) as [nextPlayerID|]; [|discriminate]. simpl in HN.
  injection HN as <- <-. rewrite set_room_set_room. eexists. split; [reflexivity|].
  split; [by destruct (_ =? 0)|]. split; [by destruct (_ =? 0)|].
  right. split; [by destruct (_ =? 0)|auto].
Qed.

Lemma NextRound_returns (room : rptr) (w : World) (rm : Room.t) :
  room_store w !! room = Some rm ->
  (forall k a, Room.Players rm !! k = Some a -> is_Some (player_store w !! a)) ->
  (forall c, Room.Current rm = Some c -> is_Some (player_store w !! c)) ->
  0 <= Room.CurrentIndex rm -> Z.of_nat (size (Room.Players rm)) < 2 ^ 63 ->
  is_Some (NextRound room w).
Proof.
  intros Hrm Hps Hcur Hci Hsize. unfold NextRound. rewrite Hrm.
  destruct (UpdatePlayerOrder_returns room w rm Hrm Hps Hcur) as [w1 HU]. rewrite HU.
  destruct (UpdatePlayerOrder_inv room w w1 rm Hrm HU) as (order & cur & idx & -> & Hlen & Hidx).
  simpl. rewrite lookup_insert_eq. simpl.
  destruct (Z.eqb_spec (Z.of_nat (length order)) 0) as [|Hn]; [eauto|].
  match goal with
  | |- is_Some (if ?c then _ else _) => destruct c; [eauto|]
  end.
  assert (Hr : 0 <= Z.rem (int_add idx 1) (Z.of_nat (length order)) < Z.of_nat (length order)).
  { rewrite int_add_small by lia. apply Z.rem_bound_pos; lia. }
  destruct (index_is_Some order (Z.rem (int_add idx 1) (Z.of_nat (length order)))) as [id Hid];
    [exact Hr|].
  assert (Hord : forall b : bool,
            Room.PlayerOrder
              (if b then Room.with_RoundNumber
                           (Room.with_Word (Room.with_CurrentIndex (reordered rm order cur idx)
                              (Z.rem (int_add idx 1) (Z.of_nat (length order)))) "")
                           (int_add (Room.RoundNumber
                              (Room.with_Word (Room.with_CurrentIndex (reordered rm order cur idx)
                                 (Z.rem (int_add idx 1) (Z.of_nat (length order)))) "")) 1)
               else Room.with_Word (Room.with_CurrentIndex (reordered rm order cur idx)
                      (Z.rem (int_add idx 1) (Z.of_nat (length order)))) "") = order).
  { by intros []. }
  rewrite Hord, Hid. simpl. eauto.
Qed.

End RoundFacts.

Lemma set_room_inj (w : World) (room : rptr) (a b : Room.t) :
  set_room w room a = set_room w room b -> a = b.
Proof.
  intros Heq. assert (Hl : room_store (set_room w room a) !! room = Some b).
  { rewrite Heq. apply lookup_insert_eq. }
  unfold set_room in Hl. simpl in Hl. rewrite lookup_insert_eq in Hl. by injection Hl.
Qed.

(** C6 (corrected).  Neither [HandleWordSelection] nor [NextRound] changes
    the phase, so the equivalence "the word is set iff the phase is drawing
    or revealing" is not kept by them.  What is kept: a word selection
    keeps "drawing or revealing implies a word" and, when valid, stores the
    word with the phase as it was, leaving the change of phase to the
    [StartDrawingPhase] goroutine it starts; [NextRound] keeps "a word
    implies drawing or revealing" and leaves the change of phase to
    [StartWaitingPhase] or [EndGame]. *)
Theorem C6_word_and_phase `{GoRuntime} (w : World) (player : ptr) (p : Player.t)
    (room : rptr) (rm : Room.t) (selectedWord : string) :
  player_store w !! player = Some p -> Player.Room p = Some room ->
  room_store w !! room = Some rm ->
  map_Forall (fun _ a => is_Some (player_store w !! a)) (Room.Players rm) ->
  (forall c, Room.Current rm = Some c -> is_Some (player_store w !! c)) ->
  0 <= Room.CurrentIndex rm -> Z.of_nat (size (Room.Players rm)) < 2 ^ 63 ->
  (exists rm1 e1,
     HandleWordSelection player selectedWord w = Some (set_room w room rm1, e1)
     /\ Room.Phase rm1 = Room.Phase rm
     /\ ((in_round (Room.Phase rm) -> Room.Word rm <> "")
         -> in_round (Room.Phase rm1) -> Room.Word rm1 <> "")
     /\ (forall c, current_player w rm = Some c -> Player.Id p = Player.Id c ->
           Room.Word rm = "" -> selectedWord ∈ Room.WordChoices rm ->
           Room.Word rm1 = selectedWord
           /\ exists e, e1 = e ++ [Go [CallStartDrawingPhase room]]))
  /\ (exists rm2 e2,
        NextRound room w = Some (set_room w room rm2, e2)
        /\ Room.Phase rm2 = Room.Phase rm
        /\ ((Room.Word rm <> "" -> in_round (Room.Phase rm))
            -> Room.Word rm2 <> "" -> in_round (Room.Phase rm2))
        /\ (e2 = [Go [CallEndGame room]] \/ e2 = [Go [CallStartWaitingPhase room]])).
Proof.
  intros Hp Hroom Hrm Hall Hcur Hci Hsize. split.
  - destruct (HandleWordSelection_keeps_phase w player p room rm selectedWord)
      as (rm1 & e1 & Hsel & Hph & Hword); try done.
    exists rm1, e1. split; [exact Hsel|]. split; [exact Hph|]. split.
    + intros Hinv Hin. rewrite Hph in Hin.
      destruct Hword as [-> | (Hempty & _)]; [auto|]. by destruct (Hinv Hin).
    + intros c Hc Hid Hempty Hin.
      destruct (HandleWordSelection_valid w player p c room rm selectedWord)
        as (tm & e & Hsel' & _); try done.
      rewrite Hsel in Hsel'. apply (inj Some) in Hsel'.
      apply pair_equal_spec in Hsel' as [Hw ->].
      apply set_room_inj in Hw as ->. split; [reflexivity|eauto].
  - destruct (NextRound_returns room w rm) as [[w2 e2] HN]; try done.
    destruct (NextRound_inv room w w2 rm e2 Hrm HN) as (rm2 & -> & Hph & _ & Hword).
    exists rm2, e2. split; [exact HN|]. split; [exact Hph|]. split.
    + intros Hinv Hne. rewrite Hph.
      destruct Hword as [(Hsame & _) | (Hempty & _)]; [|contradiction].
      rewrite Hsame in Hne. auto.
    + destruct Hword as [(_ & ->) | (_ & [-> | ->])]; auto.
Qed.

(** The theorem on the waiting room of the examples. *)
Lemma C6_word_and_phase_witness :
  exists rm1 e1 rm2 e2,
    HandleWordSelection 1%positive "cat" w_selecting
      = Some (set_room w_selecting 1%positive rm1, e1)
    /\ Room.Phase rm1 = PhaseWaiting /\ Room.Word rm1 = "cat"
    /\ NextRound 1%positive w_selecting = Some (set_room w_selecting 1%positive rm2, e2)
    /\ Room.Phase rm2 = PhaseWaiting.
Proof.
  destruct (C6_word_and_phase w_selecting 1%positive
              (mkP "d1" (Some 1%positive) false false) 1%positive
              (room_of PhaseWaiting "" ["cat"; "giraffe"; "watermelon"] [] (15 * Second))
              "cat")
    as [(rm1 & e1 & Hsel & Hph1 & _ & Hvalid) (rm2 & e2 & HN & Hph2 & _)];
    [reflexivity | reflexivity | reflexivity
    | apply (bool_decide_unpack _); vm_compute; exact I
    | intros c Hc; injection Hc as <-; apply (bool_decide_unpack _); vm_compute; exact I
    | vm_compute; discriminate
    | vm_compute; reflexivity |].
  exists rm1, e1, rm2, e2.
  split; [exact Hsel|]. split; [exact Hph1|]. split.
  - apply (Hvalid (mkP "d1" (Some 1%positive) false false));
      [reflexivity | reflexivity | reflexivity | apply list_elem_of_here].
  - split; [exact HN | exact Hph2].
Defined.

(** In the waiting room of the examples the invariant holds; the drawer
    selects ["cat"]; afterwards the word is ["cat"] and the phase is still
    waiting. *)
Lemma C6_counterexample :
  exists rm w1 e1 rm1,
    room_store w_selecting !! 1%positive = Some rm
    /\ word_phase_invariant rm
    /\ HandleWordSelection 1%positive "cat" w_selecting = Some (w1, e1)
    /\ room_store w1 !! 1%positive = Some rm1
    /\ Room.Word rm1 = "cat" /\ Room.Phase rm1 = PhaseWaiting
    /\ ~ word_phase_invariant rm1.
Proof.
  do 4 eexists. split; [reflexivity|]. split.
  { split; [intros Hne; by destruct Hne|intros [Hin|Hin]; discriminate Hin]. }
  split; [vm_compute; reflexivity|]. split; [vm_compute; reflexivity|].
  split; [reflexivity|]. split; [reflexivity|].
  intros [Hinv _]. destruct Hinv as [Hin|Hin]; [discriminate|discriminate Hin|discriminate Hin].
Qed.

(** ** Drawing *)

Lemma filter_all {A} (P : A -> Prop) `{forall x, Decision (P x)} (l : list A) :
  (forall x, x ∈ l -> P x) -> filter P l = l.
Proof.
  induction l as [|a l IH]; intros Hall; [reflexivity|].
  rewrite filter_cons_True by (apply Hall; left).
  f_equal. apply IH. intros x Hx. apply Hall. by right.
Qed.

(** A drawing message of the drawer that passes the three checks and the
    validation. *)
Lemma HandlePixelDrawEnhanced_honored (now : Time) (w : World) (player : ptr)
    (p : Player.t) (room : rptr) (rm : Room.t) (pm : PixelMessage.t) (x y gx gy : Z) :
  player_store w !! player = Some p -> Player.Room p = Some room ->
  room_store w !! room = Some rm ->
  Room.Phase rm = PhaseDrawing -> Room.Current rm = Some player ->
  Player.CanDraw p = true ->
  PixelMessage.Type_ pm = PixelPlace \/ PixelMessage.Type_ pm = ErasePixel ->
  PixelMessage.X pm = Some x -> PixelMessage.Y pm = Some y -> in_grid x y = true ->
  NormalizeCoordinates x y (Player.CanvasWidth p) (Player.CanvasHeight p) = (gx, gy) ->
  let sent := stamp_pixel now (PixelMessage.with_XY pm gx gy) in
  exists canvas,
    apply_pixel sent (Room.CanvasState rm) = Some canvas
    /\ HandlePixelDrawEnhanced now player (Some pm) w
       = Some (set_room w room (Room.with_CanvasState rm canvas),
               [Go [BroadcastExceptCurrent room
                      (mkMessage (pixel_type_string (PixelMessage.Type_ pm))
                                 (PixelData sent))]]).
Proof.
  intros Hp Hroom Hrm Hph Hcur Hcan Hty HX HY Hgrid Hnorm sent.
  unfold HandlePixelDrawEnhanced. rewrite Hp. cbn [mbind option_bind].
  rewrite Hroom, Hrm. cbn [mbind option_bind].
  destruct (decide (Room.Phase rm <> PhaseDrawing)); [contradiction|].
  destruct (decide (Room.Current rm <> Some player)); [contradiction|].
  rewrite Hcan. cbn [negb].
  assert (Hval : validate_pixel pm = Some pm).
  { unfold validate_pixel. destruct Hty as [-> | ->]; by rewrite HX, HY, Hgrid. }
  rewrite Hval.
  assert (Hn : normalize_pixel p pm = Some (PixelMessage.with_XY pm gx gy)).
  { unfold normalize_pixel. destruct Hty as [-> | ->]; rewrite HX, HY;
      cbn [mbind option_bind]; by rewrite Hnorm. }
  rewrite Hn. cbn [mbind option_bind]. fold sent.
  assert (Hst : PixelMessage.Type_ sent = PixelMessage.Type_ pm
                /\ PixelMessage.X sent = Some gx /\ PixelMessage.Y sent = Some gy).
  { unfold sent, stamp_pixel. by destruct (_ =? 0). }
  destruct Hst as (Hst & HsX & HsY).
  assert (Hap : is_Some (apply_pixel sent (Room.CanvasState rm))).
  { unfold apply_pixel. rewrite Hst. destruct Hty as [-> | ->]; [eauto|].
    rewrite HsX, HsY. cbn [mbind option_bind]. eauto. }
  destruct Hap as [canvas Hap]. exists canvas.
  rewrite Hap. cbn [mbind option_bind]. rewrite Hst. auto.
Qed.

Lemma stamp_pixel_fields (now : Time) (pm : PixelMessage.t) :
  PixelMessage.Type_ (stamp_pixel now pm) = PixelMessage.Type_ pm
  /\ PixelMessage.X (stamp_pixel now pm) = PixelMessage.X pm
  /\ PixelMessage.Y (stamp_pixel now pm) = PixelMessage.Y pm.
Proof. unfold stamp_pixel. by destruct (_ =? 0). Qed.

(** C8 (corrected).  The drawer places a pixel at [(x, y)] and then erases
    at [(x, y)]: the result is the one of erasing without having placed
    the pixel.  The canvas left is the canvas before, filtered of the
    [pixel] entries at the normalised position: every entry that is not of
    type [pixel], a [batch_place] entry in particular, is kept; no [pixel]
    entry at the position remains; and a canvas that had no [pixel] entry
    there is the one before. *)
Theorem C8_erase_after_pixel (now1 now2 : Time) (w : World) (player : ptr)
    (p : Player.t) (room : rptr) (rm : Room.t) (pixel erase : PixelMessage.t) (x y : Z) :
  player_store w !! player = Some p -> Player.Room p = Some room ->
  room_store w !! room = Some rm ->
  Room.Phase rm = PhaseDrawing -> Room.Current rm = Some player ->
  Player.CanDraw p = true ->
  PixelMessage.Type_ pixel = PixelPlace ->
  PixelMessage.X pixel = Some x -> PixelMessage.Y pixel = Some y ->
  PixelMessage.Type_ erase = ErasePixel ->
  PixelMessage.X erase = Some x -> PixelMessage.Y erase = Some y ->
  in_grid x y = true ->
  exists w1 e1 w2 e2 rm2 gridX gridY,
    NormalizeCoordinates x y (Player.CanvasWidth p) (Player.CanvasHeight p) = (gridX, gridY)
    /\ HandlePixelDrawEnhanced now1 player (Some pixel) w = Some (w1, e1)
    /\ HandlePixelDrawEnhanced now2 player (Some erase) w1 = Some (w2, e2)
    /\ HandlePixelDrawEnhanced now2 player (Some erase) w = Some (w2, e2)
    /\ room_store w2 !! room = Some rm2
    /\ Room.CanvasState rm2
       = filter (fun existing => erased_at gridX gridY existing = false) (Room.CanvasState rm)
    /\ (forall existing, existing ∈ Room.CanvasState rm ->
          PixelMessage.Type_ existing <> PixelPlace -> existing ∈ Room.CanvasState rm2)
    /\ (forall existing, existing ∈ Room.CanvasState rm2 ->
          erased_at gridX gridY existing = false)
    /\ ((forall existing, existing ∈ Room.CanvasState rm ->
           erased_at gridX gridY existing = false) ->
        Room.CanvasState rm2 = Room.CanvasState rm).
Proof.
  intros Hp Hroom Hrm Hph Hcur Hcan Hpt HpX HpY Het HeX HeY Hgrid.
  destruct (NormalizeCoordinates x y (Player.CanvasWidth p) (Player.CanvasHeight p))
    as [gx gy] eqn:Hnorm.
  set (sent1 := stamp_pixel now1 (PixelMessage.with_XY pixel gx gy)).
  set (sent2 := stamp_pixel now2 (PixelMessage.with_XY erase gx gy)).
  destruct (stamp_pixel_fields now1 (PixelMessage.with_XY pixel gx gy)) as (Hty1 & HX1 & HY1).
  destruct (stamp_pixel_fields now2 (PixelMessage.with_XY erase gx gy)) as (Hty2 & HX2 & HY2).
  fold sent1 in Hty1, HX1, HY1. fold sent2 in Hty2, HX2, HY2.
  simpl in Hty1, HX1, HY1, Hty2, HX2, HY2.
  destruct (HandlePixelDrawEnhanced_honored now1 w player p room rm pixel x y gx gy)
    as (canvas1 & Hap1 & Hrun1); try done; [by left|].
  fold sent1 in Hap1, Hrun1.
  assert (Hc1 : canvas1 = Room.CanvasState rm ++ [sent1]).
  { unfold apply_pixel in Hap1. rewrite Hty1, Hpt in Hap1. by injection Hap1. }
  subst canvas1.
  set (rm1 := Room.with_CanvasState rm (Room.CanvasState rm ++ [sent1])) in *.
  set (w1 := set_room w room rm1) in *.
  destruct (HandlePixelDrawEnhanced_honored now2 w1 player p room rm1 erase x y gx gy)
    as (canvas2 & Hap2 & Hrun2); try done; [apply lookup_insert_eq | by right |].
  destruct (HandlePixelDrawEnhanced_honored now2 w player p room rm erase x y gx gy)
    as (canvas3 & Hap3 & Hrun3); try done; [by right|].
  fold sent2 in Hap2, Hrun2, Hap3, Hrun3.
  assert (Hc2 : canvas2 = filter (fun existing => erased_at gx gy existing = false)
                            (Room.CanvasState rm)).
  { unfold apply_pixel in Hap2. rewrite Hty2, Het, HX2, HY2 in Hap2.
    cbn [mbind option_bind] in Hap2.
    injection Hap2 as <-. subst rm1. simpl. rewrite filter_app.
    rewrite (filter_cons_False _ sent1).
    - by rewrite filter_nil, app_nil_r.
    - unfold erased_at. rewrite Hty1, Hpt, HX1, HY1, !Z.eqb_refl.
      rewrite bool_decide_eq_true_2 by done. simpl. discriminate. }
  assert (Hc3 : canvas3 = canvas2).
  { unfold apply_pixel in Hap3. rewrite Hty2, Het, HX2, HY2 in Hap3.
    cbn [mbind option_bind] in Hap3.
    injection Hap3 as <-. by rewrite Hc2. }
  subst canvas3.
  exists w1, [Go [BroadcastExceptCurrent room
                    (mkMessage (pixel_type_string (PixelMessage.Type_ pixel))
                               (PixelData sent1))]],
    (set_room w room (Room.with_CanvasState rm canvas2)),
    [Go [BroadcastExceptCurrent room
           (mkMessage (pixel_type_string (PixelMessage.Type_ erase)) (PixelData sent2))]],
    (Room.with_CanvasState rm canvas2), gx, gy.
  split; [reflexivity|]. split; [exact Hrun1|]. split.
  { rewrite Hrun2. unfold w1. by rewrite set_room_set_room. }
  split; [exact Hrun3|]. split; [apply lookup_insert_eq|]. split; [exact Hc2|].
  simpl. rewrite Hc2. split.
  { intros existing Hin Hnp. apply list_elem_of_filter. split; [|exact Hin].
    unfold erased_at. by rewrite bool_decide_eq_false_2. }
  split.
  { intros existing Hin. by apply list_elem_of_filter in Hin as [? _]. }
  intros Hnone. by apply filter_all.
Qed.
(** The theorem in the drawing room of the examples: the drawer places a
    pixel at (3, 4), then erases there. *)
Lemma C8_erase_after_pixel_witness :
  exists w1 e1 w2 e2 rm2,
    HandlePixelDrawEnhanced t_now 1%positive (Some (a_pixel 3 4)) w_drawing = Some (w1, e1)
    /\ HandlePixelDrawEnhanced t_now 1%positive
         (Some (PixelMessage.mk ErasePixel (Some 3) (Some 4) "" 0 [])) w1 = Some (w2, e2)
    /\ HandlePixelDrawEnhanced t_now 1%positive
         (Some (PixelMessage.mk ErasePixel (Some 3) (Some 4) "" 0 [])) w_drawing = Some (w2, e2)
    /\ room_store w2 !! 1%positive = Some rm2
    /\ Room.CanvasState rm2 = [a_pixel 3 4].
Proof.
  destruct (C8_erase_after_pixel t_now t_now w_drawing 1%positive
              (mkP "d1" (Some 1%positive) true false) 1%positive
              (room_of PhaseDrawing "cat" [] [a_pixel 3 4] DrawingPhaseDuration)
              (a_pixel 3 4) (PixelMessage.mk ErasePixel (Some 3) (Some 4) "" 0 []) 3 4)
    as (w1 & e1 & w2 & e2 & rm2 & gx & gy & Hn & H1 & H2 & H3 & Hrm2 & Hc & _);
    [reflexivity..|].
  exists w1, e1, w2, e2, rm2. repeat split; try assumption.
  rewrite Hc. injection Hn as <- <-. reflexivity.
Defined.

(** On a canvas that holds a pixel at (3, 4) already, the drawer places a
    pixel at (3, 4) and erases there: the canvas is left empty, the older
    pixel is gone as well, where a canvas on which the pixel had never
    been placed holds the older one. *)
Lemma C8_counterexample :
  exists rm w1 e1 w2 e2 rm2,
    room_store EraseExamples.w_painted !! 1%positive = Some rm
    /\ Room.CanvasState rm = [a_pixel 3 4]
    /\ NormalizeCoordinates 3 4 35 20 = (3, 4)
    /\ HandlePixelDrawEnhanced t_now 1%positive (Some (a_pixel 3 4)) EraseExamples.w_painted
       = Some (w1, e1)
    /\ HandlePixelDrawEnhanced t_now 1%positive
         (Some (PixelMessage.mk ErasePixel (Some 3) (Some 4) "" 0 [])) w1 = Some (w2, e2)
    /\ room_store w2 !! 1%positive = Some rm2
    /\ Room.CanvasState rm2 = []
    /\ Room.CanvasState rm2 <> Room.CanvasState rm.
Proof.
  do 6 eexists. split; [reflexivity|]. split; [reflexivity|].
  split; [vm_compute; reflexivity|]. split; [vm_compute; reflexivity|].
  split; [vm_compute; reflexivity|]. split; [vm_compute; reflexivity|].
  split; [reflexivity|]. discriminate.
Qed.

(** A drawing message is dropped, with no change of state and no effect,
    unless the phase is drawing, the sender is the current drawer and the
    sender may draw. *)
Lemma HandlePixelDrawEnhanced_gated (now : Time) (w : World) (player : ptr)
    (p : Player.t) (room : rptr) (rm : Room.t) (rawData : option PixelMessage.t) :
  player_store w !! player = Some p -> Player.Room p = Some room ->
  room_store w !! room = Some rm ->
  ~ (Room.Phase rm = PhaseDrawing /\ Room.Current rm = Some player
     /\ Player.CanDraw p = true) ->
  HandlePixelDrawEnhanced now player rawData w = Some (w, []).
Proof.
  intros Hp Hroom Hrm Hgate. unfold HandlePixelDrawEnhanced.
  rewrite Hp. simpl. rewrite Hroom, Hrm. simpl.
  destruct (decide (Room.Phase rm <> PhaseDrawing)) as [|Hph]; [reflexivity|].
  destruct (decide (Room.Current rm <> Some player)) as [|Hcur]; [reflexivity|].
  destruct (Player.CanDraw p) eqn:Hcan; [|reflexivity].
  exfalso. apply Hgate. split; [by apply dec_stable|]. split; [by apply dec_stable|done].
Qed.

(** [ClearCanvas] checks the sender only. *)
Lemma ClearCanvas_by_drawer (now : Time) (w : World) (room : rptr) (rm : Room.t)
    (clearedBy : ptr) (cb : Player.t) :
  room_store w !! room = Some rm -> player_store w !! clearedBy = Some cb ->
  Room.Current rm = Some clearedBy ->
  ClearCanvas now room clearedBy w
  = Some (set_room w room (Room.with_CanvasState rm []),
          [Go [SafeBroadcastToRoomExcept room
                 (mkMessage "canvas_cleared"
                    (CanvasClearedData (Room.Id rm) (Player.Id cb) [] (UnixMilli now)))
                 (Some clearedBy);
               LogGameEvent room "canvas_cleared"]]).
Proof.
  intros Hrm Hcb Hcur. unfold ClearCanvas. rewrite Hrm, Hcb. simpl.
  destruct (decide (Room.Current rm <> Some clearedBy)); [contradiction|reflexivity].
Qed.

(** C9 (code defect).  The claim has [clear_canvas] honoured only in the
    drawing phase, from the current drawer, with [canDraw] set, as
    [pixel_draw] is.  [ClearCanvas] checks the sender only.  In the waiting
    room of the examples, where the next drawer is known and may not draw
    yet, his [pixel_draw] is dropped but his [clear_canvas] is broadcast as
    [canvas_cleared].  In the revealing room of the examples, where the
    drawer may no longer draw, his [clear_canvas] empties the canvas that
    holds the drawing and is broadcast. *)
Theorem C9_clear_canvas_outside_drawing :
  (exists rm p,
     room_store w_selecting !! 1%positive = Some rm
     /\ player_store w_selecting !! 1%positive = Some p
     /\ Room.Phase rm = PhaseWaiting /\ Player.CanDraw p = false
     /\ handle_drawing_message t_now 1%positive (pixel_draw (Some (a_pixel 5 6))) w_selecting
        = Some (w_selecting, [])
     /\ handle_drawing_message t_now 1%positive clear_canvas w_selecting
        = Some (w_selecting,
                [Go [SafeBroadcastToRoomExcept 1%positive
                       (mkMessage "canvas_cleared"
                          (CanvasClearedData "R1" "d1" [] (UnixMilli t_now)))
                       (Some 1%positive);
                     LogGameEvent 1%positive "canvas_cleared"]]))
  /\ (exists rm p w' rm',
        room_store w_revealing !! 1%positive = Some rm
        /\ player_store w_revealing !! 1%positive = Some p
        /\ Room.Phase rm = PhaseRevealing /\ Player.CanDraw p = false
        /\ Room.CanvasState rm = [a_pixel 3 4]
        /\ handle_drawing_message t_now 1%positive (pixel_draw (Some (a_pixel 5 6)))
             w_revealing
           = Some (w_revealing, [])
        /\ handle_drawing_message t_now 1%positive clear_canvas w_revealing
           = Some (w', [Go [SafeBroadcastToRoomExcept 1%positive
                              (mkMessage "canvas_cleared"
                                 (CanvasClearedData "R1" "d1" [] (UnixMilli t_now)))
                              (Some 1%positive);
                            LogGameEvent 1%positive "canvas_cleared"]])
        /\ room_store w' !! 1%positive = Some rm'
        /\ Room.CanvasState rm' = []).
Proof.
  split.
  - do 2 eexists. split; [reflexivity|]. split; [reflexivity|].
    split; [reflexivity|]. split; [reflexivity|].
    split; vm_compute; reflexivity.
  - do 4 eexists. split; [reflexivity|]. split; [reflexivity|].
    split; [reflexivity|]. split; [reflexivity|]. split; [reflexivity|].
    split; [vm_compute; reflexivity|]. split; [vm_compute; reflexivity|].
    split; [vm_compute; reflexivity|]. reflexivity.
Qed.

(** ** Guesses *)

Section GuessFacts.
Context `{GoRuntime}.

Lemma CancelPhaseTimer_inv (room : rptr) (w w' : World) (e : list Effect) :
  CancelPhaseTimer room w = Some (w', e) ->
  player_store w' = player_store w
  /\ Forall (timer_effect room) e
  /\ forall r rm, room_store w !! r = Some rm ->
       exists tm, room_store w' !! r = Some (Room.with_Timer rm tm).
Proof.
  intros Hc. destruct (room_store w !! room) as [rm0|] eqn:Hrm0.
  - destruct (CancelPhaseTimer_returns room w rm0 Hrm0) as (tm & e0 & Hc' & He).
    rewrite Hc in Hc'. injection Hc' as -> ->. split; [reflexivity|]. split; [exact He|].
    intros r rm Hr. unfold set_room. simpl.
    destruct (decide (r = room)) as [->|Hne].
    + rewrite lookup_insert_eq. replace rm with rm0 by congruence. eauto.
    + rewrite lookup_insert_ne by done. exists (Room.Timer rm).
      by rewrite Room_with_Timer_id.
  - unfold CancelPhaseTimer in Hc. rewrite Hrm0 in Hc. injection Hc as <- <-.
    split; [reflexivity|]. split; [constructor|].
    intros r rm Hr. exists (Room.Timer rm). by rewrite Room_with_Timer_id.
Qed.

(** The correct guess path marks the guesser, announces the result first,
    and leaves every room in its phase with its round statistics: it never
    enters the revealing phase. *)
Lemma correct_guess_inv (now : Time) (w w' : World) (player : ptr) (p : Player.t)
    (room : rptr) (rm : Room.t) (e : list Effect) :
  room_store w !! room = Some rm ->
  correct_guess now player p room rm w = Some (w', e) ->
  (exists result rest,
     e = Go [SafeBroadcastToRoom room (mkMessage "guess_result" (GuessResultData result))]
         :: rest
     /\ GameResultData.IsCorrect result = true
     /\ Forall (fun eff => timer_effect room eff \/ eff = Go [CallEndGame room]
                           \/ eff = Go [CallStartWaitingPhase room]) rest)
  /\ (forall r rm0, room_store w !! r = Some rm0 ->
        exists rm1, room_store w' !! r = Some rm1
                    /\ Room.Phase rm1 = Room.Phase rm0
                    /\ Room.RoundStats rm1 = Room.RoundStats rm0).
Proof.
  intros Hrm Hc. unfold correct_guess in Hc.
  set (p1 := Player.with_HasGuessed _ true) in Hc.
  set (rm1 := Room.with_CorrectGuessers rm _) in Hc.
  set (w1 := set_room (set_player w player p1) room rm1) in Hc.
  set (w2 := match Room.Current rm1 with Some c => _ | None => w1 end) in Hc.
  assert (Hw2 : room_store w2 = room_store w1).
  { unfold w2. destruct (Room.Current rm1) as [c|]; [|reflexivity].
    by destruct (player_store w1 !! c). }
  assert (Hrooms : forall r rm0, room_store w !! r = Some rm0 ->
            exists rm', room_store w2 !! r = Some rm'
                        /\ Room.Phase rm' = Room.Phase rm0
                        /\ Room.RoundStats rm' = Room.RoundStats rm0).
  { intros r rm0 Hr. rewrite Hw2. unfold w1, set_room. simpl.
    destruct (decide (r = room)) as [->|Hne].
    - rewrite lookup_insert_eq. exists rm1. replace rm0 with rm by congruence. done.
    - rewrite lookup_insert_ne by done. eauto. }
  destruct (all_guessed w2 rm1).
  - destruct (CancelPhaseTimer room w2) as [[w3 e3]|] eqn:Hc3; [|discriminate].
    simpl in Hc. destruct (NextRound room w3) as [[w4 e4]|] eqn:Hn; [|discriminate].
    simpl in Hc. injection Hc as <- <-.
    destruct (CancelPhaseTimer_inv room w2 w3 e3 Hc3) as (_ & He3 & Hr3).
    destruct (Hrooms room rm Hrm) as (rm2 & Hrm2 & _).
    destruct (Hr3 room rm2 Hrm2) as (tm & Hrm3).
    destruct (NextRound_inv room w3 w4 _ e4 Hrm3 Hn) as (rm4 & -> & Hph4 & Hrs4 & He4).
    split.
    + do 2 eexists. split; [reflexivity|]. split; [reflexivity|].
      apply Forall_app_2.
      * eapply Forall_impl; [exact He3|]. auto.
      * destruct He4 as [(_ & ->) | (_ & [-> | ->])];
          (apply Forall_cons_2; [auto|apply Forall_nil_2]).
    + intros r rm0 Hr. destruct (Hrooms r rm0 Hr) as (rm' & Hr' & Hph & Hrs).
      destruct (Hr3 r rm' Hr') as (tm' & Hr3').
      unfold set_room. simpl. destruct (decide (r = room)) as [->|Hne].
      * rewrite lookup_insert_eq. exists rm4.
        replace (Room.with_Timer rm' tm') with (Room.with_Timer rm2 tm) in * by congruence.
        split; [reflexivity|]. rewrite Hph4, Hrs4. simpl.
        replace rm' with rm2 in * by congruence. done.
      * rewrite lookup_insert_ne by done. rewrite Hr3'. eexists. split; [reflexivity|].
        by simpl.
  - injection Hc as <- <-. split.
    + do 2 eexists. split; [reflexivity|]. split; [reflexivity|constructor].
    + exact Hrooms.
Qed.

(** ** Lower case and white space on ASCII text *)

Lemma list_ascii_of_string_app (a b : string) :
  list_ascii_of_string (a +:+ b) = list_ascii_of_string a ++ list_ascii_of_string b.
Proof. induction a as [|c a IH]; simpl; [reflexivity|]. by rewrite IH. Qed.

Lemma list_ascii_of_string_inj (a b : string) :
  list_ascii_of_string a = list_ascii_of_string b -> a = b.
Proof.
  intros Heq. rewrite <- (string_of_list_ascii_of_string a),
    <- (string_of_list_ascii_of_string b). by rewrite Heq.
Qed.

Lemma list_ascii_of_ToLower (s : string) :
  list_ascii_of_string (ascii_ToLower s) = lower_byte <$> list_ascii_of_string s.
Proof. induction s as [|c s IH]; simpl; [reflexivity|]. by rewrite IH. Qed.

Lemma lower_byte_same_letter (c d : ascii) :
  lower_byte c = lower_byte d <-> same_letter c d.
Proof.
  assert (Hup : forall a, is_upper a = true ->
                  (65 <= N_of_ascii a <= 90)%N
                  /\ N_of_ascii (lower_byte a) = (N_of_ascii a + 32)%N).
  { intros a Ha. unfold lower_byte. fold (is_upper a). rewrite Ha.
    unfold is_upper in Ha. apply andb_true_iff in Ha as [H1 H2].
    apply N.leb_le in H1, H2. split; [done|].
    apply N_ascii_embedding. lia. }
  assert (Hlow : forall a, is_upper a = false -> lower_byte a = a).
  { intros a Ha. unfold lower_byte. fold (is_upper a). by rewrite Ha. }
  assert (Hinj : forall a b, N_of_ascii a = N_of_ascii b -> a = b).
  { intros a b Hab. rewrite <- (ascii_N_embedding a), <- (ascii_N_embedding b).
    by rewrite Hab. }
  assert (Hnot : forall a, (97 <= N_of_ascii a)%N -> is_upper a = false).
  { intros a Ha. unfold is_upper. apply andb_false_iff. right.
    apply N.leb_gt. lia. }
  unfold same_letter. split.
  - intros Heq. destruct (is_upper c) eqn:Hc, (is_upper d) eqn:Hd.
    + left. apply Hinj.
      destruct (Hup c Hc) as [_ H1], (Hup d Hd) as [_ H2]. rewrite Heq in H1. lia.
    + right; left. split; [reflexivity|].
      destruct (Hup c Hc) as [_ H1]. rewrite Heq, (Hlow d Hd) in H1. exact H1.
    + right; right. split; [reflexivity|].
      destruct (Hup d Hd) as [_ H2]. rewrite <- Heq, (Hlow c Hc) in H2. exact H2.
    + left. by rewrite (Hlow c Hc), (Hlow d Hd) in Heq.
  - intros [-> | [[Hc Hcd] | [Hd Hdc]]]; [reflexivity| |].
    + destruct (Hup c Hc) as [Hr H1]. apply Hinj.
      rewrite (Hlow d); [lia|]. apply Hnot. lia.
    + destruct (Hup d Hd) as [Hr H1]. apply Hinj.
      rewrite (Hlow c); [lia|]. apply Hnot. lia.
Qed.

Lemma ascii_ToLower_equal_fold (a b : string) :
  ascii_ToLower a = ascii_ToLower b <-> equal_fold a b.
Proof.
  unfold equal_fold. split.
  - intros Heq. apply (f_equal list_ascii_of_string) in Heq.
    rewrite !list_ascii_of_ToLower in Heq.
    revert Heq. generalize (list_ascii_of_string b).
    induction (list_ascii_of_string a) as [|c la IH]; intros [|d lb] Heq;
      try discriminate Heq; constructor.
    + apply lower_byte_same_letter. by injection Heq.
    + apply IH. by injection Heq.
  - intros Hall. apply list_ascii_of_string_inj. rewrite !list_ascii_of_ToLower.
    induction Hall as [|c d la lb Hcd _ IH]; [reflexivity|].
    simpl. f_equal; [by apply lower_byte_same_letter | exact IH].
Qed.

Lemma ascii_ToLower_empty (s : string) : ascii_ToLower s = "" <-> s = "".
Proof. destruct s; simpl; split; intros Heq; done. Qed.

Lemma trim_left_all_space (l s : string) :
  all_space l -> trim_left (l +:+ s) = trim_left s.
Proof.
  unfold all_space. induction l as [|c l IH]; simpl; [done|].
  intros Hall. apply Forall_cons in Hall as [Hc Hl]. rewrite Hc. by apply IH.
Qed.

Lemma trim_left_head (s : string) :
  (forall c, head (list_ascii_of_string s) = Some c -> is_space c = false) ->
  trim_left s = s.
Proof. destruct s as [|c s]; simpl; [done|]. intros Hc. by rewrite (Hc c). Qed.

Lemma app_empty_r (s : string) : s +:+ "" = s.
Proof.
  induction s as [|c s IH]; [reflexivity|].
  change (String c (s +:+ "") = String c s). by rewrite IH.
Qed.

Lemma reverse_string_app (a b : string) :
  reverse_string (a +:+ b) = reverse_string b +:+ reverse_string a.
Proof.
  unfold reverse_string. apply list_ascii_of_string_inj.
  rewrite list_ascii_of_string_app, !list_ascii_of_string_of_list_ascii,
    list_ascii_of_string_app, !list_ascii_of_string_of_list_ascii.
  apply rev_app_distr.
Qed.

Lemma reverse_string_involutive (s : string) : reverse_string (reverse_string s) = s.
Proof.
  unfold reverse_string. rewrite list_ascii_of_string_of_list_ascii, rev_involutive.
  apply string_of_list_ascii_of_string.
Qed.

Lemma all_space_reverse (s : string) : all_space s -> all_space (reverse_string s).
Proof.
  unfold all_space, reverse_string. rewrite list_ascii_of_string_of_list_ascii.
  apply Forall_rev.
Qed.

Lemma head_reverse_string (s : string) :
  head (list_ascii_of_string (reverse_string s)) = last (list_ascii_of_string s).
Proof.
  unfold reverse_string. rewrite list_ascii_of_string_of_list_ascii, rev_alt.
  apply head_reverse.
Qed.

(** [ascii_TrimSpace] removes the white space around a trimmed text. *)
Lemma ascii_TrimSpace_around (l g r : string) :
  all_space l -> all_space r -> trimmed g -> ascii_TrimSpace (l +:+ g +:+ r) = g.
Proof.
  intros Hl Hr Hg. unfold ascii_TrimSpace.
  rewrite (trim_left_all_space l) by done.
  assert (Hblank : forall s, all_space s -> trim_left s = "").
  { intros s Hs. rewrite <- (app_empty_r s). by rewrite trim_left_all_space. }
  destruct g as [|c g].
  { change ("" +:+ r) with r. by rewrite (Hblank r Hr). }
  rewrite (trim_left_head (String c g +:+ r)).
  2: { intros c' [= <-]. apply Hg. by left. }
  rewrite reverse_string_app, trim_left_all_space by by apply all_space_reverse.
  rewrite trim_left_head; [apply reverse_string_involutive|].
  intros c' Hc. rewrite head_reverse_string in Hc. apply Hg. by right.
Qed.

Lemma ascii_only_app (a b : string) :
  ascii_only (a +:+ b) <-> ascii_only a /\ ascii_only b.
Proof. unfold ascii_only. rewrite list_ascii_of_string_app. apply Forall_app. Qed.

(** C10 (corrected).  The drawer's guess and the guess of a player who has
    already guessed are ignored before anything is compared: no change of
    state and no message, whatever the word.  For every other guess the
    handler compares [ToLower (TrimSpace guess)] with
    [ToLower (TrimSpace room.Word)]: the correct path is taken when the two
    are equal and not empty, the incorrect path, which counts the guess and
    broadcasts it as not correct, otherwise.  The two library functions are
    taken with what the Go library does on text of the ASCII range.  On
    such text the outcome is the one of comparing the guess and the word
    without the white space around them and without regard to the case of
    the letters: with [guess = l g r] and [room.Word = l' t r'], where [l],
    [r], [l'] and [r'] are white space and [g] and [t] neither start nor
    end with white space, the correct path is taken when [t] is not empty
    and [g] and [t] are equal up to case, the incorrect path otherwise.
    With an empty word the guess is incorrect.  The correct path announces
    a correct result. *)
Theorem C10_guess_matching (now : Time) (w : World) (player : ptr) (p : Player.t)
    (room : rptr) (rm : Room.t) (guess : string) :
  (forall s, ascii_only s -> ToLower s = ascii_ToLower s) ->
  (forall s, ascii_only s -> TrimSpace s = ascii_TrimSpace s) ->
  player_store w !! player = Some p -> Player.Room p = Some room ->
  room_store w !! room = Some rm ->
  let target := ToLower (TrimSpace (Room.Word rm)) in
  let cleanedGuess := ToLower (TrimSpace guess) in
  let run := HandleGuessEnhanced now player guess w in
  let correct := correct_guess now player p room rm w in
  let incorrect :=
    Some (set_player w player
            (Player.with_TotalGuesses p (int_add (Player.TotalGuesses p) 1)),
          [Go [SafeBroadcastToRoom room
                 (mkMessage "guess_message"
                    (GuessMessageData
                       (PlayerGuess.mk (Player.Id p) (Player.Username p)
                          (UnixMilli now) false)
                       guess))]]) in
  (is_current w rm p = true \/ Player.HasGuessed p = true -> run = Some (w, []))
  /\ (is_current w rm p = false -> Player.HasGuessed p = false ->
        (target <> "" /\ target = cleanedGuess -> run = correct)
        /\ (target = "" \/ target <> cleanedGuess -> run = incorrect)
        /\ (forall l g r l' t r' : string,
              guess = l +:+ g +:+ r -> Room.Word rm = l' +:+ t +:+ r' ->
              ascii_only guess -> ascii_only (Room.Word rm) ->
              all_space l -> all_space r -> all_space l' -> all_space r' ->
              trimmed g -> trimmed t ->
              (t <> "" /\ equal_fold g t -> run = correct)
              /\ (t = "" \/ ~ equal_fold g t -> run = incorrect))
        /\ (Room.Word rm = "" -> run = incorrect))
  /\ (forall w' e, correct = Some (w', e) ->
        exists result rest,
          e = Go [SafeBroadcastToRoom room
                    (mkMessage "guess_result" (GuessResultData result))] :: rest
          /\ GameResultData.IsCorrect result = true).
Proof.
  intros Hlower Htrim Hp Hroom Hrm target cleanedGuess run correct incorrect.
  assert (Hrun : run
                 = if is_current w rm p then Some (w, [])
                   else if Player.HasGuessed p then Some (w, [])
                   else if decide (target = "" \/ target <> cleanedGuess)
                        then incorrect
                        else correct).
  { unfold run, HandleGuessEnhanced. by rewrite Hp, Hroom, Hrm. }
  split; [|split].
  - rewrite Hrun. intros [-> | Hg]; [reflexivity|].
    rewrite Hg. by destruct (is_current w rm p).
  - intros Hcur Hguessed. rewrite Hrun, Hcur, Hguessed.
    assert (Hyes : target <> "" /\ target = cleanedGuess ->
                   (if decide (target = "" \/ target <> cleanedGuess)
                    then incorrect else correct) = correct).
    { intros [Hne Heq].
      destruct (decide (target = "" \/ target <> cleanedGuess)) as [[?|?]|]; done. }
    assert (Hno : target = "" \/ target <> cleanedGuess ->
                  (if decide (target = "" \/ target <> cleanedGuess)
                   then incorrect else correct) = incorrect).
    { intros Hor.
      destruct (decide (target = "" \/ target <> cleanedGuess));
        [reflexivity|contradiction]. }
    split; [exact Hyes|]. split; [exact Hno|]. split.
    + intros l g r l' t r' Hguess Hword Hag Haw Hl Hr Hl' Hr' Hg Ht.
      assert (Htarget : target = ascii_ToLower t).
      { unfold target. rewrite (Htrim _ Haw), Hword, ascii_TrimSpace_around by done.
        apply Hlower. rewrite Hword in Haw.
        by apply ascii_only_app in Haw as [_ [Haw _]%ascii_only_app]. }
      assert (Hcleaned : cleanedGuess = ascii_ToLower g).
      { unfold cleanedGuess. rewrite (Htrim _ Hag), Hguess, ascii_TrimSpace_around by done.
        apply Hlower. rewrite Hguess in Hag.
        by apply ascii_only_app in Hag as [_ [Hag _]%ascii_only_app]. }
      split.
      * intros [Hne Hfold]. apply Hyes. rewrite Htarget, Hcleaned. split.
        -- by rewrite ascii_ToLower_empty.
        -- symmetry. by apply ascii_ToLower_equal_fold.
      * intros Hor. apply Hno. rewrite Htarget, Hcleaned.
        destruct Hor as [-> | Hfold]; [by left|]. right.
        intros Heq. apply Hfold. by apply ascii_ToLower_equal_fold.
    + intros Hempty. apply Hno. left.
      unfold target. by rewrite Hempty, TrimSpace_empty, ToLower_empty.
  - intros w' e Hc.
    destruct (correct_guess_inv now w w' player p room rm e Hrm Hc)
      as ((result & rest & -> & Hcorrect & _) & _).
    eauto.
Qed.

End GuessFacts.

(** The theorem in the drawing room of the examples, whose word is ["cat"]:
    the guess ["  CAT "] of the guesser takes the correct path, the guess
    ["dog"] the incorrect one. *)
Lemma C10_guess_matching_witness :
  HandleGuessEnhanced t_now 2%positive "  CAT " w_drawing
  = correct_guess t_now 2%positive (mkP "g1" (Some 1%positive) false false) 1%positive
      (room_of PhaseDrawing "cat" [] [a_pixel 3 4] DrawingPhaseDuration) w_drawing
  /\ exists w', HandleGuessEnhanced t_now 2%positive "dog" w_drawing
                = Some (w', [Go [SafeBroadcastToRoom 1%positive
                                   (mkMessage "guess_message"
                                      (GuessMessageData
                                         (PlayerGuess.mk "g1" "g1" (UnixMilli t_now) false)
                                         "dog"))]]).
Proof.
  split.
  - apply (@C10_guess_matching ascii_runtime t_now w_drawing 2%positive
             (mkP "g1" (Some 1%positive) false false) 1%positive
             (room_of PhaseDrawing "cat" [] [a_pixel 3 4] DrawingPhaseDuration) "  CAT "
             (fun s _ => eq_refl) (fun s _ => eq_refl) eq_refl eq_refl eq_refl)
      with (l := "  ") (g := "CAT") (r := " ") (l' := "") (t := "cat") (r' := "");
      try reflexivity; try (repeat constructor; fail).
    + intros c [[= <-] | [= <-]]; reflexivity.
    + intros c [[= <-] | [= <-]]; reflexivity.
    + split; [discriminate|].
      repeat constructor; right; left; split; reflexivity.
  - eexists.
    apply (@C10_guess_matching ascii_runtime t_now w_drawing 2%positive
             (mkP "g1" (Some 1%positive) false false) 1%positive
             (room_of PhaseDrawing "cat" [] [a_pixel 3 4] DrawingPhaseDuration) "dog"
             (fun s _ => eq_refl) (fun s _ => eq_refl) eq_refl eq_refl eq_refl)
      with (l := "") (g := "dog") (r := "") (l' := "") (t := "cat") (r' := "");
      try reflexivity; try (repeat constructor; fail).
    + intros c [[= <-] | [= <-]]; reflexivity.
    + intros c [[= <-] | [= <-]]; reflexivity.
    + right. intros Hfold. apply Forall2_cons_1 in Hfold as [Hd _].
      destruct Hd as [Hd | [[_ Hd] | [Hd _]]]; discriminate Hd.
Defined.

(** In the waiting room of the examples no word has been chosen; the drawer
    sends the guess ["cat"]: the guess is ignored, where the incorrect path
    counts it and broadcasts a [guess_message]. *)
Lemma C10_counterexample :
  exists rm p,
    room_store w_selecting !! 1%positive = Some rm /\ Room.Word rm = ""
    /\ player_store w_selecting !! 1%positive = Some p
    /\ HandleGuessEnhanced t_now 1%positive "cat" w_selecting = Some (w_selecting, [])
    /\ HandleGuessEnhanced t_now 1%positive "cat" w_selecting
       <> incorrect_guess t_now 1%positive p 1%positive "cat" w_selecting.
Proof.
  do 2 eexists. split; [reflexivity|]. split; [reflexivity|].
  split; [reflexivity|]. split; [vm_compute; reflexivity|].
  intros Heq. vm_compute in Heq. discriminate Heq.
Qed.

Section RevealFacts.
Context `{GoRuntime}.

(** No call of [HandleGuessEnhanced] changes the phase of a room or its
    round statistics, and none starts [StartRevealingPhase]. *)
Lemma HandleGuessEnhanced_never_reveals (now : Time) (player : ptr) (guess : string)
    (w w' : World) (e : list Effect) :
  HandleGuessEnhanced now player guess w = Some (w', e) ->
  (forall r rm0, room_store w !! r = Some rm0 ->
     exists rm1, room_store w' !! r = Some rm1
                 /\ Room.Phase rm1 = Room.Phase rm0
                 /\ Room.RoundStats rm1 = Room.RoundStats rm0)
  /\ (forall r, (Go [CallStartRevealingPhase r] ∉ e) /\ (Do (CallStartRevealingPhase r) ∉ e)).
Proof.
  intros Hrun.
  assert (Hidle : forall r rm0, room_store w !! r = Some rm0 ->
            exists rm1, room_store w !! r = Some rm1
                        /\ Room.Phase rm1 = Room.Phase rm0
                        /\ Room.RoundStats rm1 = Room.RoundStats rm0) by eauto.
  assert (Hnil : forall r, (Go [CallStartRevealingPhase r] ∉ @nil Effect)
                           /\ (Do (CallStartRevealingPhase r) ∉ @nil Effect)).
  { intros r. split; apply not_elem_of_nil. }
  unfold HandleGuessEnhanced in Hrun.
  destruct (player_store w !! player) as [p|]; [|by injection Hrun as <- <-].
  destruct (Player.Room p) as [room|]; [|by injection Hrun as <- <-].
  destruct (room_store w !! room) as [rm|] eqn:Hrm; [|discriminate]. simpl in Hrun.
  destruct (is_current w rm p); [by injection Hrun as <- <-|].
  destruct (Player.HasGuessed p); [by injection Hrun as <- <-|].
  destruct (decide _).
  - unfold incorrect_guess in Hrun. injection Hrun as <- <-. split; [exact Hidle|].
    intros r. split; intros Hin; apply list_elem_of_singleton in Hin; discriminate Hin.
  - destruct (correct_guess_inv now w w' player p room rm e Hrm Hrun)
      as ((result & rest & -> & _ & Hrest) & Hrooms).
    split; [exact Hrooms|]. intros r.
    assert (Hno : forall eff, eff ∈ rest ->
              eff <> Go [CallStartRevealingPhase r] /\ eff <> Do (CallStartRevealingPhase r)).
    { intros eff Hin. rewrite Forall_forall in Hrest.
      destruct (Hrest eff Hin) as [[-> | (? & ? & ? & ->)] | [-> | ->]];
        split; discriminate. }
    split; intros Hin; apply elem_of_cons in Hin as [Hhd | Htl];
      try discriminate Hhd; by destruct (Hno _ Htl).
Qed.

End RevealFacts.

(** C1 (code defect).  The claim has the room enter the revealing phase
    when a correct guess completes the round.  In the drawing room of the
    examples the guess ["cat"] of the only guesser, worth 150 points, does
    complete it: the handler cancels the timer and runs [NextRound], as the
    expiry of the drawing timer does when not everyone has guessed; where
    everyone has, that callback calls [StartRevealingPhase].  The word is
    cleared, no round statistics are recorded, the phase is still drawing
    and becomes waiting when the [StartWaitingPhase] goroutine runs. *)
Theorem C1_all_guessed_goes_to_next_round :
  exists rm w' rm' w'' e'' rm'',
    room_store w_drawing !! 1%positive = Some rm
    /\ Room.Phase rm = PhaseDrawing /\ all_guessed w_drawing rm = false
    /\ HandleGuessEnhanced t_now 2%positive "cat" w_drawing
       = Some (w',
               [Go [SafeBroadcastToRoom 1%positive
                      (mkMessage "guess_result"
                         (GuessResultData (GameResultData.mk "g1" "g1" true 150 1 5000)))];
                CancelContext 1%positive;
                Do (SafeBroadcastToRoom 1%positive
                      (mkMessage "timer_update" (TimerUpdateData 0 PhaseDrawing false)));
                Go [CallStartWaitingPhase 1%positive]])
    /\ all_guessed w' rm = true
    /\ room_store w' !! 1%positive = Some rm'
    /\ Room.Phase rm' = PhaseDrawing /\ Room.Word rm' = "" /\ Room.RoundStats rm' = []
    /\ StartWaitingPhase t_now 1%positive w' = Some (w'', e'')
    /\ room_store w'' !! 1%positive = Some rm''
    /\ Room.Phase rm'' = PhaseWaiting /\ Room.RoundStats rm'' = [].
Proof.
  do 6 eexists. split; [reflexivity|]. split; [reflexivity|].
  split; [vm_compute; reflexivity|]. split; [vm_compute; reflexivity|].
  split; [vm_compute; reflexivity|]. split; [vm_compute; reflexivity|].
  split; [reflexivity|]. split; [reflexivity|]. split; [reflexivity|].
  split; [vm_compute; reflexivity|]. split; [vm_compute; reflexivity|].
  split; reflexivity.
Qed.

(** ** Joining a full room *)

Section JoinFacts.
Context `{GoRuntime}.

(** C3 (corrected).  In a room that holds exactly 8 players, with no word
    in play, [AddPlayer] for a new player returns an error, and of the room
    only the field [Players] may differ afterwards; the registry and the
    other players are as before.  The size of the room is checked after
    the state has been sent: the [player_joined] broadcast to the others
    and the [welcome_msg] to the new player are issued before the error is
    returned. *)
Theorem C3_add_player_full_room (w : World) (roomId : string) (room : rptr)
    (rm : Room.t) (tm : GameTimer.t) (player : ptr) (p : Player.t)
    (write_result : option string) :
  Rooms w !! roomId = Some room -> room_store w !! room = Some rm ->
  size (Room.Players rm) = 8%nat ->
  player_store w !! player = Some p -> Room.Players rm !! Player.Id p = None ->
  map_Forall (fun _ a => is_Some (player_store w !! a)) (Room.Players rm) ->
  Room.Timer rm = Some tm -> Room.Word rm = "" ->
  exists w' joined welcome err players',
    AddPlayer roomId player write_result w
    = Some (w',
            [Do (SafeBroadcastToRoomExcept room joined (Some player));
             Do (SafeWriteJSON player welcome)],
            Some err)
    /\ MsgType joined = "player_joined" /\ MsgType welcome = "welcome_msg"
    /\ Rooms w' = Rooms w
    /\ room_store w' = <[room := Room.with_Players rm players']> (room_store w)
    /\ (forall a, a <> player -> player_store w' !! a = player_store w !! a).
Proof.
  intros HRooms Hrm Hsize Hp Hnew Hall Htm Hword.
  unfold AddPlayer, getOrCreateRoom. rewrite HRooms. cbn [mbind option_bind].
  rewrite Hrm, Hp. cbn [mbind option_bind].
  set (p1 := Player.with_IsReady _ false).
  set (rm1 := Room.with_Players rm _).
  set (w2 := set_player (set_room w room rm1) player p1).
  destruct (mapM_is_Some_2
              (fun ka : string * ptr => Player.ToPublicPlayer <$> player_store w2 !! ka.2)
              (range_players (Room.Players rm1))) as [players Hplayers].
  { apply Forall_forall. intros [k a] Hin. apply range_players_elem in Hin.
    simpl. apply fmap_is_Some. unfold w2, set_player. simpl.
    destruct (decide (a = player)) as [->|Hne]; [rewrite lookup_insert_eq; eauto|].
    rewrite lookup_insert_ne by done.
    unfold rm1 in Hin. simpl in Hin.
    destruct (decide (k = Player.Id p)) as [->|Hk].
    - rewrite lookup_insert_eq in Hin. congruence.
    - rewrite lookup_insert_ne in Hin by done. exact (Hall k a Hin). }
  rewrite Hplayers. cbn [mbind option_bind].
  replace (Room.Timer rm1) with (Some tm) by (symmetry; exact Htm).
  replace (Room.Word rm1) with "" by (symmetry; exact Hword).
  cbn [mbind option_bind]. change (GetMaskedWord "") with (Some "").
  cbn [mbind option_bind].
  assert (Hfull : (MaxPlayersPerRoom <? Z.of_nat (size (Room.Players rm1))) = true).
  { unfold rm1. simpl. rewrite map_size_insert_None by done. rewrite Hsize. reflexivity. }
  rewrite Hfull.
  destruct write_result as [err|]; do 5 eexists;
    (split; [reflexivity|]); (split; [reflexivity|]); (split; [reflexivity|]);
    (split; [reflexivity|]); (split; [reflexivity|]);
    intros a Hne; unfold w2, set_player; simpl; by rewrite lookup_insert_ne.
Qed.

(** With a word in play the welcome message cannot be built: masking the
    word panics, whatever the size of the room. *)
Lemma AddPlayer_panics_with_word (w : World) (roomId : string) (room : rptr)
    (rm : Room.t) (player : ptr) (write_result : option string) :
  Rooms w !! roomId = Some room -> room_store w !! room = Some rm ->
  Room.Word rm <> "" ->
  AddPlayer roomId player write_result w = None.
Proof.
  intros HRooms Hrm Hword.
  unfold AddPlayer, getOrCreateRoom. rewrite HRooms. cbn [mbind option_bind].
  rewrite Hrm. cbn [mbind option_bind].
  destruct (player_store w !! player) as [p|]; [|reflexivity]. cbn [mbind option_bind].
  destruct (mapM _ _); [|reflexivity]. cbn [mbind option_bind].
  destruct (Room.Timer _); [|reflexivity]. cbn [mbind option_bind].
  replace (Room.Word (Room.with_Players rm (<[Player.Id p:=player]> (Room.Players rm))))
    with (Room.Word rm) by reflexivity.
  by rewrite (GetMaskedWord_panics (Room.Word rm) Hword).
Qed.

End JoinFacts.

(** The theorem on the full lobby of the examples. *)
Lemma C3_add_player_full_room_witness :
  exists w' joined welcome err,
    AddPlayer "R1" 9%positive None w_full
    = Some (w',
            [Do (SafeBroadcastToRoomExcept 1%positive joined (Some 9%positive));
             Do (SafeWriteJSON 9%positive welcome)],
            Some err)
    /\ Rooms w' = Rooms w_full.
Proof.
  destruct (C3_add_player_full_room w_full "R1" 1%positive full_lobby
              (GameTimer.mk 0 0 0 false false) 9%positive (mkP "p9" None false false) None)
    as (w' & joined & welcome & err & players' & Hrun & _ & _ & Hrooms & _);
    [reflexivity | reflexivity | vm_compute; reflexivity | reflexivity
    | vm_compute; reflexivity | apply (bool_decide_unpack _); vm_compute; exact I
    | reflexivity | reflexivity |].
  exists w', joined, welcome, err. split; [exact Hrun | exact Hrooms].
Defined.

(** The ninth player joins the full lobby of the examples: the error is
    returned, and yet the player is in [room.Players], which now has nine
    entries, and [player_joined] has been broadcast to the eight others. *)
Lemma C3_counterexample :
  exists rm w' effects err rm' joined,
    room_store w_full !! 1%positive = Some rm
    /\ size (Room.Players rm) = 8%nat /\ Room.Players rm !! "p9" = None
    /\ AddPlayer "R1" 9%positive None w_full = Some (w', effects, Some err)
    /\ room_store w' !! 1%positive = Some rm'
    /\ Room.Players rm' !! "p9" = Some 9%positive
    /\ size (Room.Players rm') = 9%nat
    /\ (Do (SafeBroadcastToRoomExcept 1%positive joined (Some 9%positive)) ∈ effects)
    /\ MsgType joined = "player_joined"
    /\ length (broadcast_recipients w' rm' (Some 9%positive)) = 8%nat.
Proof.
  do 6 eexists. split; [reflexivity|]. split; [vm_compute; reflexivity|].
  split; [vm_compute; reflexivity|]. split; [vm_compute; reflexivity|].
  split; [vm_compute; reflexivity|]. split; [vm_compute; reflexivity|].
  split; [vm_compute; reflexivity|]. split; [apply list_elem_of_here|].
  split; [reflexivity|]. vm_compute. reflexivity.
Qed.

(** * Further properties of the code *)

(** ** Scoring *)

Lemma speedMultiplier_cases (t : spec_float) :
  speedMultiplier t = F32.const 3 2 \/ speedMultiplier t = F32.const 5 4
  \/ speedMultiplier t = F32.of_int 1 \/ speedMultiplier t = F32.const 3 4
  \/ speedMultiplier t = S754_zero false.
Proof.
  unfold speedMultiplier.
  destruct (_ && _); [auto|]. destruct (_ && _); [auto|].
  destruct (_ && _); [auto|]. destruct (F64.ltb _ _); auto 10.
Qed.

Lemma posMultiplier_cases (p : Z) :
  p = 1 /\ posMultiplier p = F32.of_int 1
  \/ p = 2 /\ posMultiplier p = F32.const 4 5
  \/ p = 3 /\ posMultiplier p = F32.const 3 5
  \/ (p < 1 \/ 3 < p) /\ posMultiplier p = F32.const 2 5.
Proof.
  unfold posMultiplier.
  destruct (Z.eqb_spec p 1); [auto|]. destruct (Z.eqb_spec p 2); [auto|].
  destruct (Z.eqb_spec p 3); [auto 10|]. right. right. right. split; [lia|reflexivity].
Qed.

Ltac eval_points :=
  repeat match goal with
  | |- context [float_to_int ?f] =>
      let v := eval vm_compute in (float_to_int f) in
      change (float_to_int f) with v
  end.

(** X1.  Whatever the elapsed time and the rank, a correct guess is worth
    between 0 points and one and a half times the base points of the
    difficulty: at most 150, 225 and 300. *)
Theorem X1_guess_points_bounds (timeTaken : Duration) (position : Z)
    (wordDifficulty : WordDifficulty) :
  0 <= CalculateGuessPoints timeTaken position wordDifficulty
  /\ 2 * CalculateGuessPoints timeTaken position wordDifficulty
     <= 3 * basePoints wordDifficulty.
Proof.
  unfold CalculateGuessPoints.
  destruct (speedMultiplier_cases (Seconds timeTaken)) as [-> | [-> | [-> | [-> | ->]]]];
    destruct (posMultiplier_cases position)
      as [[_ ->] | [[_ ->] | [[_ ->] | [_ ->]]]];
    destruct wordDifficulty; unfold basePoints; eval_points; lia.
Qed.

(** X2.  At the same elapsed time, a later rank never earns more than an
    earlier one, and a harder word never earns less than an easier one. *)
Theorem X2_guess_points_monotone (timeTaken : Duration) (p q : Z)
    (wordDifficulty : WordDifficulty) :
  1 <= p -> p <= q ->
  CalculateGuessPoints timeTaken q wordDifficulty
    <= CalculateGuessPoints timeTaken p wordDifficulty
  /\ CalculateGuessPoints timeTaken p DifficultyEasy
     <= CalculateGuessPoints timeTaken p DifficultyMedium
  /\ CalculateGuessPoints timeTaken p DifficultyMedium
     <= CalculateGuessPoints timeTaken p DifficultyHard.
Proof.
  intros Hp Hpq. unfold CalculateGuessPoints.
  destruct (speedMultiplier_cases (Seconds timeTaken)) as [-> | [-> | [-> | [-> | ->]]]];
    destruct (posMultiplier_cases p) as [[? ->] | [[? ->] | [[? ->] | [? ->]]]];
    destruct (posMultiplier_cases q) as [[? ->] | [[? ->] | [[? ->] | [? ->]]]];
    try lia;
    destruct wordDifficulty; unfold basePoints; eval_points; lia.
Qed.

(** The theorem for the first and the second rank, five seconds in. *)
Lemma X2_guess_points_monotone_witness :
  CalculateGuessPoints (5 * Second) 2 DifficultyHard
    <= CalculateGuessPoints (5 * Second) 1 DifficultyHard
  /\ CalculateGuessPoints (5 * Second) 1 DifficultyEasy
     <= CalculateGuessPoints (5 * Second) 1 DifficultyMedium
  /\ CalculateGuessPoints (5 * Second) 1 DifficultyMedium
     <= CalculateGuessPoints (5 * Second) 1 DifficultyHard.
Proof. apply (X2_guess_points_monotone (5 * Second) 1 2 DifficultyHard); lia. Defined.

(** ** Drawing *)

Lemma clamp_grid_range (g bound : Z) : 0 < bound -> 0 <= clamp_grid g bound < bound.
Proof.
  intros Hb. unfold clamp_grid.
  destruct (Z.ltb_spec g 0); [lia|]. destruct (Z.leb_spec bound g); lia.
Qed.

Lemma in_grid_spec (x y : Z) :
  in_grid x y = true <-> 0 <= x < CanvasWidth /\ 0 <= y < CanvasHeight.
Proof.
  unfold in_grid. rewrite negb_true_iff, !orb_false_iff.
  rewrite !Z.ltb_ge, !Z.leb_gt. lia.
Qed.

Lemma NormalizeCoordinates_in_grid (x y cW cH : Z) :
  in_grid (NormalizeCoordinates x y cW cH).1 (NormalizeCoordinates x y cW cH).2 = true.
Proof.
  apply in_grid_spec. unfold NormalizeCoordinates. simpl.
  split; apply clamp_grid_range; reflexivity.
Qed.

Lemma clamp_grid_mono (a b bound : Z) :
  0 < bound -> a <= b -> clamp_grid a bound <= clamp_grid b bound.
Proof.
  intros Hb Hab. unfold clamp_grid.
  destruct (Z.ltb_spec a 0), (Z.ltb_spec b 0), (Z.leb_spec bound a), (Z.leb_spec bound b); lia.
Qed.

(** X3.  [NormalizeCoordinates] returns a cell of the 35 x 20 grid for
    every input, also for a client canvas of size zero or below.  Where
    the [float64] arithmetic of the source is exact, that is for
    coordinates of absolute value below [2^47] on a client canvas of
    positive size below [2^53], it preserves the order of the
    coordinates. *)
Theorem X3_normalize_in_grid_and_monotone (x y x' y' cW cH : Z) :
  0 < cW < 2 ^ 53 -> 0 < cH < 2 ^ 53 ->
  Z.abs x < 2 ^ 47 -> Z.abs x' < 2 ^ 47 -> Z.abs y < 2 ^ 47 -> Z.abs y' < 2 ^ 47 ->
  x <= x' -> y <= y' ->
  (forall a b c d : Z,
      0 <= (NormalizeCoordinates a b c d).1 < CanvasWidth
      /\ 0 <= (NormalizeCoordinates a b c d).2 < CanvasHeight)
  /\ (NormalizeCoordinates x y cW cH).1 <= (NormalizeCoordinates x' y' cW cH).1
  /\ (NormalizeCoordinates x y cW cH).2 <= (NormalizeCoordinates x' y' cW cH).2.
Proof.
  intros HW HH _ _ _ _ Hx Hy. split.
  { intros a b c d. apply in_grid_spec, NormalizeCoordinates_in_grid. }
  unfold NormalizeCoordinates, scale_floor. simpl.
  split; (apply clamp_grid_mono; [reflexivity|]);
    apply Z.div_le_mono; unfold CanvasWidth, CanvasHeight; lia.
Qed.

Lemma X3_normalize_in_grid_and_monotone_witness :
  (forall a b c d : Z,
      0 <= (NormalizeCoordinates a b c d).1 < CanvasWidth
      /\ 0 <= (NormalizeCoordinates a b c d).2 < CanvasHeight)
  /\ (NormalizeCoordinates 100 50 800 600).1 <= (NormalizeCoordinates 400 300 800 600).1
  /\ (NormalizeCoordinates 100 50 800 600).2 <= (NormalizeCoordinates 400 300 800 600).2.
Proof. apply (X3_normalize_in_grid_and_monotone 100 50 400 300 800 600); lia. Defined.

Lemma normalize_position_in_grid (p : Player.t) (g : GridPosition.t) :
  position_in_grid (normalize_position p g).
Proof.
  unfold position_in_grid, normalize_position.
  pose proof (NormalizeCoordinates_in_grid (GridPosition.GridX g) (GridPosition.GridY g)
                (Player.CanvasWidth p) (Player.CanvasHeight p)) as Hin.
  by destruct (NormalizeCoordinates _ _ _ _).
Qed.

Lemma stamp_pixel_Pixels (now : Time) (pm : PixelMessage.t) :
  PixelMessage.Pixels (stamp_pixel now pm) = PixelMessage.Pixels pm.
Proof. unfold stamp_pixel. by destruct (_ =? 0). Qed.

Lemma validate_pixel_Type (pm pm1 : PixelMessage.t) :
  validate_pixel pm = Some pm1 -> PixelMessage.Type_ pm1 = PixelMessage.Type_ pm.
Proof.
  unfold validate_pixel. intros Hv.
  destruct (PixelMessage.Type_ pm) eqn:Hty;
    repeat match type of Hv with
           | match ?x with _ => _ end = _ => destruct x eqn:?; try discriminate
           | (if ?x then _ else _) = _ => destruct x eqn:?; try discriminate
           end;
    injection Hv as <-; simpl; congruence.
Qed.

Lemma Forall_filter_keep {A} (P Q : A -> Prop) `{forall x, Decision (Q x)} (l : list A) :
  Forall P l -> Forall P (filter Q l).
Proof.
  rewrite !Forall_forall. intros Hl x Hx. apply list_elem_of_filter in Hx. apply Hl, Hx.
Qed.

(** The canvas that a message which passed the validation leaves. *)
Lemma pixel_steps_stored (now : Time) (p : Player.t) (pm pm1 pm2 : PixelMessage.t)
    (canvas canvas' : list PixelMessage.t) :
  validate_pixel pm = Some pm1 -> normalize_pixel p pm1 = Some pm2 ->
  apply_pixel (stamp_pixel now pm2) canvas = Some canvas' ->
  Forall stored_entry canvas -> Forall stored_entry canvas'.
Proof.
  intros Hv Hn Ha Hc.
  pose proof (validate_pixel_Type _ _ Hv) as Hty1.
  destruct (stamp_pixel_fields now pm2) as (HtyS & HXS & HYS).
  pose proof (stamp_pixel_Pixels now pm2) as HPS.
  unfold apply_pixel in Ha. rewrite HtyS in Ha.
  unfold normalize_pixel in Hn.
  destruct (PixelMessage.Type_ pm1) eqn:Hty.
  - (* batch_place *)
    injection Hn as <-. simpl in Ha. rewrite Hty in Ha. injection Ha as <-.
    apply Forall_app_2; [done|]. apply Forall_cons_2; [|apply Forall_nil_2].
    unfold stored_entry. rewrite HtyS, HPS. simpl. rewrite Hty. simpl.
    unfold validate_pixel in Hv. rewrite <- Hty1 in Hv.
    destruct (filter _ _) as [|g gs] eqn:Hf; [discriminate|]. injection Hv as <-.
    simpl. split; [discriminate|].
    apply Forall_cons_2; [apply (normalize_position_in_grid p)|].
    apply Forall_fmap, Forall_forall. intros g' _. apply (normalize_position_in_grid p).
  - (* pixel *)
    destruct (PixelMessage.X pm1) as [x|]; [|discriminate].
    destruct (PixelMessage.Y pm1) as [y|]; [|discriminate].
    cbn [mbind option_bind] in Hn.
    pose proof (NormalizeCoordinates_in_grid x y (Player.CanvasWidth p)
                  (Player.CanvasHeight p)) as Hin.
    destruct (NormalizeCoordinates _ _ _ _) as [gx gy]. injection Hn as <-.
    simpl in Ha. rewrite Hty in Ha. injection Ha as <-.
    apply Forall_app_2; [done|]. apply Forall_cons_2; [|apply Forall_nil_2].
    unfold stored_entry. rewrite HtyS, HXS, HYS. simpl. rewrite Hty. eauto.
  - (* erase *)
    destruct (PixelMessage.X pm1) as [x|]; [|discriminate].
    destruct (PixelMessage.Y pm1) as [y|]; [|discriminate].
    cbn [mbind option_bind] in Hn.
    destruct (NormalizeCoordinates _ _ _ _) as [gx gy]. injection Hn as <-.
    simpl in Ha. rewrite Hty in Ha. rewrite HXS, HYS in Ha. simpl in Ha.
    injection Ha as <-. by apply Forall_filter_keep.
  - (* batch_erase *)
    injection Hn as <-. simpl in Ha. rewrite Hty in Ha. injection Ha as <-.
    by apply Forall_filter_keep.
  - (* any other type *)
    injection Hn as <-. rewrite Hty in Ha. injection Ha as <-. done.
Qed.

Lemma canvas_invariant_set_room (w : World) (room : rptr) (rm : Room.t) :
  canvas_invariant w -> Forall stored_entry (Room.CanvasState rm) ->
  canvas_invariant (set_room w room rm).
Proof.
  intros Hinv Hrm room' rm'. unfold set_room. simpl.
  destruct (decide (room' = room)) as [->|Hne].
  - rewrite lookup_insert_eq. by intros [= <-].
  - rewrite lookup_insert_ne by done. apply Hinv.
Qed.

(** X4.  Every canvas holds only [pixel] entries with coordinates on the
    grid and non-empty [batch_place] entries with positions on the grid:
    both drawing messages, [pixel_draw] with any content and from any
    sender and [clear_canvas], keep it so. *)
Theorem X4_canvas_stays_on_grid (now : Time) (player : ptr) (m : DrawingMessage)
    (w w' : World) (e : list Effect) :
  canvas_invariant w ->
  handle_drawing_message now player m w = Some (w', e) ->
  canvas_invariant w'.
Proof.
  intros Hinv Hh. destruct m as [rawData|]; simpl in Hh.
  - unfold HandlePixelDrawEnhanced in Hh.
    destruct (player_store w !! player) as [p|]; [|discriminate].
    cbn [mbind option_bind] in Hh.
    destruct (Player.Room p) as [room|]; [|by injection Hh as <- <-].
    destruct (room_store w !! room) as [rm|] eqn:Hrm; [|discriminate].
    cbn [mbind option_bind] in Hh.
    destruct (decide _); [by injection Hh as <- <-|].
    destruct (decide _); [by injection Hh as <- <-|].
    destruct (negb _); [by injection Hh as <- <-|].
    destruct rawData as [pm|]; [|by injection Hh as <- <-].
    cbn [mbind option_bind] in Hh.
    destruct (validate_pixel pm) as [pm1|] eqn:Hv; [|by injection Hh as <- <-].
    destruct (normalize_pixel p pm1) as [pm2|] eqn:Hn; [|discriminate].
    cbn [mbind option_bind] in Hh.
    destruct (apply_pixel _ _) as [canvas|] eqn:Ha; [|discriminate].
    cbn [mbind option_bind] in Hh. injection Hh as <- <-.
    apply canvas_invariant_set_room; [done|]. simpl.
    eapply pixel_steps_stored; eauto.
  - destruct (player_store w !! player) as [p|] eqn:Hp; [|discriminate].
    cbn [mbind option_bind] in Hh.
    destruct (Player.Room p) as [room|]; [|discriminate].
    cbn [mbind option_bind] in Hh. unfold ClearCanvas in Hh.
    destruct (room_store w !! room) as [rm|]; [|discriminate].
    cbn [mbind option_bind] in Hh. rewrite Hp in Hh. cbn [mbind option_bind] in Hh.
    destruct (decide _); injection Hh as <- <-; [done|].
    apply canvas_invariant_set_room; [done|]. simpl. constructor.
Qed.

Lemma w_drawing_canvas_invariant : canvas_invariant w_drawing.
Proof.
  intros room rm. unfold w_drawing, world_of. simpl.
  destruct (decide (room = 1%positive)) as [->|Hne].
  - rewrite lookup_insert_eq. intros [= <-]. simpl.
    apply Forall_cons_2; [|apply Forall_nil_2]. exists 3, 4. auto.
  - rewrite lookup_insert_ne by done. by rewrite lookup_empty.
Qed.

(** The drawer of the example room sends a batch with one position on the
    grid and one outside. *)
Lemma X4_canvas_stays_on_grid_witness :
  exists w' e,
    handle_drawing_message t_now 1
      (pixel_draw (Some (PixelMessage.mk BatchPlace None None "#00ff00" 0
                           [GridPosition.mk 34 19; GridPosition.mk 35 19]))) w_drawing
    = Some (w', e)
    /\ canvas_invariant w'.
Proof.
  do 2 eexists. split; [reflexivity|].
  eapply (X4_canvas_stays_on_grid t_now 1
           (pixel_draw (Some (PixelMessage.mk BatchPlace None None "#00ff00" 0
                                [GridPosition.mk 34 19; GridPosition.mk 35 19])))
           w_drawing _ _ w_drawing_canvas_invariant).
  reflexivity.
Defined.

Lemma drawing_steps (now : Time) (w : World) (player : ptr) (p : Player.t) (room : rptr)
    (rm : Room.t) (rawData : option PixelMessage.t) :
  drawing w player p room rm ->
  HandlePixelDrawEnhanced now player rawData w
  = match rawData ≫= validate_pixel with
    | None => Some (w, [])
    | Some pm1 =>
        pm2 ← normalize_pixel p pm1;
        canvas ← apply_pixel (stamp_pixel now pm2) (Room.CanvasState rm);
        Some (set_room w room (Room.with_CanvasState rm canvas),
              [Go [BroadcastExceptCurrent room
                     (mkMessage (pixel_type_string (PixelMessage.Type_ (stamp_pixel now pm2)))
                                (PixelData (stamp_pixel now pm2)))]])
    end.
Proof.
  intros (Hp & Hroom & Hrm & Hph & Hcur & Hcan).
  unfold HandlePixelDrawEnhanced. rewrite Hp. cbn [mbind option_bind].
  rewrite Hroom, Hrm. cbn [mbind option_bind].
  destruct (decide (Room.Phase rm <> PhaseDrawing)); [contradiction|].
  destruct (decide (Room.Current rm <> Some player)); [contradiction|].
  rewrite Hcan. reflexivity.
Qed.

Lemma filter_nil_iff {A} (P : A -> Prop) `{forall x, Decision (P x)} (l : list A) :
  filter P l = [] <-> Forall (fun x => ~ P x) l.
Proof.
  induction l as [|a l IH]; [by split; [constructor|]|].
  destruct (decide (P a)) as [Ha|Ha].
  - rewrite filter_cons_True by done. split; [discriminate|].
    intros Hall. apply Forall_cons in Hall as [Hna _]. contradiction.
  - rewrite filter_cons_False by done. rewrite IH. split.
    + intros Hl. by apply Forall_cons_2.
    + intros Hall. by apply Forall_cons in Hall as [_ Hl].
Qed.

Lemma validate_pixel_None (rawData : option PixelMessage.t) :
  rawData ≫= validate_pixel = None <-> rejected rawData.
Proof.
  destruct rawData as [pm|]; [|by split]. cbn [mbind option_bind].
  unfold validate_pixel, rejected, position_in_grid.
  destruct (PixelMessage.Type_ pm).
  - pose proof (filter_nil_iff
                  (fun g => in_grid (GridPosition.GridX g) (GridPosition.GridY g) = true)
                  (PixelMessage.Pixels pm)) as Hf.
    rewrite <- Hf. destruct (filter _ _); split; intros; congruence.
  - destruct (PixelMessage.X pm) as [x|]; [|by split].
    destruct (PixelMessage.Y pm) as [y|]; [|by split]. destruct (in_grid x y); split; intros; congruence.
  - destruct (PixelMessage.X pm) as [x|]; [|by split].
    destruct (PixelMessage.Y pm) as [y|]; [|by split]. destruct (in_grid x y); split; intros; congruence.
  - pose proof (filter_nil_iff
                  (fun g => in_grid (GridPosition.GridX g) (GridPosition.GridY g) = true)
                  (PixelMessage.Pixels pm)) as Hf.
    rewrite <- Hf. destruct (filter _ _); split; intros; congruence.
  - split; [discriminate|contradiction].
Qed.

Lemma validated_pixel_applies (now : Time) (p : Player.t) (pm pm1 : PixelMessage.t)
    (canvas : list PixelMessage.t) :
  validate_pixel pm = Some pm1 ->
  exists pm2 canvas',
    normalize_pixel p pm1 = Some pm2
    /\ apply_pixel (stamp_pixel now pm2) canvas = Some canvas'.
Proof.
  intros Hv. pose proof (validate_pixel_Type _ _ Hv) as Hty.
  unfold validate_pixel in Hv. unfold normalize_pixel, apply_pixel.
  destruct (PixelMessage.Type_ pm) eqn:Hpm; rewrite Hty.
  - do 2 eexists. split; [reflexivity|].
    destruct (stamp_pixel_fields now
                (PixelMessage.with_Pixels pm1
                   ((fun g => let '(gridX, gridY) :=
                                NormalizeCoordinates (GridPosition.GridX g) (GridPosition.GridY g)
                                  (Player.CanvasWidth p) (Player.CanvasHeight p) in
                              GridPosition.mk gridX gridY) <$> PixelMessage.Pixels pm1)))
      as (-> & _). simpl. rewrite Hty. reflexivity.
  - destruct (PixelMessage.X pm) as [x|] eqn:HX; [|discriminate].
    destruct (PixelMessage.Y pm) as [y|] eqn:HY; [|discriminate].
    destruct (in_grid x y); [|discriminate]. injection Hv as <-. rewrite HX, HY.
    cbn [mbind option_bind]. destruct (NormalizeCoordinates _ _ _ _) as [gx gy].
    do 2 eexists. split; [reflexivity|].
    destruct (stamp_pixel_fields now (PixelMessage.with_XY pm gx gy)) as (-> & _).
    simpl. rewrite Hpm. reflexivity.
  - destruct (PixelMessage.X pm) as [x|] eqn:HX; [|discriminate].
    destruct (PixelMessage.Y pm) as [y|] eqn:HY; [|discriminate].
    destruct (in_grid x y); [|discriminate]. injection Hv as <-. rewrite HX, HY.
    cbn [mbind option_bind]. destruct (NormalizeCoordinates _ _ _ _) as [gx gy].
    do 2 eexists. split; [reflexivity|].
    destruct (stamp_pixel_fields now (PixelMessage.with_XY pm gx gy)) as (-> & -> & ->).
    simpl. rewrite Hpm. reflexivity.
  - do 2 eexists. split; [reflexivity|].
    destruct (stamp_pixel_fields now
                (PixelMessage.with_Pixels pm1
                   ((fun g => let '(gridX, gridY) :=
                                NormalizeCoordinates (GridPosition.GridX g) (GridPosition.GridY g)
                                  (Player.CanvasWidth p) (Player.CanvasHeight p) in
                              GridPosition.mk gridX gridY) <$> PixelMessage.Pixels pm1)))
      as (-> & _). simpl. rewrite Hty. reflexivity.
  - do 2 eexists. split; [reflexivity|].
    destruct (stamp_pixel_fields now pm1) as (-> & _). rewrite Hty. reflexivity.
Qed.

(** X5.  While the drawer is at work, a drawing message is dropped, with no
    change of state and nothing sent, exactly when the data do not decode,
    or a [pixel] or [erase] lacks a coordinate or has one off the 35 x 20
    grid, or a batch has no position on the grid; every other message,
    whatever its type, is broadcast to the other players and changes at
    most the canvas. *)
Theorem X5_dropped_iff_rejected (now : Time) (w : World) (player : ptr) (p : Player.t)
    (room : rptr) (rm : Room.t) (rawData : option PixelMessage.t) :
  drawing w player p room rm ->
  (HandlePixelDrawEnhanced now player rawData w = Some (w, []) <-> rejected rawData)
  /\ (rejected rawData
      \/ exists canvas sent,
           HandlePixelDrawEnhanced now player rawData w
           = Some (set_room w room (Room.with_CanvasState rm canvas),
                   [Go [BroadcastExceptCurrent room
                          (mkMessage (pixel_type_string (PixelMessage.Type_ sent))
                                     (PixelData sent))]])).
Proof.
  intros Hd. rewrite (drawing_steps now w player p room rm rawData Hd).
  rewrite <- validate_pixel_None.
  destruct rawData as [pm|]; cbn [mbind option_bind]; [|by split; [|left]].
  destruct (validate_pixel pm) as [pm1|] eqn:Hv; [|by split; [|left]].
  destruct (validated_pixel_applies now p pm pm1 (Room.CanvasState rm) Hv)
    as (pm2 & canvas & -> & Ha).
  cbn [mbind option_bind]. rewrite Ha. cbn [mbind option_bind].
  split; [split; discriminate|]. right. by exists canvas, (stamp_pixel now pm2).
Qed.

Lemma w_drawing_drawing :
  drawing w_drawing 1 (mkP "d1" (Some 1%positive) true false) 1
    (room_of PhaseDrawing "cat" [] [a_pixel 3 4] DrawingPhaseDuration).
Proof. repeat split. Qed.

(** The drawer of the example room sends a pixel in column 35. *)
Lemma X5_dropped_iff_rejected_witness :
  (HandlePixelDrawEnhanced t_now 1 (Some (a_pixel 35 4)) w_drawing = Some (w_drawing, [])
   <-> rejected (Some (a_pixel 35 4)))
  /\ (rejected (Some (a_pixel 35 4))
      \/ exists canvas sent,
           HandlePixelDrawEnhanced t_now 1 (Some (a_pixel 35 4)) w_drawing
           = Some (set_room w_drawing 1
                     (Room.with_CanvasState
                        (room_of PhaseDrawing "cat" [] [a_pixel 3 4] DrawingPhaseDuration)
                        canvas),
                   [Go [BroadcastExceptCurrent 1
                          (mkMessage (pixel_type_string (PixelMessage.Type_ sent))
                                     (PixelData sent))]])).
Proof.
  exact (X5_dropped_iff_rejected t_now w_drawing 1 _ 1 _ (Some (a_pixel 35 4))
           w_drawing_drawing).
Defined.

(** X6.  The range check of a [pixel] is made on the coordinates as the
    client sent them, before they are scaled by the client's canvas size:
    an accepted pixel is stored and broadcast at a cell [(gx, gy)] with
    [gx * width <= 34 * 35] and [gy * height <= 19 * 20], so for a client
    canvas wider than 1190 and higher than 380 every accepted pixel lands
    on the cell [(0, 0)]. *)
Theorem X6_pixel_checked_before_scaling (now : Time) (w : World) (player : ptr)
    (p : Player.t) (room : rptr) (rm : Room.t) (pm : PixelMessage.t) (x y : Z) :
  drawing w player p room rm ->
  PixelMessage.Type_ pm = PixelPlace ->
  PixelMessage.X pm = Some x -> PixelMessage.Y pm = Some y -> in_grid x y = true ->
  0 < Player.CanvasWidth p -> 0 < Player.CanvasHeight p ->
  exists gx gy,
    HandlePixelDrawEnhanced now player (Some pm) w
    = Some (set_room w room
              (Room.with_CanvasState rm
                 (Room.CanvasState rm ++ [stamp_pixel now (PixelMessage.with_XY pm gx gy)])),
            [Go [BroadcastExceptCurrent room
                   (mkMessage "pixel"
                      (PixelData (stamp_pixel now (PixelMessage.with_XY pm gx gy))))]])
    /\ 0 <= gx /\ gx * Player.CanvasWidth p <= 34 * 35
    /\ 0 <= gy /\ gy * Player.CanvasHeight p <= 19 * 20
    /\ (34 * 35 < Player.CanvasWidth p -> gx = 0)
    /\ (19 * 20 < Player.CanvasHeight p -> gy = 0).
Proof.
  intros Hd Hty HX HY Hin HW HH.
  assert (Hscale : forall v size client,
            0 <= v -> 0 < size -> 0 < client ->
            0 <= clamp_grid (scale_floor v size client) size
            /\ clamp_grid (scale_floor v size client) size * client <= v * size).
  { intros v size client Hv Hs Hc. unfold scale_floor.
    assert (0 <= v * size / client) by (apply Z.div_pos; nia).
    pose proof (Z.mul_div_le (v * size) client Hc).
    unfold clamp_grid. destruct (Z.ltb_spec (v * size / client) 0); [lia|].
    destruct (Z.leb_spec size (v * size / client)); nia. }
  apply in_grid_spec in Hin. unfold CanvasWidth, CanvasHeight in Hin.
  destruct (Hscale x CanvasWidth (Player.CanvasWidth p)) as [Hx0 Hx1]; [lia|done|done|].
  destruct (Hscale y CanvasHeight (Player.CanvasHeight p)) as [Hy0 Hy1]; [lia|done|done|].
  unfold CanvasWidth in Hx0, Hx1. unfold CanvasHeight in Hy0, Hy1.
  exists (clamp_grid (scale_floor x 35 (Player.CanvasWidth p)) 35),
         (clamp_grid (scale_floor y 20 (Player.CanvasHeight p)) 20).
  split; [|repeat split; nia].
  rewrite (drawing_steps now w player p room rm (Some pm) Hd).
  cbn [mbind option_bind]. unfold validate_pixel. rewrite Hty, HX, HY.
  replace (in_grid x y) with true by (symmetry; apply in_grid_spec;
                                      unfold CanvasWidth, CanvasHeight; lia).
  unfold normalize_pixel. rewrite Hty, HX, HY. cbn [mbind option_bind].
  unfold NormalizeCoordinates. cbn [mbind option_bind].
  destruct (stamp_pixel_fields now
              (PixelMessage.with_XY pm (clamp_grid (scale_floor x 35 (Player.CanvasWidth p)) 35)
                 (clamp_grid (scale_floor y 20 (Player.CanvasHeight p)) 20)))
    as (HtyS & _ & _).
  unfold apply_pixel. unfold CanvasWidth, CanvasHeight. rewrite HtyS.
  simpl PixelMessage.Type_. rewrite Hty. reflexivity.
Qed.

(** The drawer of the example room, whose canvas is 800 x 600, sends a
    pixel at the last cell of the grid. *)
Lemma X6_pixel_checked_before_scaling_witness :
  exists gx gy,
    HandlePixelDrawEnhanced t_now 1 (Some (a_pixel 34 19)) w_drawing
    = Some (set_room w_drawing 1
              (Room.with_CanvasState
                 (room_of PhaseDrawing "cat" [] [a_pixel 3 4] DrawingPhaseDuration)
                 ([a_pixel 3 4]
                    ++ [stamp_pixel t_now (PixelMessage.with_XY (a_pixel 34 19) gx gy)])),
            [Go [BroadcastExceptCurrent 1
                   (mkMessage "pixel"
                      (PixelData
                         (stamp_pixel t_now (PixelMessage.with_XY (a_pixel 34 19) gx gy))))]])
    /\ 0 <= gx /\ gx * 800 <= 34 * 35
    /\ 0 <= gy /\ gy * 600 <= 19 * 20
    /\ (34 * 35 < 800 -> gx = 0)
    /\ (19 * 20 < 600 -> gy = 0).
Proof.
  apply (X6_pixel_checked_before_scaling t_now w_drawing 1 _ 1 _ (a_pixel 34 19) 34 19
           w_drawing_drawing);
    reflexivity.
Defined.

(** X7.  A [batch_place] of the drawer is stored and broadcast as one
    entry that holds the positions on the grid, each scaled by the
    sender's canvas size, in the order sent; the positions off the grid
    are left out. *)
Theorem X7_batch_place_keeps_valid_positions (now : Time) (w : World) (player : ptr)
    (p : Player.t) (room : rptr) (rm : Room.t) (pm : PixelMessage.t) :
  drawing w player p room rm ->
  PixelMessage.Type_ pm = BatchPlace ->
  Exists position_in_grid (PixelMessage.Pixels pm) ->
  let stored :=
    stamp_pixel now
      (PixelMessage.with_Pixels pm
         (normalize_position p <$> filter position_in_grid (PixelMessage.Pixels pm))) in
  HandlePixelDrawEnhanced now player (Some pm) w
  = Some (set_room w room (Room.with_CanvasState rm (Room.CanvasState rm ++ [stored])),
          [Go [BroadcastExceptCurrent room (mkMessage "batch_place" (PixelData stored))]]).
Proof.
  intros Hd Hty Hex stored.
  rewrite (drawing_steps now w player p room rm (Some pm) Hd).
  cbn [mbind option_bind]. unfold validate_pixel. rewrite Hty.
  change (filter (fun g => in_grid (GridPosition.GridX g) (GridPosition.GridY g) = true)
            (PixelMessage.Pixels pm))
    with (filter position_in_grid (PixelMessage.Pixels pm)).
  destruct (filter position_in_grid (PixelMessage.Pixels pm)) as [|g gs] eqn:Hf.
  { apply filter_nil_iff in Hf. apply Exists_exists in Hex as (g & Hg & Hin).
    rewrite Forall_forall in Hf. by destruct (Hf g Hg). }
  unfold normalize_pixel. simpl PixelMessage.Type_. rewrite Hty.
  cbn [mbind option_bind].
  assert (Hsame :
    stamp_pixel now
      (PixelMessage.with_Pixels (PixelMessage.with_Pixels pm (g :: gs))
         ((fun g0 =>
             let '(gridX, gridY) :=
               NormalizeCoordinates (GridPosition.GridX g0) (GridPosition.GridY g0)
                 (Player.CanvasWidth p) (Player.CanvasHeight p) in
             GridPosition.mk gridX gridY)
            <$> PixelMessage.Pixels (PixelMessage.with_Pixels pm (g :: gs)))) = stored).
  { reflexivity. }
  rewrite Hsame.
  destruct (stamp_pixel_fields now
              (PixelMessage.with_Pixels pm (normalize_position p <$> g :: gs)))
    as (HtyS & _ & _).
  fold stored in HtyS. simpl in HtyS.
  unfold apply_pixel. rewrite HtyS, Hty. reflexivity.
Qed.

(** The drawer of the example room sends a batch with one position on the
    grid and one outside. *)
Lemma X7_batch_place_keeps_valid_positions_witness :
  let pm := PixelMessage.mk BatchPlace None None "#00ff00" 0
              [GridPosition.mk 34 19; GridPosition.mk 35 19] in
  let stored := stamp_pixel t_now (PixelMessage.with_Pixels pm [GridPosition.mk 1 0]) in
  HandlePixelDrawEnhanced t_now 1 (Some pm) w_drawing
  = Some (set_room w_drawing 1
            (Room.with_CanvasState
               (room_of PhaseDrawing "cat" [] [a_pixel 3 4] DrawingPhaseDuration)
               ([a_pixel 3 4] ++ [stored])),
          [Go [BroadcastExceptCurrent 1 (mkMessage "batch_place" (PixelData stored))]]).
Proof.
  apply (X7_batch_place_keeps_valid_positions t_now w_drawing 1 _ 1 _
           (PixelMessage.mk BatchPlace None None "#00ff00" 0
              [GridPosition.mk 34 19; GridPosition.mk 35 19])
           w_drawing_drawing eq_refl).
  apply Exists_cons_hd. reflexivity.
Defined.

(** A single [erase] of the drawer, on the room with any canvas. *)
Lemma erase_message_step (now : Time) (w : World) (player : ptr) (p : Player.t)
    (room : rptr) (rm : Room.t) (canvas : list PixelMessage.t) (g : GridPosition.t) :
  drawing w player p room rm ->
  fst <$> HandlePixelDrawEnhanced now player (Some (erase_message g))
            (set_room w room (Room.with_CanvasState rm canvas))
  = Some (set_room w room
            (Room.with_CanvasState rm
               (if decide (position_in_grid g)
                then filter (fun existing =>
                               erased_at (GridPosition.GridX (normalize_position p g))
                                 (GridPosition.GridY (normalize_position p g)) existing
                               = false) canvas
                else canvas))).
Proof.
  intros (Hp & Hroom & Hrm & Hph & Hcur & Hcan).
  assert (Hd : drawing (set_room w room (Room.with_CanvasState rm canvas)) player p room
                 (Room.with_CanvasState rm canvas)).
  { repeat split; try done. unfold set_room. simpl. apply lookup_insert_eq. }
  rewrite (drawing_steps now _ player p room _ (Some (erase_message g)) Hd).
  cbn [mbind option_bind]. unfold validate_pixel. simpl PixelMessage.Type_.
  simpl PixelMessage.X. simpl PixelMessage.Y. cbv iota.
  unfold position_in_grid.
  destruct (decide (in_grid (GridPosition.GridX g) (GridPosition.GridY g) = true)) as [Hin|Hin].
  - rewrite Hin. unfold normalize_pixel. simpl PixelMessage.Type_.
    simpl PixelMessage.X. simpl PixelMessage.Y. cbn [mbind option_bind].
    unfold normalize_position.
    destruct (NormalizeCoordinates _ _ _ _) as [gx gy]. cbn [mbind option_bind].
    simpl. rewrite set_room_set_room. reflexivity.
  - apply not_true_is_false in Hin. rewrite Hin. reflexivity.
Qed.

Lemma erased_in_cons (g : GridPosition.t) (gs : list GridPosition.t)
    (canvas : list PixelMessage.t) :
  filter (fun existing => erased_in (g :: gs) existing = false) canvas
  = filter (fun existing => erased_in gs existing = false)
      (filter (fun existing =>
                 erased_at (GridPosition.GridX g) (GridPosition.GridY g) existing = false)
              canvas).
Proof.
  rewrite list_filter_filter. apply list_filter_iff. intros e.
  unfold erased_in. simpl. rewrite orb_false_iff. tauto.
Qed.

Lemma erase_each_canvas (now : Time) (w : World) (player : ptr) (p : Player.t)
    (room : rptr) (rm : Room.t) (positions : list GridPosition.t)
    (canvas : list PixelMessage.t) :
  drawing w player p room rm ->
  erase_each now player positions (set_room w room (Room.with_CanvasState rm canvas))
  = Some (set_room w room
            (Room.with_CanvasState rm
               (filter (fun existing =>
                          erased_in (normalize_position p <$> filter position_in_grid positions)
                                    existing = false)
                       canvas))).
Proof.
  intros Hd. revert canvas. unfold erase_each.
  induction positions as [|g gs IH]; intros canvas.
  - simpl. rewrite filter_all; [reflexivity|]. intros; reflexivity.
  - cbn [foldl]. cbn [mbind option_bind].
    rewrite (erase_message_step now w player p room rm canvas g Hd).
    rewrite IH. do 3 f_equal.
    destruct (decide (position_in_grid g)) as [Hin|Hin].
    + rewrite filter_cons_True by done. rewrite fmap_cons. by rewrite erased_in_cons.
    + by rewrite filter_cons_False.
Qed.

(** X8.  A [batch_erase] leaves the state that erasing its positions one
    [erase] message at a time leaves, whoever sends it and whatever the
    positions are: both are dropped for a sender who may not draw, and
    positions off the grid are skipped by both. *)
Theorem X8_batch_erase_is_erase_each (now now' : Time) (w : World) (player : ptr)
    (p : Player.t) (room : rptr) (rm : Room.t) (pm : PixelMessage.t) :
  player_store w !! player = Some p -> Player.Room p = Some room ->
  room_store w !! room = Some rm ->
  PixelMessage.Type_ pm = BatchErase ->
  fst <$> HandlePixelDrawEnhanced now player (Some pm) w
  = erase_each now' player (PixelMessage.Pixels pm) w.
Proof.
  intros Hp Hroom Hrm Hty.
  destruct (decide (Room.Phase rm = PhaseDrawing /\ Room.Current rm = Some player
                    /\ Player.CanDraw p = true)) as [(Hph & Hcur & Hcan)|Hgate].
  - assert (Hd : drawing w player p room rm) by (repeat split; done).
    assert (Hw : set_room w room (Room.with_CanvasState rm (Room.CanvasState rm)) = w).
    { replace (Room.with_CanvasState rm (Room.CanvasState rm)) with rm by by destruct rm.
      by apply set_room_id. }
    transitivity (erase_each now' player (PixelMessage.Pixels pm)
                    (set_room w room (Room.with_CanvasState rm (Room.CanvasState rm))));
      [|by rewrite Hw].
    rewrite (erase_each_canvas now' w player p room rm _ _ Hd).
    rewrite (drawing_steps now w player p room rm (Some pm) Hd).
    cbn [mbind option_bind]. unfold validate_pixel. rewrite Hty.
    change (filter (fun g => in_grid (GridPosition.GridX g) (GridPosition.GridY g) = true)
              (PixelMessage.Pixels pm))
      with (filter position_in_grid (PixelMessage.Pixels pm)).
    destruct (filter position_in_grid (PixelMessage.Pixels pm)) as [|g gs] eqn:Hf.
    + simpl. rewrite filter_all by (intros; reflexivity). by rewrite Hw.
    + unfold normalize_pixel. simpl PixelMessage.Type_. rewrite Hty.
      cbn [mbind option_bind].
      destruct (stamp_pixel_fields now
                  (PixelMessage.with_Pixels (PixelMessage.with_Pixels pm (g :: gs))
                     (normalize_position p <$> g :: gs))) as (HtyS & _ & _).
      pose proof (stamp_pixel_Pixels now
                    (PixelMessage.with_Pixels (PixelMessage.with_Pixels pm (g :: gs))
                       (normalize_position p <$> g :: gs))) as HPS.
      unfold apply_pixel.
      change ((fun g0 : GridPosition.t =>
                 let '(gridX, gridY) :=
                   NormalizeCoordinates (GridPosition.GridX g0) (GridPosition.GridY g0)
                     (Player.CanvasWidth p) (Player.CanvasHeight p) in
                 GridPosition.mk gridX gridY)
                <$> PixelMessage.Pixels (PixelMessage.with_Pixels pm (g :: gs)))
        with (normalize_position p <$> g :: gs).
      rewrite HtyS, HPS. simpl PixelMessage.Type_. rewrite Hty. reflexivity.
  - rewrite (HandlePixelDrawEnhanced_gated now w player p room rm (Some pm) Hp Hroom Hrm Hgate).
    simpl. unfold erase_each.
    induction (PixelMessage.Pixels pm) as [|g gs IH]; [reflexivity|].
    cbn [foldl]. cbn [mbind option_bind].
    by rewrite (HandlePixelDrawEnhanced_gated now' w player p room rm _ Hp Hroom Hrm Hgate).
Qed.

(** The drawer of the example room erases the cell of the stored pixel,
    a second cell and a position off the grid. *)
Lemma X8_batch_erase_is_erase_each_witness :
  let pm := PixelMessage.mk BatchErase None None "" 0
              [GridPosition.mk 3 4; GridPosition.mk 30 19; GridPosition.mk 35 0] in
  fst <$> HandlePixelDrawEnhanced t_now 1 (Some pm) w_drawing
  = erase_each t_start 1 (PixelMessage.Pixels pm) w_drawing.
Proof.
  exact (X8_batch_erase_is_erase_each t_now t_start w_drawing 1 _ 1 _
           (PixelMessage.mk BatchErase None None "" 0
              [GridPosition.mk 3 4; GridPosition.mk 30 19; GridPosition.mk 35 0])
           eq_refl eq_refl eq_refl eq_refl).
Defined.



Import MoreExamples.

(** ** Timers *)

(** X10.  Cancelling the phase timer is idempotent and final: after
    [CancelPhaseTimer] the timer of the room is not active, a second
    [CancelPhaseTimer] changes nothing and sends nothing, and so does a
    tick of the timer goroutine ([BroadcastTimerUpdate]) that comes late. *)
Theorem X10_cancelled_timer_stays_silent (now : Time) (room : rptr) (w : World) :
  exists w1 e1,
    CancelPhaseTimer room w = Some (w1, e1)
    /\ (forall rm, room_store w1 !! room = Some rm -> timer_stopped rm)
    /\ CancelPhaseTimer room w1 = Some (w1, [])
    /\ BroadcastTimerUpdate now room w1 = Some (w1, []).
Proof.
  unfold CancelPhaseTimer, BroadcastTimerUpdate.
  destruct (room_store w !! room) as [rm|] eqn:Hrm.
  - destruct (Room.Timer rm) as [tm|] eqn:Htm.
    + destruct (GameTimer.IsActive tm) eqn:Hact; simpl.
      * do 2 eexists. split; [reflexivity|]. simpl. rewrite lookup_insert_eq. simpl.
        split; [|done]. intros rm' [= <-] tm' [= <-]. reflexivity.
      * do 2 eexists. split; [reflexivity|]. rewrite Hrm, Htm, Hact. simpl.
        split; [|done]. intros rm' [= <-] tm' Htm'. congruence.
    + do 2 eexists. split; [reflexivity|]. rewrite Hrm, Htm.
      split; [|done]. intros rm' [= <-] tm' Htm'. congruence.
  - do 2 eexists. split; [reflexivity|]. rewrite Hrm. split; [|done]. intros; congruence.
Qed.

(** X11.  [StartPhaseTimer] on a room leaves it with a running timer that
    started at the current time with the given duration, and starts one
    timer goroutine for it; nothing else of the room changes.  A timer
    that was running is cancelled first: its context is cancelled and the
    cancellation is announced before the new goroutine is started. *)
Theorem X11_start_timer_replaces_running_timer (now : Time) (room : rptr)
    (duration : Duration) (onExpire : Callback) (w : World) (rm : Room.t) :
  room_store w !! room = Some rm ->
  exists e1,
    StartPhaseTimer now room duration onExpire w
    = Some (set_room w room
              (Room.with_Timer rm (Some (GameTimer.mk now duration 0 true true))),
            e1 ++ [Go [TimerTask room duration onExpire]])
    /\ Forall (timer_effect room) e1
    /\ (forall tm, Room.Timer rm = Some tm -> GameTimer.IsActive tm = true ->
                   GameTimer.Cancel tm = true ->
                   e1 = [CancelContext room;
                         Do (SafeBroadcastToRoom room
                               (mkMessage "timer_update"
                                  (TimerUpdateData 0 (Room.Phase rm) false)))])
    /\ (timer_stopped rm -> e1 = []).
Proof.
  intros Hrm. unfold StartPhaseTimer.
  destruct (CancelPhaseTimer_returns room w rm Hrm) as (tm1 & e1 & HC & He1).
  exists e1. rewrite HC. cbn [mbind option_bind]. simpl. rewrite lookup_insert_eq.
  cbn [mbind option_bind]. rewrite set_room_set_room.
  split; [reflexivity|]. split; [exact He1|].
  unfold CancelPhaseTimer in HC. rewrite Hrm in HC. split.
  - intros tm Htm Hact Hcan. rewrite Htm, Hact, Hcan in HC. simpl in HC. congruence.
  - intros Hstop. destruct (Room.Timer rm) as [tm|] eqn:Htm; [|congruence].
    rewrite (Hstop tm Htm) in HC. simpl in HC. congruence.
Qed.

(** The selection room of the examples has a running timer. *)
Lemma X11_start_timer_replaces_running_timer_witness :
  exists e1,
    StartPhaseTimer t_now 1 DrawingPhaseDuration OnDrawingExpired w_selecting
    = Some (set_room w_selecting 1
              (Room.with_Timer
                 (room_of PhaseWaiting "" ["cat"; "giraffe"; "watermelon"] [] (15 * Second))
                 (Some (GameTimer.mk t_now DrawingPhaseDuration 0 true true))),
            e1 ++ [Go [TimerTask 1 DrawingPhaseDuration OnDrawingExpired]])
    /\ Forall (timer_effect 1) e1
    /\ (forall tm,
          Room.Timer (room_of PhaseWaiting "" ["cat"; "giraffe"; "watermelon"] []
                        (15 * Second)) = Some tm ->
          GameTimer.IsActive tm = true -> GameTimer.Cancel tm = true ->
          e1 = [CancelContext 1;
                Do (SafeBroadcastToRoom 1
                      (mkMessage "timer_update" (TimerUpdateData 0 PhaseWaiting false)))])
    /\ (timer_stopped (room_of PhaseWaiting "" ["cat"; "giraffe"; "watermelon"] []
                         (15 * Second)) -> e1 = []).
Proof.
  exact (X11_start_timer_replaces_running_timer t_now 1 DrawingPhaseDuration
           OnDrawingExpired w_selecting _ eq_refl).
Defined.

(** X12.  A tick of a running timer that started in the past reports
    [max (Duration - elapsed, 0)] in milliseconds, which lies between 0
    and the duration, stores it in [TimeRemaining], and does not stop the
    timer: once the duration has elapsed the ticks report 0 with
    [is_active] true until the goroutine sees the context done. *)
Theorem X12_timer_update_remaining (now : Time) (room : rptr) (w : World)
    (rm : Room.t) (tm : GameTimer.t) :
  room_store w !! room = Some rm -> Room.Timer rm = Some tm ->
  GameTimer.IsActive tm = true ->
  0 <= GameTimer.Duration tm <= maxDuration -> GameTimer.StartTime tm <= now ->
  exists remaining,
    BroadcastTimerUpdate now room w
    = Some (set_room w room
              (Room.with_Timer rm
                 (Some (GameTimer.mk (GameTimer.StartTime tm) (GameTimer.Duration tm)
                          remaining true (GameTimer.Cancel tm)))),
            [Do (SafeBroadcastToRoom room
                   (mkMessage "timer_update"
                      (TimerUpdateData (remaining / 1000000) (Room.Phase rm) true)))])
    /\ 0 <= remaining <= GameTimer.Duration tm
    /\ (now <= GameTimer.StartTime tm + GameTimer.Duration tm ->
        remaining = GameTimer.Duration tm - (now - GameTimer.StartTime tm))
    /\ (GameTimer.StartTime tm + GameTimer.Duration tm <= now -> remaining = 0).
Proof.
  intros Hrm Htm Hact Hd Hst. unfold BroadcastTimerUpdate. rewrite Hrm, Htm, Hact.
  cbn [negb]. cbv zeta.
  set (elapsed := Since now (GameTimer.StartTime tm)).
  assert (He : 0 <= elapsed <= maxDuration
               /\ (now - GameTimer.StartTime tm <= maxDuration ->
                   elapsed = now - GameTimer.StartTime tm)
               /\ (maxDuration <= now - GameTimer.StartTime tm -> elapsed = maxDuration)).
  { unfold elapsed, Since, maxDuration. lia. }
  destruct He as (He & Hsmall & Hbig).
  assert (Hsub : int_sub (GameTimer.Duration tm) elapsed = GameTimer.Duration tm - elapsed).
  { unfold int_sub. unfold maxDuration in *. rewrite Z.mod_small; lia. }
  rewrite Hsub.
  exists (Z.max (GameTimer.Duration tm - elapsed) 0).
  assert (Hq : Milliseconds (Z.max (GameTimer.Duration tm - elapsed) 0)
               = Z.max (GameTimer.Duration tm - elapsed) 0 / 1000000).
  { unfold Milliseconds, Millisecond. apply Z.quot_div_nonneg; lia. }
  rewrite Hq. split; [reflexivity|]. unfold maxDuration in *. split; [lia|].
  split; intros Hn.
  - rewrite Hsmall by lia. lia.
  - destruct (Z.le_gt_cases (now - GameTimer.StartTime tm) (2 ^ 63 - 1)).
    + rewrite Hsmall by lia. lia.
    + rewrite Hbig by lia. lia.
Qed.

(** The drawing timer of the examples, five seconds after its start. *)
Lemma X12_timer_update_remaining_witness :
  exists remaining,
    BroadcastTimerUpdate t_now 1 w_drawing
    = Some (set_room w_drawing 1
              (Room.with_Timer
                 (room_of PhaseDrawing "cat" [] [a_pixel 3 4] DrawingPhaseDuration)
                 (Some (GameTimer.mk t_start DrawingPhaseDuration remaining true true))),
            [Do (SafeBroadcastToRoom 1
                   (mkMessage "timer_update"
                      (TimerUpdateData (remaining / 1000000) PhaseDrawing true)))])
    /\ 0 <= remaining <= DrawingPhaseDuration
    /\ (t_now <= t_start + DrawingPhaseDuration ->
        remaining = DrawingPhaseDuration - (t_now - t_start))
    /\ (t_start + DrawingPhaseDuration <= t_now -> remaining = 0).
Proof.
  apply (X12_timer_update_remaining t_now 1 w_drawing
           (room_of PhaseDrawing "cat" [] [a_pixel 3 4] DrawingPhaseDuration)
           (running_timer DrawingPhaseDuration) eq_refl eq_refl eq_refl).
  - vm_compute. split; discriminate.
  - vm_compute. discriminate.
Defined.

(** ** Rounds *)

Lemma Forall2_flip_elem {A B} (R : A -> B -> Prop) (Q : B -> A -> Prop)
    (l : list A) (k : list B) :
  Forall2 R l k -> (forall x y, x ∈ l -> R x y -> Q y x) -> Forall2 Q k l.
Proof.
  induction 1 as [|x y l k HR HF IH]; intros HQ; [constructor|].
  constructor; [apply HQ; [left|done]|].
  apply IH. intros x' y' Hx'. apply HQ. by right.
Qed.

Lemma reset_for_round_idemp (p : Player.t) :
  reset_for_round (reset_for_round p) = reset_for_round p.
Proof. by destruct p. Qed.

Lemma reset_round_state_spec (addrs : list ptr) (h : gmap ptr Player.t) :
  (forall a, a ∈ addrs -> is_Some (h !! a)) ->
  exists h',
    reset_round_state addrs h = Some h'
    /\ forall b, h' !! b = if decide (b ∈ addrs) then reset_for_round <$> h !! b else h !! b.
Proof.
  revert h. induction addrs as [|a l IH]; intros h Hall.
  { exists h. split; [reflexivity|]. intros b. destruct (decide (b ∈ [])) as [Hb|]; [|done].
    by apply elem_of_nil in Hb. }
  destruct (Hall a) as [p Hp]; [left|].
  destruct (IH (<[a := reset_for_round p]> h)) as (h' & Hh' & Hlook).
  { intros b Hb. destruct (decide (b = a)) as [->|Hne].
    - rewrite lookup_insert_eq. eauto.
    - rewrite lookup_insert_ne by done. apply Hall. by right. }
  exists h'. split.
  { unfold reset_round_state in *. cbn [foldl]. cbn [mbind option_bind]. rewrite Hp.
    cbn [mbind option_bind]. exact Hh'. }
  intros b. rewrite Hlook. destruct (decide (b = a)) as [->|Hne].
  - rewrite lookup_insert_eq, Hp. simpl.
    destruct (decide (a ∈ a :: l)) as [_|Hn]; [|by destruct Hn; left].
    destruct (decide (a ∈ l)); [|done]. by rewrite reset_for_round_idemp.
  - rewrite lookup_insert_ne by done.
    destruct (decide (b ∈ l)) as [Hb|Hb].
    + rewrite decide_True; [done|by right].
    + rewrite decide_False; [done|]. intros Hin. apply elem_of_cons in Hin as [?|?]; done.
Qed.

Section RoundOrder.
Context `{GoRuntime}.

Lemma range_players_values (w : World) (rm : Room.t) (ps : list Player.t) :
  mapM (fun ka : string * ptr => player_store w !! ka.2)
       (range_players (Room.Players rm)) = Some ps ->
  forall p, p ∈ ps <->
            exists k a, Room.Players rm !! k = Some a /\ player_store w !! a = Some p.
Proof.
  intros Hps p. apply mapM_Some_1 in Hps. rewrite list_elem_of_lookup. split.
  - intros [i Hi]. destruct (Forall2_lookup_r _ _ _ _ _ Hps Hi) as ([k a] & Hl & Hst).
    exists k, a. split; [|exact Hst].
    apply range_players_elem, list_elem_of_lookup. eauto.
  - intros (k & a & Hk & Ha). apply range_players_elem in Hk.
    apply list_elem_of_lookup in Hk as [i Hi].
    destruct (Forall2_lookup_l _ _ _ _ _ Hps Hi) as (y & Hy & Hst). simpl in Hst.
    exists i. congruence.
Qed.

Lemma connected_ids_NoDup (w : World) (rm : Room.t) (ps : list Player.t) :
  keyed_by_id w rm ->
  mapM (fun ka : string * ptr => player_store w !! ka.2)
       (range_players (Room.Players rm)) = Some ps ->
  NoDup (Player.Id <$> filter (fun p => Player.IsConnected p = true) ps).
Proof.
  intros Hkey Hps. apply mapM_Some_1 in Hps.
  apply (sublist_NoDup _ (Player.Id <$> ps)); [|apply fmap_sublist, sublist_filter].
  assert (Hids : Player.Id <$> ps = (range_players (Room.Players rm)).*1).
  { apply list_eq_Forall2, Forall2_fmap.
    apply (Forall2_flip_elem _ _ _ _ Hps). intros [k a] p Hin Hst. simpl in *.
    apply range_players_elem in Hin. by apply (Hkey k a p). }
  rewrite Hids, range_players_perm. apply NoDup_fst_map_to_list.
Qed.

(** [UpdatePlayerOrder]: the rotation is rebuilt from the connected
    players of the room. *)
Lemma UpdatePlayerOrder_rebuilds (room : rptr) (w : World) (rm : Room.t) :
  room_store w !! room = Some rm -> players_allocated w rm ->
  (forall c, Room.Current rm = Some c -> is_Some (player_store w !! c)) ->
  exists order cur idx,
    UpdatePlayerOrder room w = Some (set_room w room (reordered rm order cur idx))
    /\ (forall id, id ∈ order <->
          exists k a p, Room.Players rm !! k = Some a /\ player_store w !! a = Some p
                        /\ Player.IsConnected p = true /\ Player.Id p = id)
    /\ (keyed_by_id w rm -> NoDup order)
    /\ (cur = None
        \/ cur = Room.Current rm
           /\ exists c p, cur = Some c /\ player_store w !! c = Some p /\ Player.Id p ∈ order)
    /\ (idx = 0 \/ idx = Room.CurrentIndex rm /\ idx < Z.of_nat (length order)).
Proof.
  intros Hrm Halloc Hcur. unfold UpdatePlayerOrder. rewrite Hrm. cbn [mbind option_bind].
  destruct (mapM_is_Some_2 (fun ka : string * ptr => player_store w !! ka.2)
              (range_players (Room.Players rm))) as [ps Hps].
  { apply Forall_forall. intros [k a] Hin. apply range_players_elem in Hin.
    simpl. eauto. }
  rewrite Hps. cbn [mbind option_bind].
  set (order := Player.Id <$> filter (fun p => Player.IsConnected p = true) ps).
  set (idx := if Z.of_nat (length order) <=? Room.CurrentIndex rm
              then 0 else Room.CurrentIndex rm).
  assert (Hidx : idx = 0 \/ idx = Room.CurrentIndex rm /\ idx < Z.of_nat (length order)).
  { unfold idx. destruct (Z.leb_spec (Z.of_nat (length order)) (Room.CurrentIndex rm)); auto. }
  assert (Horder : forall id, id ∈ order <->
            exists k a p, Room.Players rm !! k = Some a /\ player_store w !! a = Some p
                          /\ Player.IsConnected p = true /\ Player.Id p = id).
  { intros id. unfold order. rewrite list_elem_of_fmap. split.
    - intros (p & -> & Hp). apply list_elem_of_filter in Hp as [Hconn Hp].
      apply (range_players_values w rm ps Hps) in Hp as (k & a & Hk & Ha).
      exists k, a, p. auto.
    - intros (k & a & p & Hk & Ha & Hconn & <-). exists p. split; [done|].
      apply list_elem_of_filter. split; [done|].
      apply (range_players_values w rm ps Hps). eauto. }
  assert (Hnodup : keyed_by_id w rm -> NoDup order).
  { intros Hkey. by apply (connected_ids_NoDup w rm ps). }
  assert (Hsame : Room.with_CurrentIndex (Room.with_PlayerOrder rm order) idx
                  = reordered rm order (Room.Current rm) idx).
  { by destruct rm. }
  change (Room.Current (Room.with_CurrentIndex (Room.with_PlayerOrder rm order) idx))
    with (Room.Current rm).
  destruct (Room.Current rm) as [c|] eqn:Hc.
  - destruct (Hcur c eq_refl) as [cp Hcp]. rewrite Hcp. cbn [mbind option_bind].
    destruct (decide (Player.Id cp ∈ order)) as [Hin|Hin].
    + exists order, (Some c), idx. rewrite Hsame.
      split; [reflexivity|]. split; [done|]. split; [done|]. split; [|done].
      right. split; [done|]. eauto.
    + exists order, None, 0. split; [reflexivity|]. auto.
  - exists order, None, idx. rewrite Hsame. split; [reflexivity|]. auto.
Qed.


End RoundOrder.

Lemma example_players (rm : Room.t) (canDraw : bool) :
  Room.Players rm = two_players ->
  players_allocated (world_of rm canDraw) rm /\ keyed_by_id (world_of rm canDraw) rm.
Proof.
  intros Hps. unfold players_allocated, keyed_by_id. rewrite Hps. unfold two_players.
  split.
  - intros k a Hk.
    apply lookup_insert_Some in Hk as [[<- <-]|[_ Hk]]; [by eexists|].
    apply lookup_insert_Some in Hk as [[<- <-]|[_ Hk]]; [by eexists|].
    by rewrite lookup_empty in Hk.
  - intros k a p Hk Hp.
    apply lookup_insert_Some in Hk as [[<- <-]|[_ Hk]]; [by injection Hp as <-|].
    apply lookup_insert_Some in Hk as [[<- <-]|[_ Hk]]; [by injection Hp as <-|].
    by rewrite lookup_empty in Hk.
Qed.


Section RoundSteps.
Context `{GoRuntime}.

(** X14.  [NextRound] on a room whose timer has been stopped either ends
    the game, when no connected player is left or when the rotation wraps
    past the last round, or hands the turn to a connected player of the
    room: the word is cleared, the round number is incremented exactly
    when the rotation wraps to its first entry, and the state it leaves
    passes [ValidateGameState] at any later time. *)
Theorem X14_next_round_picks_connected_drawer (room : rptr) (w : World) (rm : Room.t) :
  room_store w !! room = Some rm -> players_allocated w rm -> keyed_by_id w rm ->
  (forall c, Room.Current rm = Some c -> is_Some (player_store w !! c)) ->
  0 <= Room.CurrentIndex rm -> Z.of_nat (size (Room.Players rm)) < 2 ^ 63 ->
  - 2 ^ 63 <= Room.RoundNumber rm < 2 ^ 63 - 1 ->
  timer_stopped rm ->
  exists rm',
    Room.Phase rm' = Room.Phase rm
    /\ (NextRound room w = Some (set_room w room rm', [Go [CallEndGame room]])
        /\ (Room.PlayerOrder rm' = []
            \/ Room.CurrentIndex rm' = 0
               /\ Room.RoundNumber rm' = Room.RoundNumber rm + 1
               /\ Room.MaxRounds rm < Room.RoundNumber rm')
        \/ NextRound room w = Some (set_room w room rm', [Go [CallStartWaitingPhase room]])
           /\ Room.Word rm' = ""
           /\ Room.RoundNumber rm'
              = (if Room.CurrentIndex rm' =? 0
                 then Room.RoundNumber rm + 1 else Room.RoundNumber rm)
           /\ (exists c p,
                 Room.Current rm' = Some c /\ player_store w !! c = Some p
                 /\ Player.IsConnected p = true /\ Room.Players rm !! Player.Id p = Some c
                 /\ index (Room.PlayerOrder rm') (Room.CurrentIndex rm') = Some (Player.Id p))
           /\ forall now, ValidateGameState now room (set_room w room rm') = Some true).
Proof.
  intros Hrm Halloc Hkey Hcur Hci Hsize Hround Hstop.
  destruct (UpdatePlayerOrder_rebuilds room w rm Hrm Halloc Hcur)
    as (order & cur & idx & HU & Horder & _ & _ & Hidx).
  assert (Hlen : (length order <= size (Room.Players rm))%nat).
  { destruct (UpdatePlayerOrder room w) as [w1|] eqn:HU1; [|discriminate].
    destruct (UpdatePlayerOrder_inv room w w1 rm Hrm HU1)
      as (order' & cur' & idx' & Hw1 & Hlen & _).
    injection HU as HU. rewrite Hw1 in HU. apply set_room_inj in HU.
    assert (order' = order) as <- by (apply (f_equal Room.PlayerOrder) in HU; exact HU).
    exact Hlen. }
  assert (Hlk : room_store (set_room w room (reordered rm order cur idx)) !! room
                = Some (reordered rm order cur idx)).
  { unfold set_room. cbn [room_store]. apply lookup_insert_eq. }
  unfold NextRound. rewrite Hrm, HU. cbn [mbind option_bind].
  rewrite Hlk. cbn [mbind option_bind].
  change (Room.PlayerOrder (reordered rm order cur idx)) with order.
  change (Room.CurrentIndex (reordered rm order cur idx)) with idx.
  destruct (Z.eqb_spec (Z.of_nat (length order)) 0) as [Hn0|Hn].
  { exists (reordered rm order cur idx). split; [reflexivity|]. left.
    split; [reflexivity|]. left. destruct order; [reflexivity|discriminate]. }
  set (n := Z.of_nat (length order)) in *.
  set (idx' := Z.rem (int_add idx 1) n).
  assert (Hr : 0 <= idx' < n).
  { unfold idx'. rewrite int_add_small by lia. apply Z.rem_bound_pos; lia. }
  set (rm1 := Room.with_Word (Room.with_CurrentIndex (reordered rm order cur idx) idx') "").
  change (Room.RoundNumber rm1) with (Room.RoundNumber rm).
  rewrite (int_add_small (Room.RoundNumber rm) 1) by lia.
  destruct (Z.eqb_spec idx' 0) as [Hw|Hw].
  - (* the rotation wraps *)
    change (Room.MaxRounds (Room.with_RoundNumber rm1 (Room.RoundNumber rm + 1)))
      with (Room.MaxRounds rm).
    change (Room.RoundNumber (Room.with_RoundNumber rm1 (Room.RoundNumber rm + 1)))
      with (Room.RoundNumber rm + 1).
    cbn [andb].
    destruct (Z.ltb_spec (Room.MaxRounds rm) (Room.RoundNumber rm + 1)) as [Hmax|Hmax].
    + exists (Room.with_RoundNumber rm1 (Room.RoundNumber rm + 1)).
      split; [reflexivity|]. left. rewrite set_room_set_room. split; [reflexivity|].
      right. auto.
    + change (Room.PlayerOrder (Room.with_RoundNumber rm1 (Room.RoundNumber rm + 1)))
        with order.
      destruct (index_is_Some order idx' Hr) as [id Hid]. rewrite Hid.
      cbn [mbind option_bind]. rewrite set_room_set_room.
      change (Room.Players (Room.with_RoundNumber rm1 (Room.RoundNumber rm + 1)))
        with (Room.Players rm).
      assert (Hin : id ∈ order).
      { unfold index in Hid. destruct (_ && _); [|discriminate].
        by apply list_elem_of_lookup_2 in Hid. }
      apply Horder in Hin as (k & a & p & Hk & Ha & Hconn & Hidp).
      assert (k = id) as -> by (rewrite <- Hidp; symmetry; by apply (Hkey k a p)).
      eexists. split; [|right; split; [reflexivity|]].
      { reflexivity. }
      split; [reflexivity|]. simpl Room.CurrentIndex.
      destruct (Z.eqb_spec idx' 0) as [_|?]; [|contradiction]. simpl.
      split; [reflexivity|]. rewrite Hk. split.
      { exists a, p. rewrite Hidp. auto. }
      intros now. unfold ValidateGameState, set_room. cbn [room_store].
      rewrite lookup_insert_eq. cbn [mbind option_bind]. simpl Room.CurrentIndex.
      simpl Room.PlayerOrder. fold n.
      destruct (Z.ltb_spec idx' 0); [lia|]. destruct (Z.leb_spec n idx'); [lia|].
      cbn [orb]. unfold current_player. simpl Room.Current. cbn [mbind option_bind].
      cbn [player_store]. rewrite Ha. simpl Room.Players. rewrite Hidp, Hk.
      rewrite bool_decide_eq_true_2 by eauto. cbn [negb].
      rewrite Hid. cbn [mbind option_bind].
      rewrite bool_decide_eq_true_2 by done. cbn [negb]. simpl Room.Timer.
      destruct (Room.Timer rm) as [tm|] eqn:Htm; [|done].
      rewrite (Hstop tm Htm). by rewrite andb_false_r.
  - (* the rotation goes on *)
    cbn [andb]. change (Room.PlayerOrder rm1) with order.
    destruct (index_is_Some order idx' Hr) as [id Hid]. rewrite Hid.
    cbn [mbind option_bind]. rewrite set_room_set_room.
    change (Room.Players rm1) with (Room.Players rm).
    assert (Hin : id ∈ order).
    { unfold index in Hid. destruct (_ && _); [|discriminate].
      by apply list_elem_of_lookup_2 in Hid. }
    apply Horder in Hin as (k & a & p & Hk & Ha & Hconn & Hidp).
    assert (k = id) as -> by (rewrite <- Hidp; symmetry; by apply (Hkey k a p)).
    eexists. split; [|right; split; [reflexivity|]].
    { reflexivity. }
    split; [reflexivity|]. simpl Room.CurrentIndex.
    destruct (Z.eqb_spec idx' 0) as [|_]; [contradiction|]. simpl.
    split; [reflexivity|]. rewrite Hk. split.
    { exists a, p. rewrite Hidp. auto. }
    intros now. unfold ValidateGameState, set_room. cbn [room_store].
    rewrite lookup_insert_eq. cbn [mbind option_bind]. simpl Room.CurrentIndex.
    simpl Room.PlayerOrder. fold n.
    destruct (Z.ltb_spec idx' 0); [lia|]. destruct (Z.leb_spec n idx'); [lia|].
    cbn [orb]. unfold current_player. simpl Room.Current. cbn [mbind option_bind].
    cbn [player_store]. rewrite Ha. simpl Room.Players. rewrite Hidp, Hk.
    rewrite bool_decide_eq_true_2 by eauto. cbn [negb].
    rewrite Hid. cbn [mbind option_bind].
    rewrite bool_decide_eq_true_2 by done. cbn [negb]. simpl Room.Timer.
    destruct (Room.Timer rm) as [tm|] eqn:Htm; [|done].
    rewrite (Hstop tm Htm). by rewrite andb_false_r.
Qed.

End RoundSteps.

(** The room of the examples after the last guess of a round. *)
Lemma X14_next_round_picks_connected_drawer_witness :
  exists rm',
    Room.Phase rm' = PhaseDrawing
    /\ (NextRound 1 w_after_guess = Some (set_room w_after_guess 1 rm', [Go [CallEndGame 1]])
        /\ (Room.PlayerOrder rm' = []
            \/ Room.CurrentIndex rm' = 0
               /\ Room.RoundNumber rm' = 1 + 1
               /\ 3 < Room.RoundNumber rm')
        \/ NextRound 1 w_after_guess
           = Some (set_room w_after_guess 1 rm', [Go [CallStartWaitingPhase 1]])
           /\ Room.Word rm' = ""
           /\ Room.RoundNumber rm' = (if Room.CurrentIndex rm' =? 0 then 1 + 1 else 1)
           /\ (exists c p,
                 Room.Current rm' = Some c /\ player_store w_after_guess !! c = Some p
                 /\ Player.IsConnected p = true /\ two_players !! Player.Id p = Some c
                 /\ index (Room.PlayerOrder rm') (Room.CurrentIndex rm') = Some (Player.Id p))
           /\ forall now, ValidateGameState now 1 (set_room w_after_guess 1 rm') = Some true).
Proof.
  apply (X14_next_round_picks_connected_drawer 1 w_after_guess room_after_guess eq_refl).
  - apply (example_players room_after_guess true eq_refl).
  - apply (example_players room_after_guess true eq_refl).
  - intros c [= <-]. by eexists.
  - vm_compute. discriminate.
  - vm_compute. reflexivity.
  - vm_compute. split; [discriminate|reflexivity].
  - intros tm [= <-]. reflexivity.
Defined.

Lemma index_Some_range {A} (s : list A) (i : Z) (x : A) :
  index s i = Some x -> 0 <= i < Z.of_nat (length s).
Proof.
  unfold index. destruct (Z.leb_spec 0 i); [|discriminate].
  destruct (Z.ltb_spec i (Z.of_nat (length s))); [lia|discriminate].
Qed.

Section WaitingPhase.
Context `{GoRuntime}.

(** X15.  [StartWaitingPhase] with a drawer in the rotation: the room
    enters the waiting phase with that drawer as [Current], an empty
    canvas and no correct guessers, and every player of the room has
    [HasGuessed] and [CanDraw] cleared while its other fields and all other
    players are untouched; the word is not changed.  The [waiting_phase]
    message announces 10 seconds, the timer that is started runs for 15
    seconds. *)
Theorem X15_waiting_phase_resets_round (now : Time) (room : rptr) (w : World)
    (rm : Room.t) (playerID : string) (a : ptr) (currentDrawer : Player.t) :
  room_store w !! room = Some rm -> players_allocated w rm ->
  index (Room.PlayerOrder rm)
        (if Z.of_nat (length (Room.PlayerOrder rm)) <=? Room.CurrentIndex rm
         then 0 else Room.CurrentIndex rm) = Some playerID ->
  Room.Players rm !! playerID = Some a -> player_store w !! a = Some currentDrawer ->
  exists rm' h' e1,
    StartWaitingPhase now room w
    = Some (mkWorld (Rooms w) (<[room := rm']> (room_store w)) h',
            Do (SafeBroadcastToRoom room
                  (mkMessage "waiting_phase"
                     (WaitingPhaseData (Room.Id rm) (Player.Id currentDrawer)
                        (Player.Username currentDrawer) 10 (Room.RoundNumber rm))))
            :: e1 ++ [Go [TimerTask room (15 * Second) OnWaitingExpired]])
    /\ Forall (timer_effect room) e1
    /\ Room.Phase rm' = PhaseWaiting /\ Room.Current rm' = Some a
    /\ Room.CanvasState rm' = [] /\ Room.CorrectGuessers rm' = []
    /\ Room.Timer rm' = Some (GameTimer.mk now (15 * Second) 0 true true)
    /\ Room.Word rm' = Room.Word rm /\ Room.Players rm' = Room.Players rm
    /\ Room.PlayerOrder rm' = Room.PlayerOrder rm
    /\ Room.RoundNumber rm' = Room.RoundNumber rm
    /\ (forall k b, Room.Players rm !! k = Some b ->
          exists p, player_store w !! b = Some p /\ h' !! b = Some (reset_for_round p))
    /\ (forall b, (forall k, Room.Players rm !! k <> Some b) ->
                  h' !! b = player_store w !! b).
Proof.
  intros Hrm Halloc Hidx Ha Hd. unfold StartWaitingPhase. rewrite Hrm.
  cbn [mbind option_bind].
  set (rm1 := Room.with_Phase rm PhaseWaiting).
  change (Room.PlayerOrder rm1) with (Room.PlayerOrder rm).
  change (Room.CurrentIndex rm1) with (Room.CurrentIndex rm).
  set (rm2 := if Z.of_nat (length (Room.PlayerOrder rm)) <=? Room.CurrentIndex rm
              then Room.with_CurrentIndex rm1 0 else rm1).
  assert (Hrm2 : Room.PlayerOrder rm2 = Room.PlayerOrder rm
                 /\ Room.CurrentIndex rm2
                    = (if Z.of_nat (length (Room.PlayerOrder rm)) <=? Room.CurrentIndex rm
                       then 0 else Room.CurrentIndex rm)
                 /\ Room.Players rm2 = Room.Players rm /\ Room.Phase rm2 = PhaseWaiting
                 /\ Room.Word rm2 = Room.Word rm /\ Room.RoundNumber rm2 = Room.RoundNumber rm
                 /\ Room.Id rm2 = Room.Id rm /\ Room.Timer rm2 = Room.Timer rm).
  { unfold rm2. by destruct (_ <=? _). }
  destruct Hrm2 as (Ho2 & Hi2 & Hp2 & Hph2 & Hw2 & Hr2 & Hid2 & Ht2).
  rewrite Ho2, Hi2.
  destruct (Z.eqb_spec (Z.of_nat (length (Room.PlayerOrder rm))) 0) as [Hn|Hn].
  { apply index_Some_range in Hidx. lia. }
  rewrite Hidx. cbn [mbind option_bind]. rewrite Hp2, Ha. cbn [mbind option_bind].
  rewrite Hd. cbn [fmap option_fmap option_map].
  change (Room.Players (Room.with_Current rm2 (Some a))) with (Room.Players rm2).
  rewrite Hp2.
  destruct (reset_round_state_spec ((range_players (Room.Players rm)).*2) (player_store w))
    as (h' & Hh' & Hlook).
  { intros b Hb. apply list_elem_of_fmap in Hb as ([k b'] & -> & Hin).
    apply range_players_elem in Hin. by apply (Halloc k b'). }
  rewrite Hh'. cbn [mbind option_bind].
  set (rm4 := Room.with_CanvasState (Room.with_CorrectGuessers
                                       (Room.with_Current rm2 (Some a)) []) []).
  unfold StartPhaseTimer.
  destruct (CancelPhaseTimer_returns room (set_room (set_players w h') room rm4) rm4)
    as (tm1 & e1 & HC & He1).
  { unfold set_room. cbn [room_store]. apply lookup_insert_eq. }
  rewrite HC. cbn [mbind option_bind]. rewrite set_room_set_room.
  assert (Hlk : forall x, room_store (set_room (set_players w h') room x) !! room = Some x).
  { intros x. unfold set_room. cbn [room_store]. apply lookup_insert_eq. }
  rewrite Hlk. cbn [mbind option_bind]. rewrite set_room_set_room.
  exists (Room.with_Timer (Room.with_Timer rm4 tm1)
            (Some (GameTimer.mk now (15 * Second) 0 true true))), h', e1.
  split.
  { unfold set_room, set_players. cbn [Rooms room_store player_store].
    change (Room.Id rm4) with (Room.Id rm2). change (Room.RoundNumber rm4) with (Room.RoundNumber rm2).
    rewrite Hid2, Hr2. reflexivity. }
  split; [exact He1|].
  change (Room.Phase (Room.with_Timer (Room.with_Timer rm4 tm1)
                        (Some (GameTimer.mk now (15 * Second) 0 true true))))
    with (Room.Phase rm2).
  change (Room.Word (Room.with_Timer (Room.with_Timer rm4 tm1)
                       (Some (GameTimer.mk now (15 * Second) 0 true true))))
    with (Room.Word rm2).
  change (Room.Players (Room.with_Timer (Room.with_Timer rm4 tm1)
                          (Some (GameTimer.mk now (15 * Second) 0 true true))))
    with (Room.Players rm2).
  change (Room.PlayerOrder (Room.with_Timer (Room.with_Timer rm4 tm1)
                              (Some (GameTimer.mk now (15 * Second) 0 true true))))
    with (Room.PlayerOrder rm2).
  change (Room.RoundNumber (Room.with_Timer (Room.with_Timer rm4 tm1)
                              (Some (GameTimer.mk now (15 * Second) 0 true true))))
    with (Room.RoundNumber rm2).
  do 9 (split; [done|]).
  split.
  - intros k b Hk. destruct (Halloc k b Hk) as [p Hp]. exists p. split; [done|].
    rewrite Hlook, Hp. rewrite decide_True; [done|].
    apply list_elem_of_fmap. exists (k, b). split; [done|]. by apply range_players_elem.
  - intros b Hb. rewrite Hlook. rewrite decide_False; [done|].
    intros Hin. apply list_elem_of_fmap in Hin as ([k b'] & -> & Hin).
    apply range_players_elem in Hin. by apply (Hb k).
Qed.

End WaitingPhase.

(** The room of the examples after the last guess of a round: the drawer
    ["d1"] is first in the rotation. *)
Lemma X15_waiting_phase_resets_round_witness :
  exists rm' h' e1,
    StartWaitingPhase t_now 1 w_after_guess
    = Some (mkWorld (Rooms w_after_guess) (<[1%positive := rm']> (room_store w_after_guess)) h',
            Do (SafeBroadcastToRoom 1
                  (mkMessage "waiting_phase" (WaitingPhaseData "R1" "d1" "d1" 10 1)))
            :: e1 ++ [Go [TimerTask 1 (15 * Second) OnWaitingExpired]])
    /\ Forall (timer_effect 1) e1
    /\ Room.Phase rm' = PhaseWaiting /\ Room.Current rm' = Some 1%positive
    /\ Room.CanvasState rm' = [] /\ Room.CorrectGuessers rm' = []
    /\ Room.Timer rm' = Some (GameTimer.mk t_now (15 * Second) 0 true true)
    /\ Room.Word rm' = "cat" /\ Room.Players rm' = two_players
    /\ Room.PlayerOrder rm' = ["d1"; "g1"]
    /\ Room.RoundNumber rm' = 1
    /\ (forall k b, two_players !! k = Some b ->
          exists p, player_store w_after_guess !! b = Some p
                    /\ h' !! b = Some (reset_for_round p))
    /\ (forall b, (forall k, two_players !! k <> Some b) ->
                  h' !! b = player_store w_after_guess !! b).
Proof.
  apply (X15_waiting_phase_resets_round t_now 1 w_after_guess room_after_guess "d1" 1
           (mkP "d1" (Some 1%positive) true false) eq_refl).
  - apply (example_players room_after_guess true eq_refl).
  - reflexivity.
  - reflexivity.
  - reflexivity.
Defined.

(** ** Rooms *)

Section RoomFacts.
Context `{GoRuntime}.

(** X16.  [getOrCreateRoom] registers the room under its identifier and is
    idempotent; it never touches a player, a registered room or another
    entry of the registry.  A room that exists is returned as it is; a new
    room is placed at an address not in use and is an empty lobby in round
    1 of 3 with no word, no drawer and a timer that does not run. *)
Theorem X16_get_or_create_room (roomId : string) (w : World) :
  let w1 := (getOrCreateRoom roomId w).1 in
  let room := (getOrCreateRoom roomId w).2 in
  Rooms w1 !! roomId = Some room
  /\ getOrCreateRoom roomId w1 = (w1, room)
  /\ player_store w1 = player_store w
  /\ (forall k r, Rooms w !! k = Some r -> Rooms w1 !! k = Some r)
  /\ (forall r rm, room_store w !! r = Some rm -> room_store w1 !! r = Some rm)
  /\ (is_Some (Rooms w !! roomId) -> w1 = w)
  /\ (Rooms w !! roomId = None ->
      room_store w !! room = None
      /\ exists rm, room_store w1 !! room = Some rm
           /\ Room.Id rm = roomId /\ Room.Phase rm = PhaseLobby /\ Room.Players rm = ∅
           /\ Room.Current rm = None /\ Room.Word rm = "" /\ Room.PlayerOrder rm = []
           /\ Room.RoundNumber rm = 1 /\ Room.MaxRounds rm = 3
           /\ Room.HasGameStarted rm = false /\ Room.CanvasState rm = []
           /\ timer_stopped rm).
Proof.
  unfold getOrCreateRoom. destruct (Rooms w !! roomId) as [room|] eqn:HR; simpl.
  - rewrite HR. repeat split; try done.
  - rewrite lookup_insert_eq.
    assert (Hfresh : room_store w !! fresh (dom (room_store w)) = None).
    { apply not_elem_of_dom, is_fresh. }
    split; [done|]. split; [done|]. split; [done|]. split.
    { intros k r Hk. rewrite lookup_insert_ne; [done|]. intros <-. congruence. }
    split.
    { intros r rm Hr. rewrite lookup_insert_ne; [done|]. intros <-. congruence. }
    split; [by intros [? ?]|]. intros _. split; [done|].
    exists (newRoom roomId). rewrite lookup_insert_eq.
    repeat split; try done. intros tm [= <-]. reflexivity.
Qed.

(** X17.  [AddPlayer] into a registered room with no word in play that
    holds at most 8 players once the player is entered: the player is
    stored under its identifier, connected, not ready and pointing to the
    room, nothing else changes; the others are sent [player_joined] with
    the public data of the player and the player is sent [welcome_msg]
    with the phase, the round, the drawer and the canvas of the room.  The
    error returned is the one of the write of [welcome_msg], if any: after
    a failed write the player is in the room all the same. *)
Theorem X17_add_player_joins (w : World) (roomId : string) (room : rptr) (rm : Room.t)
    (tm : GameTimer.t) (player : ptr) (p : Player.t) (write_result : option string) :
  Rooms w !! roomId = Some room -> room_store w !! room = Some rm ->
  player_store w !! player = Some p -> players_allocated w rm ->
  Room.Timer rm = Some tm -> Room.Word rm = "" ->
  (size (<[Player.Id p := player]> (Room.Players rm)) <= 8)%nat ->
  exists players,
    AddPlayer roomId player write_result w
    = Some (set_player
              (set_room w room
                 (Room.with_Players rm (<[Player.Id p := player]> (Room.Players rm))))
              player (joined p room),
            [Do (SafeBroadcastToRoomExcept room
                   (mkMessage "player_joined"
                      (PlayerJoinedData (Player.ToPublicPlayer (joined p room))))
                   (Some player));
             Do (SafeWriteJSON player
                   (mkMessage "welcome_msg"
                      (WelcomeData
                         (GameStateData.mk (Room.Phase rm) (Room.RoundNumber rm)
                            (Room.MaxRounds rm) (Room.Current rm)
                            (GameTimer.TimeRemaining tm) players
                            (Room.CorrectGuessers rm) "")
                         (Room.CanvasState rm))))],
            write_result)
    /\ length players = size (<[Player.Id p := player]> (Room.Players rm))
    /\ Forall (fun q => Player.Room q = None /\ Player.Conn q = None) players.
Proof.
  intros HRooms Hrm Hp Hall Htm Hword Hsize.
  unfold AddPlayer, getOrCreateRoom. rewrite HRooms. cbn [mbind option_bind].
  rewrite Hrm, Hp. cbn [mbind option_bind]. fold (joined p room).
  set (rm1 := Room.with_Players rm _).
  set (w2 := set_player (set_room w room rm1) player (joined p room)).
  destruct (mapM (fun ka : string * ptr => Player.ToPublicPlayer <$> player_store w2 !! ka.2)
              (range_players (Room.Players rm1))) as [players|] eqn:Hplayers.
  2: { exfalso. apply eq_None_not_Some in Hplayers. apply Hplayers.
       apply mapM_is_Some_2, Forall_forall. intros [k a] Hin.
       apply range_players_elem in Hin. simpl. apply fmap_is_Some.
       unfold w2, set_player. simpl.
       destruct (decide (a = player)) as [->|Hne]; [rewrite lookup_insert_eq; eauto|].
       rewrite lookup_insert_ne by done. unfold rm1 in Hin. simpl in Hin.
       destruct (decide (k = Player.Id p)) as [->|Hk].
       - rewrite lookup_insert_eq in Hin. congruence.
       - rewrite lookup_insert_ne in Hin by done. exact (Hall k a Hin). }
  cbn [mbind option_bind].
  replace (Room.Timer rm1) with (Some tm) by (symmetry; exact Htm).
  replace (Room.Word rm1) with "" by (symmetry; exact Hword).
  cbn [mbind option_bind]. change (GetMaskedWord "") with (Some "").
  cbn [mbind option_bind].
  assert (Hfits : (MaxPlayersPerRoom <? Z.of_nat (size (Room.Players rm1))) = false).
  { apply Z.ltb_ge. unfold rm1, MaxPlayersPerRoom. simpl. lia. }
  rewrite Hfits. exists players. split; [by destruct write_result|].
  split.
  { apply length_mapM in Hplayers. rewrite <- Hplayers. apply range_players_length. }
  apply mapM_Some_1 in Hplayers. apply Forall_forall. intros q Hq.
  apply list_elem_of_lookup in Hq as [i Hi].
  destruct (Forall2_lookup_r _ _ _ _ _ Hplayers Hi) as (ka & _ & Hka).
  apply fmap_Some in Hka as (q0 & _ & ->). done.
Qed.

(** X18.  [AddPlayer] into a registered room that has a word in play does
    not return: building [welcome_msg] calls [GetMaskedWord] on the word,
    which panics, whoever joins and whatever the size of the room. *)
Theorem X18_join_during_round_panics (w : World) (roomId : string) (room : rptr)
    (rm : Room.t) (player : ptr) (write_result : option string) :
  Rooms w !! roomId = Some room -> room_store w !! room = Some rm ->
  Room.Word rm <> "" ->
  AddPlayer roomId player write_result w = None.
Proof. apply AddPlayer_panics_with_word. Qed.

Lemma joinable_loop_finds (w : World) (rooms : list (string * rptr)) :
  Forall (fun kr => is_Some (room_store w !! kr.2)) rooms ->
  exists id,
    joinable_loop w rooms = Some id
    /\ (id = ""
        /\ (forall k room rm, (k, room) ∈ rooms -> room_store w !! room = Some rm ->
                              ~ joinable rm)
        \/ exists k room rm, (k, room) ∈ rooms /\ room_store w !! room = Some rm
                             /\ joinable rm /\ id = Room.Id rm).
Proof.
  induction rooms as [|[k room] rest IH]; intros Hall.
  { exists "". split; [reflexivity|]. left. split; [reflexivity|].
    intros k room rm Hin. by apply elem_of_nil in Hin. }
  apply Forall_cons in Hall as [[rm Hrm] Hrest]. simpl in Hrm.
  destruct (IH Hrest) as (id & Hid & Hcases).
  assert (Hskip : ~ joinable rm ->
            exists id0,
              joinable_loop w rest = Some id0
              /\ (id0 = ""
                  /\ (forall k0 room0 rm0, (k0, room0) ∈ (k, room) :: rest ->
                        room_store w !! room0 = Some rm0 -> ~ joinable rm0)
                  \/ exists k0 room0 rm0, (k0, room0) ∈ (k, room) :: rest
                       /\ room_store w !! room0 = Some rm0 /\ joinable rm0
                       /\ id0 = Room.Id rm0)).
  { intros Hno. exists id. split; [exact Hid|].
    destruct Hcases as [[-> Hnone]|(k0 & room0 & rm0 & Hin & Hrm0 & Hj & ->)].
    - left. split; [reflexivity|]. intros k0 room0 rm0 Hin Hrm0.
      apply elem_of_cons in Hin as [[= -> ->]|Hin]; [congruence|eauto].
    - right. exists k0, room0, rm0. split; [by right|done]. }
  cbn [joinable_loop]. rewrite Hrm. cbn [mbind option_bind].
  destruct (Z.leb_spec MaxPlayersPerRoom (Z.of_nat (size (Room.Players rm)))) as [Hfull|Hfree].
  { apply Hskip. unfold joinable. lia. }
  destruct (decide (Room.Phase rm = PhaseLobby)) as [Hlobby|Hphase].
  - exists (Room.Id rm). split; [reflexivity|]. right. exists k, room, rm.
    split; [left|]. done.
  - apply Hskip. unfold joinable. tauto.
Qed.

(** X19.  [GetJoinableRoom] returns the identifier of a registered room
    that is in the lobby phase with fewer than 8 players, whenever there is
    one, and the empty string only when there is none; this holds whatever
    the order in which the registry is ranged over. *)
Theorem X19_joinable_room_found (w : World) :
  registry_allocated w ->
  exists id,
    GetJoinableRoom w = Some id
    /\ (id = ""
        /\ (forall k room rm, Rooms w !! k = Some room -> room_store w !! room = Some rm ->
                              ~ joinable rm)
        \/ exists k room rm, Rooms w !! k = Some room /\ room_store w !! room = Some rm
                             /\ joinable rm /\ id = Room.Id rm).
Proof.
  intros Hreg. unfold GetJoinableRoom.
  destruct (joinable_loop_finds w (range_players (Rooms w))) as (id & Hid & Hcases).
  { apply Forall_forall. intros [k room] Hin. apply range_players_elem in Hin.
    simpl. by apply (Hreg k). }
  exists id. split; [exact Hid|].
  destruct Hcases as [[-> Hnone]|(k & room & rm & Hin & Hrm & Hj & ->)].
  - left. split; [reflexivity|]. intros k room rm Hk. apply Hnone with k.
    by apply range_players_elem.
  - right. exists k, room, rm. split; [by apply range_players_elem|done].
Qed.

End RoomFacts.

(** The guesser of the examples joins its room again and the write of the
    welcome message fails. *)
Lemma X17_add_player_joins_witness :
  exists players,
    AddPlayer "R1" 2 (Some "write failed") w_selecting
    = Some (set_player
              (set_room w_selecting 1
                 (Room.with_Players
                    (room_of PhaseWaiting "" ["cat"; "giraffe"; "watermelon"] [] (15 * Second))
                    (<["g1" := 2%positive]> two_players)))
              2 (joined (mkP "g1" (Some 1%positive) false false) 1),
            [Do (SafeBroadcastToRoomExcept 1
                   (mkMessage "player_joined"
                      (PlayerJoinedData
                         (Player.ToPublicPlayer
                            (joined (mkP "g1" (Some 1%positive) false false) 1))))
                   (Some 2%positive));
             Do (SafeWriteJSON 2
                   (mkMessage "welcome_msg"
                      (WelcomeData
                         (GameStateData.mk PhaseWaiting 1 3 (Some 1%positive) 0 players [] "")
                         [])))],
            Some "write failed")
    /\ length players = size (<["g1" := 2%positive]> two_players)
    /\ Forall (fun q => Player.Room q = None /\ Player.Conn q = None) players.
Proof.
  apply (X17_add_player_joins w_selecting "R1" 1
           (room_of PhaseWaiting "" ["cat"; "giraffe"; "watermelon"] [] (15 * Second))
           (running_timer (15 * Second)) 2 (mkP "g1" (Some 1%positive) false false)
           (Some "write failed") eq_refl eq_refl eq_refl).
  - apply (example_players
             (room_of PhaseWaiting "" ["cat"; "giraffe"; "watermelon"] [] (15 * Second))
             false eq_refl).
  - reflexivity.
  - reflexivity.
  - vm_compute. lia.
Defined.

(** The guesser joins the room of the examples again while ["cat"] is drawn. *)
Lemma X18_join_during_round_panics_witness :
  AddPlayer "R1" 2 None w_drawing = None.
Proof.
  apply (X18_join_during_round_panics w_drawing "R1" 1
           (room_of PhaseDrawing "cat" [] [a_pixel 3 4] DrawingPhaseDuration) 2 None
           eq_refl eq_refl).
  discriminate.
Defined.

(** The full lobby of the examples is the only room registered. *)
Lemma X19_joinable_room_found_witness :
  exists id,
    GetJoinableRoom w_full = Some id
    /\ (id = ""
        /\ (forall k room rm, Rooms w_full !! k = Some room ->
                              room_store w_full !! room = Some rm -> ~ joinable rm)
        \/ exists k room rm, Rooms w_full !! k = Some room /\ room_store w_full !! room = Some rm
                             /\ joinable rm /\ id = Room.Id rm).
Proof.
  apply (X19_joinable_room_found w_full).
  intros k room Hk. unfold w_full in Hk. simpl in Hk.
  apply lookup_insert_Some in Hk as [[<- <-]|[_ Hk]]; [by eexists|].
  by rewrite lookup_empty in Hk.
Defined.

(** ** Guesses *)

Section GuessBookkeeping.
Context `{GoRuntime}.

Lemma is_current_pointer (w : World) (rm : Room.t) (k : string) (a : ptr) (p : Player.t) :
  keyed_by_id w rm -> current_in_room w rm ->
  Room.Players rm !! k = Some a -> player_store w !! a = Some p ->
  is_current w rm p = bool_decide (Room.Current rm = Some a).
Proof.
  intros Hkey Hcur Hk Hp. unfold is_current, current_player.
  destruct (Room.Current rm) as [c|] eqn:Hc; [|by rewrite bool_decide_eq_false_2].
  destruct (Hcur c Hc) as (cp & Hcp & Hin). cbn [mbind option_bind]. rewrite Hcp.
  apply bool_decide_ext. split.
  - intros Hid. f_equal. pose proof (Hkey k a p Hk Hp) as Hkp.
    rewrite <- Hid, Hkp, Hk in Hin. congruence.
  - intros [= ->]. congruence.
Qed.

(** X20.  The two tests for the end of a round agree: the method
    [HasEveryoneGuessed], which compares pointers and is asked by the
    drawing timer, returns what the loop of [HandleGuessEnhanced], which
    compares identifiers and skips [nil] entries, computes, in every room
    whose players are entered under their own identifiers and whose drawer
    is one of them. *)
Theorem X20_everyone_guessed_tests_agree (w : World) (rm : Room.t) :
  players_allocated w rm -> keyed_by_id w rm -> current_in_room w rm ->
  HasEveryoneGuessed w rm = Some (all_guessed w rm).
Proof.
  intros Halloc Hkey Hcur. unfold HasEveryoneGuessed, all_guessed.
  assert (Hin : forall k a, (k, a) ∈ range_players (Room.Players rm) ->
                            Room.Players rm !! k = Some a).
  { intros k a. apply range_players_elem. }
  induction (range_players (Room.Players rm)) as [|[k a] rest IH]; [reflexivity|].
  pose proof (Hin k a (list_elem_of_here _ _)) as Hk.
  destruct (Halloc k a Hk) as [p Hp].
  cbn [everyone_guessed_loop forallb]. simpl snd. rewrite Hp. cbn [mbind option_bind].
  rewrite (is_current_pointer w rm k a p Hkey Hcur Hk Hp).
  rewrite IH by (intros k' a' Hin'; apply Hin; by right).
  destruct (Player.IsConnected p), (bool_decide (Room.Current rm = Some a)),
    (Player.HasGuessed p); reflexivity.
Qed.

End GuessBookkeeping.

Lemma X20_everyone_guessed_tests_agree_witness :
  HasEveryoneGuessed w_drawing
    (room_of PhaseDrawing "cat" [] [a_pixel 3 4] DrawingPhaseDuration)
  = Some (all_guessed w_drawing
            (room_of PhaseDrawing "cat" [] [a_pixel 3 4] DrawingPhaseDuration)).
Proof.
  apply (X20_everyone_guessed_tests_agree w_drawing
           (room_of PhaseDrawing "cat" [] [a_pixel 3 4] DrawingPhaseDuration)).
  - apply (example_players
             (room_of PhaseDrawing "cat" [] [a_pixel 3 4] DrawingPhaseDuration) true eq_refl).
  - apply (example_players
             (room_of PhaseDrawing "cat" [] [a_pixel 3 4] DrawingPhaseDuration) true eq_refl).
  - intros c [= <-]. eexists. split; reflexivity.
Defined.

Section GuessScoring.
Context `{GoRuntime}.




End GuessScoring.


Import LobbyExamples.

(** ** Word selection and the drawing phase *)

Section PhaseFacts.
Context `{GoRuntime}.

(** X22.  [StartDrawingPhase] never starts a drawing phase.  It returns
    without any change when the room has no drawer or no word; with a
    drawer and a word it panics in [GetMaskedWord] before the timer is
    started and before anything is sent. *)
Theorem X22_drawing_phase_never_starts (now : Time) (room : rptr) (w : World) (rm : Room.t) :
  room_store w !! room = Some rm ->
  (current_drawer w rm = None \/ Room.Word rm = "" ->
   StartDrawingPhase now room w = Some (w, []))
  /\ (is_Some (current_drawer w rm) -> Room.Word rm <> "" ->
      StartDrawingPhase now room w = None).
Proof.
  intros Hrm. unfold StartDrawingPhase. rewrite Hrm. split.
  - intros [-> | Hword]; [reflexivity|].
    destruct (current_drawer w rm) as [[c cp]|]; [|reflexivity].
    by destruct (decide (Room.Word rm = "")).
  - intros [[c cp] ->] Hword.
    destruct (decide (Room.Word rm = "")); [contradiction|].
    change (Room.Word (Room.with_CorrectGuessers (Room.with_Phase rm PhaseDrawing) []))
      with (Room.Word rm).
    by rewrite (GetMaskedWord_panics (Room.Word rm) Hword).
Qed.


(** X24.  The word of a round is chosen even if the drawer never answers.
    [StartWordSelection] with a drawer stores the choices and writes them
    to the drawer.  If the write succeeds, the others are told to wait and
    a 15 second timer is started whose callback, while no word is set,
    starts [HandleWordSelection] for the drawer with the first choice; if
    the write fails, that call is started at once and no timer is.  In
    both states the call stores the first choice as the word and empties
    the choices. *)
Theorem X24_first_word_is_selected_by_default (now : Time) (room : rptr) (w : World)
    (rm : Room.t) (c : ptr) (currentDrawer : Player.t) (first : string)
    (rest : list string) (err : string) :
  room_store w !! room = Some rm -> Room.Current rm = Some c ->
  player_store w !! c = Some currentDrawer -> Player.Room currentDrawer = Some room ->
  Room.Word rm = "" ->
  let words := first :: rest in
  let offered := set_room w room (Room.with_WordChoices rm words) in
  let waiting :=
    set_room w room
      (Room.with_Timer (Room.with_WordChoices rm words)
         (Some (GameTimer.mk now (15 * Second) 0 true true))) in
  let chosen (tm : option GameTimer.t) :=
    set_room w room
      (Room.with_Timer (Room.with_WordChoices (Room.with_Word rm first) []) tm) in
  let wordSelection :=
    Write (ToPlayer c) "word_selection" (WordSelectionData (Room.Id rm) words 15) in
  (exists e,
     StartWordSelection now room words None w
     = Some (waiting,
             [wordSelection;
              GoWrite (ToRoomExcept room c) "waiting_for_word"
                (WaitingForWordData (Player.Username currentDrawer) 15)]
             ++ (Eff <$> e ++ [Go [TimerTask room (15 * Second) (OnSelectionExpired c)]]))
     /\ Forall (timer_effect room) e)
  /\ selection_timer_callback room c waiting
     = Some (waiting, [Go [CallHandleWordSelection c first]])
  /\ (exists tm e',
        HandleWordSelection c first waiting
        = Some (chosen tm, e' ++ [Go [CallStartDrawingPhase room]]))
  /\ StartWordSelection now room words (Some err) w
     = Some (offered, [wordSelection; Eff (Go [CallHandleWordSelection c first])])
  /\ (exists tm e',
        HandleWordSelection c first offered
        = Some (chosen tm, e' ++ [Go [CallStartDrawingPhase room]])).
Proof.
  intros Hrm Hcur Hc Hroom Hword words offered waiting chosen wordSelection.
  assert (Hd : current_drawer w rm = Some (c, currentDrawer)).
  { unfold current_drawer. rewrite Hcur. cbn [mbind option_bind]. by rewrite Hc. }
  set (rm1 := Room.with_WordChoices rm words) in *.
  assert (Hlk : forall v x, room_store (set_room v room x) !! room = Some x).
  { intros v x. unfold set_room. cbn [room_store]. apply lookup_insert_eq. }
  (* the selection of the first word in a state that holds the choices *)
  assert (Hselect : forall rmv,
            Room.Current rmv = Some c -> Room.Word rmv = "" -> Room.WordChoices rmv = words ->
            exists tm e',
              HandleWordSelection c first (set_room w room rmv)
              = Some (set_room w room
                        (Room.with_Timer
                           (Room.with_WordChoices (Room.with_Word rmv first) []) tm),
                      e' ++ [Go [CallStartDrawingPhase room]])).
  { intros rmv Hcv Hwv Hchv.
    destruct (HandleWordSelection_valid (set_room w room rmv) c currentDrawer currentDrawer
                room rmv first) as (tm & e' & Hsel & _); try done.
    - unfold current_player. rewrite Hcv. cbn [mbind option_bind]. exact Hc.
    - rewrite Hchv. left.
    - exists tm, e'. by rewrite Hsel, set_room_set_room. }
  split; [|split; [|split; [|split]]].
  - unfold StartWordSelection. rewrite Hrm. cbn [mbind option_bind]. rewrite Hd.
    fold rm1. unfold StartPhaseTimer.
    destruct (CancelPhaseTimer_returns room (set_room w room rm1) rm1 (Hlk w rm1))
      as (tm1 & e1 & HC & He1).
    rewrite HC. cbn [mbind option_bind]. rewrite set_room_set_room, Hlk.
    cbn [mbind option_bind]. rewrite set_room_set_room. exists e1. split; [|exact He1].
    reflexivity.
  - unfold selection_timer_callback, waiting. rewrite Hlk. cbn [mbind option_bind].
    change (Room.Word (Room.with_Timer rm1 (Some (GameTimer.mk now (15 * Second) 0 true true))))
      with (Room.Word rm).
    destruct (decide (Room.Word rm <> "")); [contradiction|reflexivity].
  - apply (Hselect (Room.with_Timer rm1 (Some (GameTimer.mk now (15 * Second) 0 true true))));
      done.
  - unfold StartWordSelection. rewrite Hrm. cbn [mbind option_bind]. rewrite Hd.
    reflexivity.
  - apply (Hselect rm1); done.
Qed.

End PhaseFacts.

(** The room of the examples while ["cat"] is drawn, as a word selection
    would leave it. *)
Lemma X22_drawing_phase_never_starts_witness :
  (current_drawer w_drawing
     (room_of PhaseDrawing "cat" [] [a_pixel 3 4] DrawingPhaseDuration) = None
   \/ "cat" = "" -> StartDrawingPhase t_now 1 w_drawing = Some (w_drawing, []))
  /\ (is_Some (current_drawer w_drawing
                 (room_of PhaseDrawing "cat" [] [a_pixel 3 4] DrawingPhaseDuration)) ->
      "cat" <> "" -> StartDrawingPhase t_now 1 w_drawing = None).
Proof.
  exact (X22_drawing_phase_never_starts t_now 1 w_drawing
           (room_of PhaseDrawing "cat" [] [a_pixel 3 4] DrawingPhaseDuration) eq_refl).
Defined.


(** The waiting room of the examples, with three new words. *)
Lemma X24_first_word_is_selected_by_default_witness :
  let rm := room_of PhaseWaiting "" ["cat"; "giraffe"; "watermelon"] [] (15 * Second) in
  let words := ["sun"; "bicycle"; "lighthouse"] in
  let offered := set_room w_selecting 1 (Room.with_WordChoices rm words) in
  let waiting :=
    set_room w_selecting 1
      (Room.with_Timer (Room.with_WordChoices rm words)
         (Some (GameTimer.mk t_now (15 * Second) 0 true true))) in
  let chosen (tm : option GameTimer.t) :=
    set_room w_selecting 1
      (Room.with_Timer (Room.with_WordChoices (Room.with_Word rm "sun") []) tm) in
  let wordSelection :=
    Write (ToPlayer 1) "word_selection" (WordSelectionData "R1" words 15) in
  (exists e,
     StartWordSelection t_now 1 words None w_selecting
     = Some (waiting,
             [wordSelection;
              GoWrite (ToRoomExcept 1 1) "waiting_for_word" (WaitingForWordData "d1" 15)]
             ++ (Eff <$> e ++ [Go [TimerTask 1 (15 * Second) (OnSelectionExpired 1)]]))
     /\ Forall (timer_effect 1) e)
  /\ selection_timer_callback 1 1 waiting
     = Some (waiting, [Go [CallHandleWordSelection 1 "sun"]])
  /\ (exists tm e',
        HandleWordSelection 1 "sun" waiting
        = Some (chosen tm, e' ++ [Go [CallStartDrawingPhase 1]]))
  /\ StartWordSelection t_now 1 words (Some "closed") w_selecting
     = Some (offered, [wordSelection; Eff (Go [CallHandleWordSelection 1 "sun"])])
  /\ (exists tm e',
        HandleWordSelection 1 "sun" offered
        = Some (chosen tm, e' ++ [Go [CallStartDrawingPhase 1]])).
Proof.
  exact (X24_first_word_is_selected_by_default t_now 1 w_selecting
           (room_of PhaseWaiting "" ["cat"; "giraffe"; "watermelon"] [] (15 * Second))
           1 (mkP "d1" (Some 1%positive) false false) "sun" ["bicycle"; "lighthouse"] "closed"
           eq_refl eq_refl eq_refl eq_refl eq_refl).
Defined.

(** ** The lobby *)

Lemma update_all_spec (f : Player.t -> Player.t) (addrs : list ptr) (h : gmap ptr Player.t) :
  (forall p, f (f p) = f p) ->
  (forall a, a ∈ addrs -> is_Some (h !! a)) ->
  exists h',
    update_all f addrs h = Some h'
    /\ forall b, h' !! b = if decide (b ∈ addrs) then f <$> h !! b else h !! b.
Proof.
  intros Hidem. revert h. induction addrs as [|a l IH]; intros h Hall.
  { exists h. split; [reflexivity|]. intros b. destruct (decide (b ∈ [])) as [Hb|]; [|done].
    by apply elem_of_nil in Hb. }
  destruct (Hall a) as [p Hp]; [left|].
  destruct (IH (<[a := f p]> h)) as (h' & Hh' & Hlook).
  { intros b Hb. destruct (decide (b = a)) as [->|Hne].
    - rewrite lookup_insert_eq. eauto.
    - rewrite lookup_insert_ne by done. apply Hall. by right. }
  exists h'. split.
  { unfold update_all in *. cbn [foldl]. cbn [mbind option_bind]. rewrite Hp.
    cbn [mbind option_bind]. exact Hh'. }
  intros b. rewrite Hlook. destruct (decide (b = a)) as [->|Hne].
  - rewrite lookup_insert_eq, Hp. simpl.
    destruct (decide (a ∈ a :: l)) as [_|Hn]; [|by destruct Hn; left].
    destruct (decide (a ∈ l)); [|done]. by rewrite Hidem.
  - rewrite lookup_insert_ne by done.
    destruct (decide (b ∈ l)) as [Hb|Hb].
    + rewrite decide_True; [done|by right].
    + rewrite decide_False; [done|]. intros Hin. apply elem_of_cons in Hin as [?|?]; done.
Qed.

Section LobbyFacts.
Context `{GoRuntime}.

Lemma range_players_addrs (rm : Room.t) (b : ptr) :
  b ∈ (range_players (Room.Players rm)).*2 <-> exists k, Room.Players rm !! k = Some b.
Proof.
  rewrite list_elem_of_fmap. split.
  - intros ([k a] & -> & Hin). exists k. by apply range_players_elem.
  - intros [k Hk]. exists (k, b). split; [done|]. by apply range_players_elem.
Qed.

Lemma AreAllPlayersReady_spec (w : World) (rm : Room.t) :
  players_allocated w rm ->
  exists b, AreAllPlayersReady w rm = Some b /\ (b = true <-> all_ready w rm).
Proof.
  intros Halloc. unfold AreAllPlayersReady, all_ready.
  assert (Hin : forall k a, (k, a) ∈ range_players (Room.Players rm) <->
                            Room.Players rm !! k = Some a).
  { intros k a. apply range_players_elem. }
  setoid_rewrite <- Hin. clear Hin.
  assert (Hall : forall k a, (k, a) ∈ range_players (Room.Players rm) ->
                             is_Some (player_store w !! a)).
  { intros k a Hka. apply range_players_elem in Hka. by apply (Halloc k a). }
  induction (range_players (Room.Players rm)) as [|[k a] rest IH].
  { exists true. split; [reflexivity|]. split; [|done].
    intros _ k a p Hka. by apply elem_of_nil in Hka. }
  destruct (Hall k a) as [p Hp]; [left|].
  destruct IH as (b & Hb & Hiff); [intros k' a' Hin'; apply (Hall k' a'); by right|].
  cbn [all_ready_loop]. rewrite Hp. cbn [mbind option_bind].
  destruct (Player.IsConnected p && negb (Player.IsReady p)) eqn:Hc.
  - exists false. split; [reflexivity|]. split; [discriminate|].
    intros Hready. apply andb_true_iff in Hc as [Hconn Hnr].
    rewrite (Hready k a p) in Hnr; [discriminate|left|done|done].
  - exists b. split; [exact Hb|]. rewrite Hiff. split.
    + intros Hrest k' a' p' Hin' Hp' Hconn.
      apply elem_of_cons in Hin' as [[= -> ->]|Hin']; [|by apply (Hrest k' a' p')].
      replace p' with p in * by congruence. rewrite Hconn in Hc. simpl in Hc.
      by apply negb_false_iff in Hc.
    + intros Hready k' a' p' Hin'. apply (Hready k' a' p'). by right.
Qed.

(** X25.  [HandlePlayerReady] outside the lobby phase changes nothing and
    sends nothing.  In the lobby it stores the flag in the player and in
    [PlayersReady], broadcasts [lobby_update] with the sizes of
    [PlayersReady] and [Players], and starts [StartGame] exactly when the
    room then has at least two players, connected or not, and every
    connected player of the room is ready. *)
Theorem X25_ready_starts_game_when_all_ready (player : ptr) (ready : bool) (w : World)
    (p : Player.t) (room : rptr) (rm : Room.t) :
  player_store w !! player = Some p -> Player.Room p = Some room ->
  room_store w !! room = Some rm -> players_allocated w rm ->
  let rm1 := with_PlayersReady rm (<[Player.Id p := ready]> (Room.PlayersReady rm)) in
  let w1 := set_room (set_player w player (Player.with_IsReady p ready)) room rm1 in
  (Room.Phase rm <> PhaseLobby -> HandlePlayerReady player ready w = Some (w, []))
  /\ (Room.Phase rm = PhaseLobby ->
      exists start : bool,
        HandlePlayerReady player ready w
        = Some (w1,
                GoWrite (ToRoom room) "lobby_update"
                  (LobbyUpdateData (Player.Id p) (Player.Username p) ready
                     (Z.of_nat (size (<[Player.Id p := ready]> (Room.PlayersReady rm))))
                     (Z.of_nat (size (Room.Players rm))))
                :: (if start then [GoStartGame room] else []))
        /\ (start = true <->
            2 <= Z.of_nat (size (Room.Players rm)) /\ all_ready w1 rm)).
Proof.
  intros Hp Hroom Hrm Halloc rm1 w1. unfold HandlePlayerReady.
  rewrite Hp. cbn [mbind option_bind]. rewrite Hroom. cbn [mbind option_bind].
  rewrite Hrm. cbn [mbind option_bind]. split.
  - intros Hph. by destruct (decide (Room.Phase rm <> PhaseLobby)).
  - intros Hph. destruct (decide (Room.Phase rm <> PhaseLobby)); [contradiction|].
    fold rm1. fold w1.
    assert (Halloc1 : players_allocated w1 rm1).
    { intros k a Hk. unfold w1, set_room, set_player. cbn [player_store].
      destruct (decide (a = player)) as [->|Hne]; [rewrite lookup_insert_eq; eauto|].
      rewrite lookup_insert_ne by done. by apply (Halloc k a). }
    destruct (AreAllPlayersReady_spec w1 rm1 Halloc1) as (b & Hb & Hiff).
    rewrite Hb. cbn [mbind option_bind].
    exists (b && (MinPlayersToStart <=? Z.of_nat (size (Room.Players rm1)))).
    split; [reflexivity|].
    rewrite andb_true_iff, Hiff, Z.leb_le. unfold MinPlayersToStart. tauto.
Qed.

End LobbyFacts.

(** The eight players of the full lobby are not ready; the first one
    declares itself ready. *)
Lemma X25_ready_starts_game_when_all_ready_witness :
  let p := mkP "p1" (Some 1%positive) false false in
  let rm1 := with_PlayersReady full_lobby (<["p1" := true]> ∅) in
  let w1 := set_room (set_player w_full 1 (Player.with_IsReady p true)) 1 rm1 in
  (PhaseLobby <> PhaseLobby -> HandlePlayerReady 1 true w_full = Some (w_full, []))
  /\ (PhaseLobby = PhaseLobby ->
      exists start : bool,
        HandlePlayerReady 1 true w_full
        = Some (w1,
                GoWrite (ToRoom 1) "lobby_update"
                  (LobbyUpdateData "p1" "p1" true
                     (Z.of_nat (size (<["p1" := true]> (∅ : gmap string bool))))
                     (Z.of_nat (size (Room.Players full_lobby))))
                :: (if start then [GoStartGame 1] else []))
        /\ (start = true <->
            2 <= Z.of_nat (size (Room.Players full_lobby)) /\ all_ready w1 full_lobby)).
Proof.
  apply (X25_ready_starts_game_when_all_ready 1 true w_full
           (mkP "p1" (Some 1%positive) false false) 1 full_lobby eq_refl eq_refl eq_refl).
  intros k a Hk. apply elem_of_list_to_map_2 in Hk. unfold lobby_ids in Hk.
  repeat (apply elem_of_cons in Hk as [[= -> ->]|Hk];
          [apply (bool_decide_unpack _); vm_compute; exact I|]).
  by apply elem_of_nil in Hk.
Defined.

Section StartGameFacts.
Context `{GoRuntime}.

Lemma ResetPlayerGuessState_spec (room : rptr) (w : World) (rm : Room.t) :
  room_store w !! room = Some rm -> players_allocated w rm ->
  exists h',
    ResetPlayerGuessState room w
    = Some (set_room (set_players w h') room (Room.with_CorrectGuessers rm []))
    /\ (forall k a, Room.Players rm !! k = Some a ->
          exists p, player_store w !! a = Some p
                    /\ h' !! a = Some (Player.with_HasGuessed p false))
    /\ (forall b, (forall k, Room.Players rm !! k <> Some b) ->
                  h' !! b = player_store w !! b).
Proof.
  intros Hrm Halloc. unfold ResetPlayerGuessState. rewrite Hrm. cbn [mbind option_bind].
  destruct (update_all_spec (fun p => Player.with_HasGuessed p false)
              ((range_players (Room.Players rm)).*2) (player_store w))
    as (h' & Hh' & Hlook).
  { by intros []. }
  { intros a Ha. apply range_players_addrs in Ha as [k Hk]. by apply (Halloc k a). }
  unfold update_all in Hh'. rewrite foldl_fmap in Hh'. rewrite Hh'.
  cbn [mbind option_bind]. exists h'. split; [reflexivity|]. split.
  - intros k a Hk. destruct (Halloc k a Hk) as [p Hp]. exists p. split; [done|].
    rewrite Hlook, Hp. rewrite decide_True; [done|]. apply range_players_addrs. eauto.
  - intros b Hb. rewrite Hlook. rewrite decide_False; [done|].
    intros Hin. apply range_players_addrs in Hin as [k Hk]. by apply (Hb k).
Qed.

(** X26.  [StartGame] refuses, with the state unchanged and nothing sent,
    a room with fewer than two players and a room with a connected player
    who is not ready.  Otherwise, whatever the phase of the room, it resets
    the room for a new game (round 1, index 0, no round statistics, no
    correct guessers, [HasGameStarted] set, [HasGuessed] cleared for the
    players of the room), rebuilds the rotation as the identifiers that
    [PlayersReady] marks ready and that belong to a connected player of
    the room, runs [StartWaitingPhase] on that state and then broadcasts
    [game_started] with the length of the rotation and one entry for each
    player. *)
Theorem X26_start_game (range_ready : gmap string bool -> list (string * bool))
    (now : Time) (room : rptr) (w : World) (rm : Room.t) :
  (forall m, range_ready m ≡ₚ map_to_list m) ->
  room_store w !! room = Some rm -> players_allocated w rm ->
  (Z.of_nat (size (Room.Players rm)) < 2 ->
   StartGame range_ready now room w
   = Some (w, [], Some (NotEnoughPlayers (Z.of_nat (size (Room.Players rm))) 2)))
  /\ (2 <= Z.of_nat (size (Room.Players rm)) -> ~ all_ready w rm ->
      StartGame range_ready now room w
      = Some (w, [], Some (NotAllPlayersReady (Room.Id rm))))
  /\ (2 <= Z.of_nat (size (Room.Players rm)) -> all_ready w rm ->
      exists h' order snapshot,
        StartGame range_ready now room w
        = ('(w2, e2) ←
             StartWaitingPhase now room
               (set_room (set_players w h') room
                  (Room.with_PlayerOrder
                     (Room.with_CorrectGuessers (with_new_game rm) []) order));
           Some (w2,
                 (Eff <$> e2)
                 ++ [Write (ToRoom room) "game_started"
                       (GameStartedData (Room.Id rm) (Z.of_nat (length order)) snapshot)],
                 None))
        /\ (forall k a, Room.Players rm !! k = Some a ->
              exists p, player_store w !! a = Some p
                        /\ h' !! a = Some (Player.with_HasGuessed p false))
        /\ (forall b, (forall k, Room.Players rm !! k <> Some b) ->
                      h' !! b = player_store w !! b)
        /\ (forall id, id ∈ order <->
              Room.PlayersReady rm !! id = Some true
              /\ exists a p, Room.Players rm !! id = Some a /\ player_store w !! a = Some p
                             /\ Player.IsConnected p = true)
        /\ length snapshot = size (Room.Players rm)).
Proof.
  intros Hperm Hrm Halloc. unfold StartGame. rewrite Hrm. cbn [mbind option_bind].
  unfold MinPlayersToStart.
  destruct (AreAllPlayersReady_spec w rm Halloc) as (b & Hb & Hiff). rewrite Hb.
  cbn [mbind option_bind].
  split; [|split].
  - intros Hfew. by destruct (Z.ltb_spec (Z.of_nat (size (Room.Players rm))) 2); [|lia].
  - intros Hsize Hnot. destruct (Z.ltb_spec (Z.of_nat (size (Room.Players rm))) 2); [lia|].
    destruct b; [|reflexivity]. by destruct Hnot; apply Hiff.
  - intros Hsize Hready.
    destruct (Z.ltb_spec (Z.of_nat (size (Room.Players rm))) 2); [lia|].
    replace b with true by (symmetry; by apply Hiff). cbn [negb].
    set (w0 := set_room w room (with_new_game rm)).
    destruct (ResetPlayerGuessState_spec room w0 (with_new_game rm))
      as (h' & Hreset & Hin & Hout).
    { unfold w0, set_room. cbn [room_store]. apply lookup_insert_eq. }
    { exact Halloc. }
    change (player_store w0) with (player_store w) in Hin, Hout.
    change (Room.Players (with_new_game rm)) with (Room.Players rm) in Hin, Hout.
    rewrite Hreset. cbn [mbind option_bind].
    set (rm1 := Room.with_CorrectGuessers (with_new_game rm) []).
    assert (Hw1 : set_room (set_players w0 h') room rm1 = set_room (set_players w h') room rm1).
    { unfold w0, set_room, set_players. cbn [Rooms room_store player_store].
      by rewrite insert_insert_eq. }
    rewrite Hw1. clear Hw1.
    set (w1 := set_room (set_players w h') room rm1).
    assert (Hlk : room_store w1 !! room = Some rm1).
    { unfold w1, set_room. cbn [room_store]. apply lookup_insert_eq. }
    rewrite Hlk. cbn [mbind option_bind].
    change (Room.Players (Room.with_PlayerOrder rm1 (ready_order range_ready w1 rm1)))
      with (Room.Players rm).
    change (Room.PlayerOrder (Room.with_PlayerOrder rm1 (ready_order range_ready w1 rm1)))
      with (ready_order range_ready w1 rm1).
    change (Room.Id (Room.with_PlayerOrder rm1 (ready_order range_ready w1 rm1)))
      with (Room.Id rm).
    destruct (mapM_is_Some_2
                (fun ka : string * ptr =>
                   (fun p => (Player.Id p, Player.Username p, Player.Score p))
                     <$> player_store w1 !! ka.2)
                (range_players (Room.Players rm))) as [snapshot Hsnap].
    { apply Forall_forall. intros [k a] Hka. apply range_players_elem in Hka.
      destruct (Hin k a Hka) as (p & _ & Hp'). simpl. apply fmap_is_Some.
      change (player_store w1) with h'. eauto. }
    rewrite Hsnap. cbn [mbind option_bind].
    exists h', (ready_order range_ready w1 rm1), snapshot.
    assert (Hs : forall x, set_room w1 room x = set_room (set_players w h') room x).
    { intros x. unfold w1. apply set_room_set_room. }
    split; [by rewrite Hs|]. split; [exact Hin|]. split; [exact Hout|]. split.
    + intros id. unfold ready_order. rewrite list_elem_of_omap. split.
      * intros ([k r] & Hkr & Hf). rewrite Hperm in Hkr.
        apply elem_of_map_to_list in Hkr. cbn [fst snd] in Hf.
        change (Room.Players rm1) with (Room.Players rm) in Hf.
        change (Room.PlayersReady rm1) with (Room.PlayersReady rm) in Hkr.
        change (player_store w1) with h' in Hf.
        destruct (Room.Players rm !! k) as [a|] eqn:Hk; [|discriminate].
        cbn [mbind option_bind] in Hf.
        destruct (Hin k a Hk) as (p & Hp & Hp'). rewrite Hp' in Hf.
        change (Player.IsConnected (Player.with_HasGuessed p false))
          with (Player.IsConnected p) in Hf.
        destruct (Player.IsConnected p) eqn:Hconn; [|discriminate].
        destruct r; [|discriminate]. injection Hf as <-. eauto 10.
      * intros (Hr & a & p & Hk & Hp & Hconn). exists (id, true). split.
        { rewrite Hperm. by apply elem_of_map_to_list. }
        cbn [fst snd]. change (Room.Players rm1) with (Room.Players rm).
        rewrite Hk. cbn [mbind option_bind]. change (player_store w1) with h'.
        destruct (Hin id a Hk) as (p0 & Hp0 & Hp'). rewrite Hp'.
        replace p0 with p by congruence.
        change (Player.IsConnected (Player.with_HasGuessed p false))
          with (Player.IsConnected p). by rewrite Hconn.
    + apply length_mapM in Hsnap. rewrite <- Hsnap. apply range_players_length.
Qed.

(** X27.  After [UpdateDrawingPermissions] a player of the room may draw
    exactly when the room is in the drawing phase and the player is its
    current drawer; no other field of a player changes and the players
    outside the room, other than the drawer, are untouched.  The
    [drawing_permission_updated] message names the drawer, or nobody
    outside the drawing phase. *)
Theorem X27_only_drawer_may_draw (room : rptr) (w : World) (rm : Room.t) :
  room_store w !! room = Some rm -> players_allocated w rm ->
  exists h' id,
    UpdateDrawingPermissions room w
    = Some (set_players w h',
            [GoWrite (ToRoom room) "drawing_permission_updated"
               (DrawingPermissionData (Room.Id rm) id)])
    /\ (forall k a, Room.Players rm !! k = Some a ->
          exists p, player_store w !! a = Some p
                    /\ h' !! a
                       = Some (Player.with_CanDraw p
                                 (bool_decide (Room.Phase rm = PhaseDrawing
                                               /\ Room.Current rm = Some a))))
    /\ (forall b, (forall k, Room.Players rm !! k <> Some b) ->
                  Room.Phase rm <> PhaseDrawing \/ Room.Current rm <> Some b ->
                  h' !! b = player_store w !! b)
    /\ (id = match current_drawer w rm with
             | Some (_, cp) => if decide (Room.Phase rm = PhaseDrawing)
                               then Player.Id cp else ""
             | None => ""
             end).
Proof.
  intros Hrm Halloc. unfold UpdateDrawingPermissions. rewrite Hrm. cbn [mbind option_bind].
  destruct (update_all_spec (fun p => Player.with_CanDraw p false)
              ((range_players (Room.Players rm)).*2) (player_store w))
    as (h & Hh & Hlook).
  { by intros []. }
  { intros a Ha. apply range_players_addrs in Ha as [k Hk]. by apply (Halloc k a). }
  unfold update_all in Hh. rewrite Hh. cbn [mbind option_bind].
  assert (Hin : forall k a, Room.Players rm !! k = Some a ->
            exists p, player_store w !! a = Some p
                      /\ h !! a = Some (Player.with_CanDraw p false)).
  { intros k a Hk. destruct (Halloc k a Hk) as [p Hp]. exists p. split; [done|].
    rewrite Hlook, Hp. rewrite decide_True; [done|]. apply range_players_addrs. eauto. }
  assert (Hout : forall b, (forall k, Room.Players rm !! k <> Some b) ->
                           h !! b = player_store w !! b).
  { intros b Hb. rewrite Hlook. rewrite decide_False; [done|].
    intros Hi. apply range_players_addrs in Hi as [k Hk]. by apply (Hb k). }
  assert (Hdom : forall c, is_Some (h !! c) <-> is_Some (player_store w !! c)).
  { intros c. rewrite Hlook. destruct (decide _); [|done]. by rewrite fmap_is_Some. }
  assert (Hid : forall c cp, h !! c = Some cp ->
            exists cp0, player_store w !! c = Some cp0 /\ Player.Id cp = Player.Id cp0).
  { intros c cp Hc. rewrite Hlook in Hc. destruct (decide _).
    - apply fmap_Some in Hc as (cp0 & Hcp0 & ->). eauto.
    - eauto. }
  do 2 eexists. split; [reflexivity|].
  destruct (decide (Room.Phase rm = PhaseDrawing)) as [Hph|Hph].
  - unfold current_drawer.
    destruct (Room.Current rm) as [c|] eqn:Hc; cbn [mbind option_bind].
    + destruct (h !! c) as [cp|] eqn:Hcp; cbn [fmap option_fmap option_map].
      * destruct (Hid c cp Hcp) as (cp0 & Hcp0 & Hids). rewrite Hcp0.
        cbn [fmap option_fmap option_map]. split; [|split; [|done]].
        -- intros k a Hk. destruct (Hin k a Hk) as (p & Hp & Hp'). exists p.
           split; [done|]. destruct (decide (a = c)) as [->|Hne].
           ++ rewrite lookup_insert_eq. rewrite bool_decide_eq_true_2 by done.
              replace cp with (Player.with_CanDraw p false) by congruence. done.
           ++ rewrite lookup_insert_ne by done. rewrite Hp'.
              rewrite bool_decide_eq_false_2; [done|]. intros [_ [= ->]]. done.
        -- intros b Hb [Hn|Hn]; [contradiction|].
           rewrite lookup_insert_ne by congruence. by apply Hout.
      * assert (player_store w !! c = None) as ->.
        { apply eq_None_not_Some. rewrite <- Hdom, Hcp. by intros [? ?]. }
        cbn [fmap option_fmap option_map]. split; [|split; [|done]].
        -- intros k a Hk. destruct (Hin k a Hk) as (p & Hp & Hp'). exists p.
           split; [done|]. rewrite Hp'. rewrite bool_decide_eq_false_2; [done|].
           intros [_ [= ->]]. congruence.
        -- intros b Hb _. by apply Hout.
    + split; [|split; [|done]].
      * intros k a Hk. destruct (Hin k a Hk) as (p & Hp & Hp'). exists p.
        split; [done|]. rewrite Hp'. rewrite bool_decide_eq_false_2; [done|].
        by intros [_ ?].
      * intros b Hb _. by apply Hout.
  - split; [|split].
    + intros k a Hk. destruct (Hin k a Hk) as (p & Hp & Hp'). exists p.
      split; [done|]. rewrite Hp'. rewrite bool_decide_eq_false_2; [done|].
      by intros [? _].
    + intros b Hb _. by apply Hout.
    + by destruct (current_drawer w rm) as [[? ?]|].
Qed.

End StartGameFacts.

(** The two players of the examples, both ready, in the lobby. *)
Lemma X26_start_game_witness :
  (Z.of_nat (size two_players) < 2 ->
   StartGame map_to_list t_now 1 w_ready
   = Some (w_ready, [], Some (NotEnoughPlayers (Z.of_nat (size two_players)) 2)))
  /\ (2 <= Z.of_nat (size two_players) -> ~ all_ready w_ready ready_lobby ->
      StartGame map_to_list t_now 1 w_ready
      = Some (w_ready, [], Some (NotAllPlayersReady "R1")))
  /\ (2 <= Z.of_nat (size two_players) -> all_ready w_ready ready_lobby ->
      exists h' order snapshot,
        StartGame map_to_list t_now 1 w_ready
        = ('(w2, e2) ←
             StartWaitingPhase t_now 1
               (set_room (set_players w_ready h') 1
                  (Room.with_PlayerOrder
                     (Room.with_CorrectGuessers (with_new_game ready_lobby) []) order));
           Some (w2,
                 (Eff <$> e2)
                 ++ [Write (ToRoom 1) "game_started"
                       (GameStartedData "R1" (Z.of_nat (length order)) snapshot)],
                 None))
        /\ (forall k a, two_players !! k = Some a ->
              exists p, player_store w_ready !! a = Some p
                        /\ h' !! a = Some (Player.with_HasGuessed p false))
        /\ (forall b, (forall k, two_players !! k <> Some b) ->
                      h' !! b = player_store w_ready !! b)
        /\ (forall id, id ∈ order <->
              Room.PlayersReady ready_lobby !! id = Some true
              /\ exists a p, two_players !! id = Some a /\ player_store w_ready !! a = Some p
                             /\ Player.IsConnected p = true)
        /\ length snapshot = size two_players).
Proof.
  apply (X26_start_game map_to_list t_now 1 w_ready ready_lobby).
  - reflexivity.
  - reflexivity.
  - apply (example_players ready_lobby false eq_refl).
Defined.

(** The room of the examples in the drawing phase. *)
Lemma X27_only_drawer_may_draw_witness :
  exists h' id,
    UpdateDrawingPermissions 1 w_drawing
    = Some (set_players w_drawing h',
            [GoWrite (ToRoom 1) "drawing_permission_updated"
               (DrawingPermissionData "R1" id)])
    /\ (forall k a, two_players !! k = Some a ->
          exists p, player_store w_drawing !! a = Some p
                    /\ h' !! a
                       = Some (Player.with_CanDraw p
                                 (bool_decide (PhaseDrawing = PhaseDrawing
                                               /\ Some 1%positive = Some a))))
    /\ (forall b, (forall k, two_players !! k <> Some b) ->
                  PhaseDrawing <> PhaseDrawing \/ Some 1%positive <> Some b ->
                  h' !! b = player_store w_drawing !! b)
    /\ (id = match current_drawer w_drawing
                     (room_of PhaseDrawing "cat" [] [a_pixel 3 4] DrawingPhaseDuration) with
             | Some (_, cp) => if decide (PhaseDrawing = PhaseDrawing)
                               then Player.Id cp else ""
             | None => ""
             end).
Proof.
  apply (X27_only_drawer_may_draw 1 w_drawing
           (room_of PhaseDrawing "cat" [] [a_pixel 3 4] DrawingPhaseDuration) eq_refl).
  apply (example_players
           (room_of PhaseDrawing "cat" [] [a_pixel 3 4] DrawingPhaseDuration) true eq_refl).
Defined.

Import ResultExamples.

(** ** Final results *)

Lemma insert_by_perm {A} (cmp : A -> A -> Z) (x : A) (l : list A) :
  insert_by cmp x l ≡ₚ x :: l.
Proof.
  induction l as [|y l IH]; [reflexivity|]. simpl.
  destruct (cmp x y <=? 0); [reflexivity|]. rewrite IH. apply Permutation_swap.
Qed.

Lemma insertion_sort_perm {A} (cmp : A -> A -> Z) (l : list A) :
  insertion_sort cmp l ≡ₚ l.
Proof.
  induction l as [|x l IH]; [reflexivity|].
  unfold insertion_sort in *. simpl. by rewrite insert_by_perm, IH.
Qed.

Lemma insertion_sort_sorted {A} (cmp : A -> A -> Z) (l : list A) :
  sortable cmp l -> StronglySorted (fun a b => cmp a b <= 0) (insertion_sort cmp l).
Proof.
  intros [Htotal Htrans].
  assert (Hins : forall x s,
            x ∈ l -> (forall y, y ∈ s -> y ∈ l) ->
            StronglySorted (fun a b => cmp a b <= 0) s ->
            StronglySorted (fun a b => cmp a b <= 0) (insert_by cmp x s)).
  { intros x s Hx. induction s as [|y s IH]; intros Hs Hsorted.
    { simpl. repeat constructor. }
    simpl. apply StronglySorted_inv in Hsorted as [Hsorted Hy].
    destruct (Z.leb_spec (cmp x y) 0) as [Hxy|Hxy].
    - constructor; [by constructor|]. constructor; [done|].
      rewrite Forall_forall in Hy |- *. intros z Hz.
      apply (Htrans x y z); [done|apply Hs; left|apply Hs; by right|done|by apply Hy].
    - constructor; [apply IH; [intros z Hz; apply Hs; by right|done]|].
      rewrite Forall_forall in Hy |- *. intros z Hz.
      rewrite insert_by_perm in Hz. apply elem_of_cons in Hz as [->|Hz]; [|by apply Hy].
      destruct (Htotal x y); [done|apply Hs; left|lia|done]. }
  assert (Hsub : forall s, (forall y, y ∈ s -> y ∈ l) ->
            StronglySorted (fun a b => cmp a b <= 0) (insertion_sort cmp s)).
  { induction s as [|x s IH]; intros Hs; [constructor|].
    unfold insertion_sort in *. simpl. apply Hins.
    - apply Hs. left.
    - intros y Hy. apply Hs. right.
      change (foldr (insert_by cmp) [] s) with (insertion_sort cmp s) in Hy.
      by rewrite insertion_sort_perm in Hy.
    - apply IH. intros y Hy. apply Hs. by right. }
  by apply Hsub.
Qed.

Lemma StronglySorted_imap {A} (R : relation A) (f : nat -> A -> A) (l : list A) :
  (forall i j x y, R x y -> R (f i x) (f j y)) ->
  StronglySorted R l -> StronglySorted R (imap f l).
Proof.
  intros Hf. revert f Hf. induction l as [|x l IH]; intros f Hf Hs; [constructor|].
  apply StronglySorted_inv in Hs as [Hs Hx]. simpl. constructor.
  - apply IH; [|done]. intros i j. apply Hf.
  - rewrite Forall_forall in Hx |- *. intros y Hy.
    apply elem_of_lookup_imap_1 in Hy as (i & z & -> & Hz).
    apply Hf, Hx. by apply list_elem_of_lookup_2 in Hz.
Qed.

Lemma foldl_faster (best : GameResultData.t) (guesses : list PlayerGuess.t) :
  let r := foldl faster best guesses in
  GameResultData.TimeToGuess r <= GameResultData.TimeToGuess best
  /\ (forall g, g ∈ guesses -> GameResultData.TimeToGuess r <= PlayerGuess.GuessTime g)
  /\ (r = best
      \/ exists g, g ∈ guesses
           /\ GameResultData.PlayerID r = PlayerGuess.PlayerID g
           /\ GameResultData.Username r = PlayerGuess.Username g
           /\ GameResultData.TimeToGuess r = PlayerGuess.GuessTime g).
Proof.
  revert best. induction guesses as [|g l IH]; intros best; simpl.
  { split; [lia|]. split; [|by left]. intros g Hg. by apply elem_of_nil in Hg. }
  destruct (IH (faster best g)) as (Hle & Hall & Hfrom).
  assert (Hstep : GameResultData.TimeToGuess (faster best g) <= GameResultData.TimeToGuess best
                  /\ GameResultData.TimeToGuess (faster best g) <= PlayerGuess.GuessTime g).
  { unfold faster. destruct (Z.ltb_spec (PlayerGuess.GuessTime g)
                               (GameResultData.TimeToGuess best)); simpl; lia. }
  split; [lia|]. split.
  - intros g' Hg'. apply elem_of_cons in Hg' as [->|Hg']; [lia|by apply Hall].
  - destruct Hfrom as [Heq|(g' & Hg' & Hm)].
    + rewrite Heq. unfold faster.
      destruct (Z.ltb_spec (PlayerGuess.GuessTime g) (GameResultData.TimeToGuess best));
        [|by left].
      right. exists g. split; [left|done].
    + right. exists g'. split; [by right|done].
Qed.

Lemma fastest_guess_spec (rm : Room.t) :
  match fastest_guess (Room.RoundStats rm) with
  | None => forall g, g ∈ recorded_guesses rm -> MaxInt64 <= PlayerGuess.GuessTime g
  | Some f =>
      GameResultData.TimeToGuess f < MaxInt64
      /\ (exists g, g ∈ recorded_guesses rm
            /\ GameResultData.PlayerID f = PlayerGuess.PlayerID g
            /\ GameResultData.Username f = PlayerGuess.Username g
            /\ GameResultData.TimeToGuess f = PlayerGuess.GuessTime g)
      /\ forall g, g ∈ recorded_guesses rm ->
                   GameResultData.TimeToGuess f <= PlayerGuess.GuessTime g
  end.
Proof.
  unfold fastest_guess, recorded_guesses.
  set (init := GameResultData.mk "" "" false 0 0 MaxInt64).
  assert (Hflat : forall stats best,
            foldl (fun best stat => foldl faster best (RoundStats.CorrectGuesses stat))
                  best stats
            = foldl faster best (concat (RoundStats.CorrectGuesses <$> stats))).
  { induction stats as [|s stats IH]; intros best; [reflexivity|].
    simpl. by rewrite foldl_app, IH. }
  rewrite Hflat.
  destruct (foldl_faster init (concat (RoundStats.CorrectGuesses <$> Room.RoundStats rm)))
    as (Hle & Hall & Hfrom).
  change (GameResultData.TimeToGuess init) with MaxInt64 in Hle.
  destruct (Z.eqb_spec
              (GameResultData.TimeToGuess
                 (foldl faster init
                    (concat (RoundStats.CorrectGuesses <$> Room.RoundStats rm))))
              MaxInt64) as [Heq|Hne].
  - intros g Hg. rewrite <- Heq. by apply Hall.
  - split; [lia|]. split; [|exact Hall].
    destruct Hfrom as [Heq|Hg]; [|exact Hg]. by rewrite Heq in Hne.
Qed.

Section ResultFacts.
Context `{GoRuntime}.

(** X28.  [CalculateFinalResults], for any sort that returns a permutation
    of its input ordered by the comparison, and for scores that are far
    from the overflow of their difference: the leaderboard has one entry
    for each player of the room, with the identifier, name and score of
    the player; it is in the order of decreasing score and the entry at
    index [i] has position [i + 1]; the MVP is the first entry, and there is
    none only in a room without players; the fastest guess is a recorded
    guess of least time, and there is none only when no guess below
    [MaxInt64] is recorded; the rounds played are the round number and the
    total is the number of players. *)
Theorem X28_final_results
    (SortFunc : (GameResultData.t -> GameResultData.t -> Z)
                -> list GameResultData.t -> list GameResultData.t)
    (room : rptr) (w : World) (rm : Room.t) :
  (forall cmp l, SortFunc cmp l ≡ₚ l) ->
  (forall cmp l, sortable cmp l ->
                 StronglySorted (fun a b => cmp a b <= 0) (SortFunc cmp l)) ->
  room_store w !! room = Some rm -> players_allocated w rm ->
  (forall k a p, Room.Players rm !! k = Some a -> player_store w !! a = Some p ->
                 - 2 ^ 62 <= Player.Score p < 2 ^ 62) ->
  exists results,
    CalculateFinalResults SortFunc room w = Some results
    /\ length (FinalResults.Leaderboard results) = size (Room.Players rm)
    /\ (forall id name score,
          (exists e, e ∈ FinalResults.Leaderboard results
                     /\ GameResultData.PlayerID e = id /\ GameResultData.Username e = name
                     /\ GameResultData.Score e = score)
          <-> exists k a p, Room.Players rm !! k = Some a /\ player_store w !! a = Some p
                            /\ Player.Id p = id /\ Player.Username p = name
                            /\ Player.Score p = score)
    /\ StronglySorted (fun a b => GameResultData.Score b <= GameResultData.Score a)
         (FinalResults.Leaderboard results)
    /\ (forall i e, FinalResults.Leaderboard results !! i = Some e ->
                    GameResultData.Position e = Z.of_nat i + 1)
    /\ FinalResults.MVP results = head (FinalResults.Leaderboard results)
    /\ (FinalResults.MVP results = None <-> Room.Players rm = ∅)
    /\ match FinalResults.FastestGuess results with
       | None => forall g, g ∈ recorded_guesses rm -> MaxInt64 <= PlayerGuess.GuessTime g
       | Some f =>
           GameResultData.TimeToGuess f < MaxInt64
           /\ (exists g, g ∈ recorded_guesses rm
                 /\ GameResultData.PlayerID f = PlayerGuess.PlayerID g
                 /\ GameResultData.Username f = PlayerGuess.Username g
                 /\ GameResultData.TimeToGuess f = PlayerGuess.GuessTime g)
           /\ forall g, g ∈ recorded_guesses rm ->
                        GameResultData.TimeToGuess f <= PlayerGuess.GuessTime g
       end
    /\ FinalResults.RoundsPlayed results = Room.RoundNumber rm
    /\ FinalResults.TotalPlayers results = Z.of_nat (size (Room.Players rm)).
Proof.
  intros Hperm Hsorted Hrm Halloc Hscores.
  unfold CalculateFinalResults. rewrite Hrm. cbn [mbind option_bind].
  set (entry := fun player : Player.t =>
                  GameResultData.mk (Player.Id player) (Player.Username player) false
                    (Player.Score player) 0 0).
  destruct (mapM_is_Some_2 (fun ka : string * ptr => player_store w !! ka.2)
              (range_players (Room.Players rm))) as [ps Hps].
  { apply Forall_forall. intros [k a] Hin. apply range_players_elem in Hin.
    simpl. by apply (Halloc k a). }
  assert (Hdata : mapM (fun ka : string * ptr => entry <$> player_store w !! ka.2)
                       (range_players (Room.Players rm)) = Some (entry <$> ps)).
  { apply mapM_Some_2. apply mapM_Some_1 in Hps. apply Forall2_fmap_r.
    eapply Forall2_impl; [exact Hps|]. intros [k a] p Hp. simpl in *. by rewrite Hp. }
  rewrite Hdata. cbn [mbind option_bind].
  set (sorted := SortFunc by_score_descending (entry <$> ps)).
  pose proof (range_players_values w rm ps Hps) as Hvalues.
  assert (Hlen : length ps = size (Room.Players rm)).
  { apply length_mapM in Hps. rewrite <- Hps. apply range_players_length. }
  assert (Hentries : forall e, e ∈ sorted <-> exists p, p ∈ ps /\ e = entry p).
  { intros e. unfold sorted. rewrite Hperm, list_elem_of_fmap. split.
    - intros (p & -> & Hp). eauto.
    - intros (p & Hp & ->). eauto. }
  assert (Hbound : forall e, e ∈ sorted ->
                             - 2 ^ 62 <= GameResultData.Score e < 2 ^ 62).
  { intros e He. apply Hentries in He as (p & Hp & ->).
    apply Hvalues in Hp as (k & a & Hk & Ha). simpl. by apply (Hscores k a p). }
  assert (Hcmp : forall a b, a ∈ entry <$> ps -> b ∈ entry <$> ps ->
            by_score_descending a b = GameResultData.Score b - GameResultData.Score a).
  { intros a b Ha Hb. unfold by_score_descending, int_sub.
    assert (- 2 ^ 62 <= GameResultData.Score a < 2 ^ 62)
      by (apply Hbound; unfold sorted; by rewrite Hperm).
    assert (- 2 ^ 62 <= GameResultData.Score b < 2 ^ 62)
      by (apply Hbound; unfold sorted; by rewrite Hperm).
    rewrite Z.mod_small; lia. }
  assert (Hsort : StronglySorted
                    (fun a b => GameResultData.Score b <= GameResultData.Score a) sorted).
  { assert (Hs : StronglySorted (fun a b => by_score_descending a b <= 0) sorted).
    { apply Hsorted. split.
      - intros a b Ha Hb. rewrite (Hcmp a b Ha Hb), (Hcmp b a Hb Ha). lia.
      - intros a b c Ha Hb Hc. rewrite (Hcmp a b Ha Hb), (Hcmp b c Hb Hc), (Hcmp a c Ha Hc).
        lia. }
    assert (Hmem : forall a, a ∈ sorted -> a ∈ entry <$> ps).
    { intros a Ha. unfold sorted in Ha. by rewrite Hperm in Ha. }
    clear -Hs Hmem Hcmp. induction Hs as [|a l Hs IH Ha]; [constructor|].
    constructor.
    - apply IH. intros b Hb. apply Hmem. by right.
    - rewrite Forall_forall in Ha |- *. intros b Hb. specialize (Ha b Hb).
      rewrite Hcmp in Ha; [lia|apply Hmem; left|apply Hmem; by right]. }
  eexists. split; [reflexivity|]. cbn [FinalResults.Leaderboard FinalResults.MVP
    FinalResults.FastestGuess FinalResults.RoundsPlayed FinalResults.TotalPlayers].
  assert (Hlen' : length (assign_positions sorted) = size (Room.Players rm)).
  { unfold assign_positions. rewrite length_imap. unfold sorted.
    rewrite Hperm, length_fmap. exact Hlen. }
  split; [exact Hlen'|]. split; [|split; [|split; [|split; [|split; [|split; [|split]]]]]].
  - intros id name score. split.
    + intros (e & He & <- & <- & <-). unfold assign_positions in He.
      apply elem_of_lookup_imap_1 in He as (i & e0 & -> & He0).
      apply list_elem_of_lookup_2, Hentries in He0 as (p & Hp & ->).
      apply Hvalues in Hp as (k & a & Hk & Ha). exists k, a, p. done.
    + intros (k & a & p & Hk & Ha & <- & <- & <-).
      assert (Hp : entry p ∈ sorted) by (apply Hentries; exists p; split; [|done];
                                          apply Hvalues; eauto).
      apply list_elem_of_lookup in Hp as [i Hi].
      exists (with_Position (entry p) (Z.of_nat i + 1)). split; [|done].
      unfold assign_positions.
      apply (elem_of_lookup_imap_2 (fun idx e => with_Position e (Z.of_nat idx + 1))
               sorted (entry p) i Hi).
  - unfold assign_positions. apply StronglySorted_imap; [|exact Hsort]. by intros.
  - intros i e He. unfold assign_positions in He.
    apply list_lookup_imap_Some in He as (e0 & _ & ->). reflexivity.
  - reflexivity.
  - split.
    + intros Hnone. apply map_size_empty_inv. rewrite <- Hlen'.
      by destruct (assign_positions sorted).
    + intros Hempty. rewrite Hempty, map_size_empty in Hlen'.
      by destruct (assign_positions sorted).
  - apply fastest_guess_spec.
  - reflexivity.
  - reflexivity.
Qed.

End ResultFacts.

(** The room of the examples when the guesser has 150 points and the
    drawer 50, with one round on record. *)
Lemma X28_final_results_witness :
  exists results,
    CalculateFinalResults insertion_sort 1 w_scored = Some results
    /\ length (FinalResults.Leaderboard results) = size two_players
    /\ (forall id name score,
          (exists e, e ∈ FinalResults.Leaderboard results
                     /\ GameResultData.PlayerID e = id /\ GameResultData.Username e = name
                     /\ GameResultData.Score e = score)
          <-> exists k a p, two_players !! k = Some a /\ player_store w_scored !! a = Some p
                            /\ Player.Id p = id /\ Player.Username p = name
                            /\ Player.Score p = score)
    /\ StronglySorted (fun a b => GameResultData.Score b <= GameResultData.Score a)
         (FinalResults.Leaderboard results)
    /\ (forall i e, FinalResults.Leaderboard results !! i = Some e ->
                    GameResultData.Position e = Z.of_nat i + 1)
    /\ FinalResults.MVP results = head (FinalResults.Leaderboard results)
    /\ (FinalResults.MVP results = None <-> two_players = ∅)
    /\ match FinalResults.FastestGuess results with
       | None => forall g, g ∈ recorded_guesses scored_room ->
                           MaxInt64 <= PlayerGuess.GuessTime g
       | Some f =>
           GameResultData.TimeToGuess f < MaxInt64
           /\ (exists g, g ∈ recorded_guesses scored_room
                 /\ GameResultData.PlayerID f = PlayerGuess.PlayerID g
                 /\ GameResultData.Username f = PlayerGuess.Username g
                 /\ GameResultData.TimeToGuess f = PlayerGuess.GuessTime g)
           /\ forall g, g ∈ recorded_guesses scored_room ->
                        GameResultData.TimeToGuess f <= PlayerGuess.GuessTime g
       end
    /\ FinalResults.RoundsPlayed results = 2
    /\ FinalResults.TotalPlayers results = Z.of_nat (size two_players).
Proof.
  apply (X28_final_results insertion_sort 1 w_scored scored_room).
  - intros cmp l. apply insertion_sort_perm.
  - intros cmp l. apply insertion_sort_sorted.
  - reflexivity.
  - intros k a Hk. unfold scored_room in Hk. simpl in Hk. unfold two_players in Hk.
    apply lookup_insert_Some in Hk as [[<- <-]|[_ Hk]]; [by eexists|].
    apply lookup_insert_Some in Hk as [[<- <-]|[_ Hk]]; [by eexists|].
    by rewrite lookup_empty in Hk.
  - intros k a p Hk Hp. unfold scored_room in Hk. simpl in Hk. unfold two_players in Hk.
    apply lookup_insert_Some in Hk as [[<- <-]|[_ Hk]];
      [vm_compute in Hp; injection Hp as <-; vm_compute; split; [discriminate|reflexivity]|].
    apply lookup_insert_Some in Hk as [[<- <-]|[_ Hk]];
      [vm_compute in Hp; injection Hp as <-; vm_compute; split; [discriminate|reflexivity]|].
    by rewrite lookup_empty in Hk.
Defined.

(** ** The end of a round and of a game *)

Section ClosingFacts.
Context `{GoRuntime}.

(** X29.  [EndGame], [StartRevealingPhase] and [ResetRoomToLobby] do not
    return on a room whose lock is free: each takes the lock and, while it
    holds it, calls [CancelPhaseTimer], which waits for the same lock.  The
    room is left locked; [EndGame] and [StartRevealingPhase] have set the
    phase by then, and nothing else has happened: no timer is cancelled or
    started, no round statistics are recorded, and none of [game_ended],
    [round_end] and [lobby_reset] is sent. *)
Theorem X29_lock_held_over_cancel
    (SortFunc : (GameResultData.t -> GameResultData.t -> Z)
                -> list GameResultData.t -> list GameResultData.t)
    (now : Time) (room : rptr) (held : gset rptr) (w : World) (rm : Room.t) :
  room_store w !! room = Some rm -> room ∉ held ->
  EndGame SortFunc now room held w
  = Blocks (set_room w room (Room.with_Phase rm PhaseEnded)) ({[room]} ∪ held)
  /\ StartRevealingPhase now room held w
     = Blocks (set_room w room (Room.with_Phase rm PhaseRevealing)) ({[room]} ∪ held)
  /\ ResetRoomToLobby now room held w = Blocks w ({[room]} ∪ held).
Proof.
  intros Hrm Hfree.
  assert (Hcancel : forall v, is_Some (room_store v !! room) ->
            CancelPhaseTimer_locking room ({[room]} ∪ held) v
            = Blocks v ({[room]} ∪ held)).
  { intros v [rmv Hv]. unfold CancelPhaseTimer_locking. rewrite Hv.
    destruct (decide (room ∈ {[room]} ∪ held)) as [|Hn]; [reflexivity|].
    destruct Hn. apply elem_of_union_l, elem_of_singleton. reflexivity. }
  assert (Hset : forall x, is_Some (room_store (set_room w room x) !! room)).
  { intros x. unfold set_room. cbn [room_store]. rewrite lookup_insert_eq. eauto. }
  unfold EndGame, StartRevealingPhase, ResetRoomToLobby. rewrite Hrm.
  destruct (decide (room ∈ held)); [contradiction|].
  rewrite !Hcancel by (apply Hset || eauto). done.
Qed.

End ClosingFacts.

(** The drawing room of the examples, with no lock held. *)
Lemma X29_lock_held_over_cancel_witness :
  let rm := room_of PhaseDrawing "cat" [] [a_pixel 3 4] DrawingPhaseDuration in
  EndGame insertion_sort t_now 1 ∅ w_drawing
  = Blocks (set_room w_drawing 1 (Room.with_Phase rm PhaseEnded)) ({[1%positive]} ∪ ∅)
  /\ StartRevealingPhase t_now 1 ∅ w_drawing
     = Blocks (set_room w_drawing 1 (Room.with_Phase rm PhaseRevealing)) ({[1%positive]} ∪ ∅)
  /\ ResetRoomToLobby t_now 1 ∅ w_drawing = Blocks w_drawing ({[1%positive]} ∪ ∅).
Proof.
  apply (X29_lock_held_over_cancel insertion_sort t_now 1 ∅ w_drawing
           (room_of PhaseDrawing "cat" [] [a_pixel 3 4] DrawingPhaseDuration) eq_refl).
  apply not_elem_of_empty.
Defined.

(** ** The methods of a room *)

Section RoomMethodFacts.
Context `{GoRuntime}.

Lemma GetPlayerCount_loop (w : World) (l : list (string * ptr)) (ps : list Player.t)
    (count : Z) :
  Forall2 (fun (ka : string * ptr) p => player_store w !! ka.2 = Some p) l ps ->
  0 <= count -> count + Z.of_nat (length l) < 2 ^ 63 ->
  foldl (fun acc (ka : string * ptr) =>
           count ← acc; p ← player_store w !! ka.2;
           Some (if Player.IsConnected p then int_add count 1 else count))
        (Some count) l
  = Some (count + Z.of_nat (length (filter (fun p => Player.IsConnected p = true) ps))).
Proof.
  intros Hl. revert count. induction Hl as [|ka p l ps Hp Hl IH]; intros count Hc Hb.
  { simpl. f_equal. lia. }
  cbn [foldl]. cbn [mbind option_bind]. rewrite Hp. cbn [mbind option_bind].
  simpl length in Hb.
  destruct (Player.IsConnected p) eqn:Hconn.
  - rewrite filter_cons_True by done. rewrite int_add_small by lia.
    rewrite IH by lia. f_equal. simpl length. lia.
  - rewrite filter_cons_False by (rewrite Hconn; discriminate). apply IH; lia.
Qed.

(** X30.  The methods of [Room] agree with the round functions.
    [GetPlayerCount] is the length of the rotation that [UpdatePlayerOrder]
    builds, and [CanStartGame] holds when it is at least 2.  On the room
    that [UpdatePlayerOrder] leaves, [GetNextDrawerIndex] is [-1] exactly
    for an empty rotation and otherwise the index that [NextRound] moves
    to, and [GetPlayerByIndex] at that index is the drawer that [NextRound]
    appoints when it goes on to the waiting phase. *)
Theorem X30_room_methods_agree (room : rptr) (w : World) (rm : Room.t) :
  room_store w !! room = Some rm -> players_allocated w rm ->
  (forall c, Room.Current rm = Some c -> is_Some (player_store w !! c)) ->
  0 <= Room.CurrentIndex rm -> Z.of_nat (size (Room.Players rm)) < 2 ^ 63 - 1 ->
  exists order cur idx,
    let rm' := reordered rm order cur idx in
    UpdatePlayerOrder room w = Some (set_room w room rm')
    /\ GetPlayerCount w rm = Some (Z.of_nat (length order))
    /\ CanStartGame w rm = Some (2 <=? Z.of_nat (length order))
    /\ (order = [] <-> GetNextDrawerIndex rm' = -1)
    /\ (order <> [] ->
        0 <= GetNextDrawerIndex rm' < Z.of_nat (length order)
        /\ exists rm'' e,
             NextRound room w = Some (set_room w room rm'', e)
             /\ Room.CurrentIndex rm'' = GetNextDrawerIndex rm'
             /\ (e = [Go [CallStartWaitingPhase room]] ->
                 Room.Current rm'' = GetPlayerByIndex rm' (GetNextDrawerIndex rm'))).
Proof.
  intros Hrm Halloc Hcur Hci Hsize.
  destruct (mapM_is_Some_2 (fun ka : string * ptr => player_store w !! ka.2)
              (range_players (Room.Players rm))) as [ps Hps].
  { apply Forall_forall. intros [k a] Hin. apply range_players_elem in Hin.
    simpl. by apply (Halloc k a). }
  set (order := Player.Id <$> filter (fun p => Player.IsConnected p = true) ps).
  assert (Hlen : (length order <= size (Room.Players rm))%nat).
  { unfold order. rewrite length_fmap. etrans; [apply length_filter|].
    apply length_mapM in Hps. by rewrite <- Hps, range_players_length. }
  assert (HU : exists cur idx,
            UpdatePlayerOrder room w = Some (set_room w room (reordered rm order cur idx))
            /\ 0 <= idx
            /\ (idx = 0 \/ idx < Z.of_nat (length order))).
  { unfold UpdatePlayerOrder. rewrite Hrm. cbn [mbind option_bind]. rewrite Hps.
    cbn [mbind option_bind]. fold order.
    set (idx := if Z.of_nat (length order) <=? Room.CurrentIndex rm
                then 0 else Room.CurrentIndex rm).
    assert (Hidx : 0 <= idx /\ (idx = 0 \/ idx < Z.of_nat (length order))).
    { unfold idx. destruct (Z.leb_spec (Z.of_nat (length order)) (Room.CurrentIndex rm)); lia. }
    assert (Hsame : Room.with_CurrentIndex (Room.with_PlayerOrder rm order) idx
                    = reordered rm order (Room.Current rm) idx) by by destruct rm.
    change (Room.Current (Room.with_CurrentIndex (Room.with_PlayerOrder rm order) idx))
      with (Room.Current rm).
    destruct (Room.Current rm) as [c|] eqn:Hc.
    - destruct (Hcur c eq_refl) as [cp Hcp]. rewrite Hcp. cbn [mbind option_bind].
      destruct (decide (Player.Id cp ∈ order)).
      + exists (Some c), idx. by rewrite Hsame.
      + exists None, 0. split; [reflexivity|]. lia.
    - exists None, idx. by rewrite Hsame. }
  destruct HU as (cur & idx & HU & Hidx0 & Hidx).
  exists order, cur, idx. cbv zeta. split; [exact HU|].
  assert (Hcount : GetPlayerCount w rm = Some (Z.of_nat (length order))).
  { unfold GetPlayerCount.
    rewrite (GetPlayerCount_loop w _ ps 0 (mapM_Some_1 _ _ _ Hps)); [|lia|].
    - unfold order. by rewrite length_fmap.
    - rewrite range_players_length. lia. }
  split; [exact Hcount|]. split.
  { unfold CanStartGame. rewrite Hcount. reflexivity. }
  unfold GetNextDrawerIndex.
  change (Room.PlayerOrder (reordered rm order cur idx)) with order.
  change (Room.CurrentIndex (reordered rm order cur idx)) with idx.
  set (n := Z.of_nat (length order)) in *.
  assert (Hr : n <> 0 -> 0 <= Z.rem (int_add idx 1) n < n).
  { intros Hn. rewrite int_add_small by lia. apply Z.rem_bound_pos; lia. }
  split.
  { destruct (Z.eqb_spec n 0) as [Hn|Hn].
    - split; [done|]. intros _. destruct order; [done|]. unfold n in Hn. simpl in Hn. lia.
    - split; [intros ->; by destruct Hn|]. specialize (Hr Hn). lia. }
  intros Hne.
  assert (Hn : n <> 0) by (unfold n; destruct order; [done|simpl; lia]).
  destruct (Z.eqb_spec n 0) as [|_]; [contradiction|]. specialize (Hr Hn).
  split; [exact Hr|].
  assert (Hlk : room_store (set_room w room (reordered rm order cur idx)) !! room
                = Some (reordered rm order cur idx)).
  { unfold set_room. cbn [room_store]. apply lookup_insert_eq. }
  unfold NextRound. rewrite Hrm, HU. cbn [mbind option_bind]. rewrite Hlk.
  cbn [mbind option_bind].
  change (Room.PlayerOrder (reordered rm order cur idx)) with order.
  change (Room.CurrentIndex (reordered rm order cur idx)) with idx. fold n.
  destruct (Z.eqb_spec n 0) as [|_]; [contradiction|].
  set (idx' := Z.rem (int_add idx 1) n) in *.
  set (rm1 := Room.with_Word (Room.with_CurrentIndex (reordered rm order cur idx) idx') "").
  set (rm2 := if idx' =? 0
              then Room.with_RoundNumber rm1 (int_add (Room.RoundNumber rm1) 1) else rm1).
  assert (Hrm2 : Room.CurrentIndex rm2 = idx' /\ Room.PlayerOrder rm2 = order
                 /\ Room.Players rm2 = Room.Players rm).
  { unfold rm2. by destruct (idx' =? 0). }
  destruct Hrm2 as (Hi2 & Ho2 & Hp2).
  destruct ((idx' =? 0) && (Room.MaxRounds rm2 <? Room.RoundNumber rm2)).
  - exists rm2, [Go [CallEndGame room]]. rewrite set_room_set_room.
    split; [reflexivity|]. split; [exact Hi2|]. discriminate.
  - rewrite Ho2. destruct (index_is_Some order idx' Hr) as [id Hid]. rewrite Hid.
    cbn [mbind option_bind]. rewrite set_room_set_room.
    do 2 eexists. split; [reflexivity|]. split; [exact Hi2|]. intros _.
    unfold GetPlayerByIndex.
    change (Room.PlayerOrder (reordered rm order cur idx)) with order.
    change (Room.Players (reordered rm order cur idx)) with (Room.Players rm). fold n.
    destruct (Z.ltb_spec idx' 0); [lia|]. destruct (Z.leb_spec n idx'); [lia|].
    cbn [orb]. rewrite Hid. cbn [mbind option_bind]. simpl Room.Current. by rewrite Hp2.
Qed.

End RoomMethodFacts.

Lemma X30_room_methods_agree_witness :
  exists order cur idx,
    let rm' := reordered room_after_guess order cur idx in
    UpdatePlayerOrder 1 w_after_guess = Some (set_room w_after_guess 1 rm')
    /\ GetPlayerCount w_after_guess room_after_guess = Some (Z.of_nat (length order))
    /\ CanStartGame w_after_guess room_after_guess = Some (2 <=? Z.of_nat (length order))
    /\ (order = [] <-> GetNextDrawerIndex rm' = -1)
    /\ (order <> [] ->
        0 <= GetNextDrawerIndex rm' < Z.of_nat (length order)
        /\ exists rm'' e,
             NextRound 1 w_after_guess = Some (set_room w_after_guess 1 rm'', e)
             /\ Room.CurrentIndex rm'' = GetNextDrawerIndex rm'
             /\ (e = [Go [CallStartWaitingPhase 1]] ->
                 Room.Current rm'' = GetPlayerByIndex rm' (GetNextDrawerIndex rm'))).
Proof.
  apply (X30_room_methods_agree 1 w_after_guess room_after_guess eq_refl).
  - apply (example_players room_after_guess true eq_refl).
  - intros c [= <-]. by eexists.
  - vm_compute. discriminate.
  - vm_compute. reflexivity.
Defined.
